(** * pyear: segment-level blink properties and flank-line intersection

    A shallow embedding of

      - [pyear/pyblinkers/segment_blink_properties.py]
        ([compute_segment_blink_properties]),
      - [pyear/matlab_fork/line_intersection_matlab.py]
        ([lines_intersection_matlabx]),
      - [segment_features.py] ([process_file]), and
      - the window computation of [tutorial/plot_blinks_report.py]
        ([_add_segment_figures]).

    Python floats are IEEE binary64 values ([PrimFloat.float]); pandas frames
    are ordered columns of cells over a row index; the objects that the
    orchestrator edits in place live in a store addressed by references, so
    that aliasing between the caller's table and the per-segment working rows
    is visible; logging, warnings and the calls into the collaborating classes
    are recorded, in order, as events. *)

From Stdlib Require Import Floats.PrimFloat Floats.SpecFloat Floats.FloatOps.
From Stdlib Require Floats.FloatAxioms.
From Stdlib Require Import ZArith Lia Bool.
From stdpp Require Import gmap strings list sorting.

Local Open Scope Z_scope.

(** ** Exceptions and results *)

(** [except Exception] catches the subclasses of [Exception] and lets the
    rest of the [BaseException] hierarchy (KeyboardInterrupt, SystemExit)
    through; the constructor records on which side a raised object is. *)
Inductive PyExc :=
| Exception (cls : string)
| BaseException (cls : string).

Inductive Result (A : Type) :=
| Ok (a : A)
| Raise (e : PyExc).
Arguments Ok {A} a.
Arguments Raise {A} e.

Definition rbind {A B} (r : Result A) (k : A -> Result B) : Result B :=
  match r with
  | Ok a => k a
  | Raise e => Raise e
  end.

Fixpoint rmapM {A B} (f : A -> Result B) (l : list A) : Result (list B) :=
  match l with
  | [] => Ok []
  | a :: l' => rbind (f a) (fun b => rbind (rmapM f l') (fun bs => Ok (b :: bs)))
  end.

(** ** Floats *)

(** [float(i)] for a Python int: the correctly rounded binary64. *)
Definition float_of_Z (i : Z) : float :=
  SF2Prim (binary_normalize prec emax i 0 false).

(** Truncation toward zero, as the float -> int64 cast does for finite values
    of magnitude below 2^63; [None] for NaN and the infinities. *)
Definition float_trunc (f : float) : option Z :=
  match Prim2SF f with
  | S754_zero _ => Some 0
  | S754_finite s m e =>
      let mag := if 0 <=? e then Z.shiftl (Z.pos m) e else Z.shiftr (Z.pos m) (- e) in
      Some (if s then - mag else mag)
  | S754_infinity _ | S754_nan => None
  end.

(** ** pandas cells and frames *)

Inductive Cell :=
| CInt (z : Z)
| CFloat (f : float)
| CStr (s : string)
| CNone.

(** [pd.isna] on one value. *)
Definition cell_isna (c : Cell) : bool :=
  match c with
  | CFloat f => is_nan f
  | CNone => true
  | _ => false
  end.

(** One element of [series == i] for an int [i]. *)
Definition cell_eq_int (i : Z) (c : Cell) : bool :=
  match c with
  | CInt z => z =? i
  | CFloat f => PrimFloat.eqb f (float_of_Z i)
  | _ => false
  end.

(** NaN-aware equality of two values, as [DataFrame.equals] compares them. *)
Definition cell_equals (a b : Cell) : bool :=
  match a, b with
  | CInt x, CInt y => x =? y
  | CFloat x, CFloat y => PrimFloat.eqb x y || (is_nan x && is_nan y)
  | CStr x, CStr y => bool_decide (x = y)
  | CNone, CNone => true
  | _, _ => false
  end.

Record DataFrame := mkDataFrame {
  df_index : list Z;
  df_columns : list (string * list Cell)
}.

(** [pd.DataFrame()] *)
Definition pd_DataFrame : DataFrame := mkDataFrame [] [].

(** [df.empty]: some axis has length zero. *)
Definition df_empty (df : DataFrame) : bool :=
  (length (df_index df) =? 0)%nat || (length (df_columns df) =? 0)%nat.

Definition column_names (df : DataFrame) : list string := (df_columns df).*1.

(** [name in df.columns] *)
Definition has_column (name : string) (df : DataFrame) : bool :=
  bool_decide (name ∈ column_names df).

Fixpoint assoc_lookup {A} (name : string) (cols : list (string * A)) : option A :=
  match cols with
  | [] => None
  | (n, c) :: cols' => if decide (n = name) then Some c else assoc_lookup name cols'
  end.

(** [df[name]] *)
Definition getitem (df : DataFrame) (name : string) : Result (list Cell) :=
  match assoc_lookup name (df_columns df) with
  | Some c => Ok c
  | None => Raise (Exception "KeyError")
  end.

Fixpoint assoc_set {A} (name : string) (c : A) (cols : list (string * A))
  : list (string * A) :=
  match cols with
  | [] => [(name, c)]
  | (n, c0) :: cols' =>
      if decide (n = name) then (n, c) :: cols' else (n, c0) :: assoc_set name c cols'
  end.

(** [df[name] = column]: an existing column is replaced where it stands, a new
    name is appended. *)
Definition setitem (df : DataFrame) (name : string) (col : list Cell) : DataFrame :=
  mkDataFrame (df_index df) (assoc_set name col (df_columns df)).

(** [df[name] = scalar] *)
Definition setitem_scalar (df : DataFrame) (name : string) (c : Cell) : DataFrame :=
  setitem df name (replicate (length (df_index df)) c).

Fixpoint mask_filter {A} (mask : list bool) (l : list A) : list A :=
  match mask, l with
  | b :: mask', a :: l' => if b then a :: mask_filter mask' l' else mask_filter mask' l'
  | _, _ => []
  end.

(** [df[mask]] for a boolean mask: a new frame with the selected rows, which
    keep their index labels. *)
Definition getitem_mask (df : DataFrame) (mask : list bool) : DataFrame :=
  mkDataFrame (mask_filter mask (df_index df))
              (prod_map id (mask_filter mask) <$> df_columns df).

(** [series.fillna(v)] *)
Definition fillna (v : Cell) (col : list Cell) : list Cell :=
  (fun c => if cell_isna c then v else c) <$> col.

(** NaN-aware frame equality ([DataFrame.equals]). *)
Fixpoint cells_equal (a b : list Cell) : bool :=
  match a, b with
  | [], [] => true
  | x :: a', y :: b' => cell_equals x y && cells_equal a' b'
  | _, _ => false
  end.

Fixpoint columns_equal (a b : list (string * list Cell)) : bool :=
  match a, b with
  | [], [] => true
  | (n, x) :: a', (m, y) :: b' =>
      bool_decide (n = m) && cells_equal x y && columns_equal a' b'
  | _, _ => false
  end.

Definition frame_equals (a b : DataFrame) : bool :=
  bool_decide (df_index a = df_index b) && columns_equal (df_columns a) (df_columns b).

#[export] Instance PyExc_eq_dec : EqDecision PyExc.
Proof. solve_decision. Defined.

(** Two outcomes of a call agree: the same exception, or tables that are equal
    with NaN equal to NaN. *)
Definition result_equals (a b : Result DataFrame) : bool :=
  match a, b with
  | Ok x, Ok y => frame_equals x y
  | Raise e1, Raise e2 => bool_decide (e1 = e2)
  | _, _ => false
  end.

(** [pd.concat(frames, ignore_index=True)]: the columns are the union of the
    frames' columns in order of first appearance, a frame that lacks a column
    contributes NaN there, and the rows are renumbered from zero. *)
Fixpoint union_names (seen names : list string) : list string :=
  match names with
  | [] => []
  | n :: names' =>
      if decide (n ∈ seen) then union_names seen names'
      else n :: union_names (n :: seen) names'
  end.

Definition concat_column (name : string) (frames : list DataFrame) : list Cell :=
  frames ≫= (fun df =>
    match assoc_lookup name (df_columns df) with
    | Some c => c
    | None => replicate (length (df_index df)) (CFloat nan)
    end).

Definition pd_concat (frames : list DataFrame) : DataFrame :=
  let n := length (frames ≫= df_index) in
  mkDataFrame (Z.of_nat <$> seq 0 n)
              ((fun name => (name, concat_column name frames))
                 <$> union_names [] (frames ≫= column_names)).

(** ** Raw segments *)

Record Raw := mkRaw {
  info_sfreq : float;
  ch_names : list string;
  raw_data : list (list float)
}.

(** The same segment with another sampling rate in its [info]. *)
Definition with_sfreq (sfreq : float) (raw : Raw) : Raw :=
  mkRaw sfreq (ch_names raw) (raw_data raw).

Fixpoint index_of (name : string) (names : list string) : option nat :=
  match names with
  | [] => None
  | n :: names' => if decide (n = name) then Some 0%nat else S <$> index_of name names'
  end.

(** [raw.get_data(picks=channel)]: a 2-D array with the one picked row. *)
Definition get_data (raw : Raw) (picks : string) : Result (list (list float)) :=
  match index_of picks (ch_names raw) with
  | None => Raise (Exception "ValueError")
  | Some i =>
      match raw_data raw !! i with
      | Some row => Ok [row]
      | None => Raise (Exception "IndexError")
      end
  end.

(** [a[i]] on a sequence, for a non-negative [i]. *)
Definition seq_index {A} (a : list A) (i : nat) : Result A :=
  match a !! i with
  | Some x => Ok x
  | None => Raise (Exception "IndexError")
  end.

(** ** Events, the object store and the monad of the orchestrator *)

Inductive Level := INFO | WARNING.

Inductive LogArg :=
| ArgInt (z : Z)
| ArgExc (e : PyExc).

Inductive Event :=
| Log (level : Level) (fmt : string) (args : list LogArg)
| Warn (message category : string)
| Call_get_data (raw : Raw) (picks : string)
| Call_FitBlinks (candidate_signal : list float) (df : DataFrame)
| Call_dprocess_segment_raw (run_fit : bool)
| Call_BlinkProperties (signal : list float) (frame_blinks : DataFrame)
                       (sfreq : float) (fitted : bool).

(** The events that are calls on a segment or into a collaborator. *)
Definition is_call (ev : Event) : bool :=
  match ev with
  | Log _ _ _ | Warn _ _ => false
  | _ => true
  end.

(** A call of the property calculator is made with the rate [sfreq]. *)
Definition uses_sfreq (sfreq : float) (ev : Event) : Prop :=
  match ev with
  | Call_BlinkProperties _ _ sf _ => sf = sfreq
  | _ => True
  end.

(** The rows handed to the fitter satisfy [P]. *)
Definition dispatched (P : DataFrame -> Prop) (ev : Event) : Prop :=
  match ev with
  | Call_FitBlinks _ rows => P rows
  | _ => True
  end.

Abbreviation loc := positive.

Record State := mkState {
  heap : gmap loc DataFrame;
  events : list Event
}.

Definition M (A : Type) : Type := State -> State * Result A.

Definition ret {A} (a : A) : M A := fun s => (s, Ok a).

Definition bind {A B} (m : M A) (k : A -> M B) : M B :=
  fun s =>
    match m s with
    | (s', Ok a) => k a s'
    | (s', Raise e) => (s', Raise e)
    end.

Declare Scope py_scope.
Delimit Scope py_scope with py.
Notation "x <- m ;; k" := (bind m (fun x => k))
  (at level 100, m at next level, right associativity) : py_scope.
Notation "m ;;; k" := (bind m (fun _ => k))
  (at level 100, right associativity) : py_scope.
Local Open Scope py_scope.

Definition lift {A} (r : Result A) : M A := fun s => (s, r).

Definition emit (ev : Event) : M unit :=
  fun s => (mkState (heap s) (events s ++ [ev]), Ok tt).

(** A new object: its reference is one the store does not hold yet. *)
Definition alloc (v : DataFrame) : M loc :=
  fun s =>
    let l := fresh (dom (heap s)) in
    (mkState (<[l := v]> (heap s)) (events s), Ok l).

(** Reading through a reference.  Every reference the orchestrator reads
    comes from [alloc] or from its caller; a reference to nothing has no
    counterpart in Python and ends the run. *)
Definition load (l : loc) : M DataFrame :=
  fun s =>
    match heap s !! l with
    | Some v => (s, Ok v)
    | None => (s, Raise (BaseException "dangling reference"))
    end.

Definition store (l : loc) (v : DataFrame) : M unit :=
  fun s => (mkState (<[l := v]> (heap s)) (events s), Ok tt).

(** [try: body except Exception as exc: handler(exc)] *)
Definition try_except {A} (body : M A) (handler : PyExc -> M A) : M A :=
  fun s =>
    match body s with
    | (s', Raise (Exception cls)) => handler (Exception cls) s'
    | r => r
    end.

(** [steps s ev s']: from [s] the store was only extended with new objects
    and exactly the events [ev] were added. *)
Definition steps (s : State) (ev : list Event) (s' : State) : Prop :=
  heap s ⊆ heap s' /\ events s' = events s ++ ev.

(** The references in [ls] hold the tables [ps], in order. *)
Definition holds (s : State) (ls : list loc) (ps : list DataFrame) : Prop :=
  Forall2 (fun l p => heap s !! l = Some p) ls ps.

Definition logger_info (fmt : string) (args : list LogArg) : M unit :=
  emit (Log INFO fmt args).

Definition logger_warning (fmt : string) (args : list LogArg) : M unit :=
  emit (Log WARNING fmt args).

Definition warnings_warn (message category : string) : M unit :=
  emit (Warn message category).

(** ** The segment orchestrator *)

(** The collaborating classes live outside this module; the orchestrator is
    written against their interfaces.  [FitBlinks] is the constructor of the
    fitter, [fitter_df] the state of the [df] it was handed (the fitter keeps
    the reference, so what it edits in place is seen through [rows]),
    [BlinkProperties] the construction of the property calculator followed by
    its [.df].  [int_of_str] is Python's [int] on a string.  The signal is
    handed to both classes as the same array and is taken not to be edited by
    them. *)
Class Collaborators := {
  Params : Type;
  Fitter : Type;
  int_of_str : string -> option Z;
  FitBlinks : list float -> DataFrame -> Params -> Result Fitter;
  fitter_df : Fitter -> DataFrame;
  dprocess_segment_raw : Fitter -> bool -> Result Fitter;
  frame_blinks : Fitter -> DataFrame;
  BlinkProperties :
    list float -> DataFrame -> float -> Params -> bool -> Result DataFrame
}.

Section Orchestrator.

Context {collab : Collaborators}.

(** One element of [series.astype(int)]. *)
Definition astype_int_cell (c : Cell) : Result Cell :=
  match c with
  | CInt z => Ok (CInt z)
  | CFloat f =>
      match float_trunc f with
      | Some z => Ok (CInt z)
      | None => Raise (Exception "IntCastingNaNError")
      end
  | CStr s =>
      match int_of_str s with
      | Some z => Ok (CInt z)
      | None => Raise (Exception "ValueError")
      end
  | CNone => Raise (Exception "TypeError")
  end.

Definition astype_int (col : list Cell) : Result (list Cell) :=
  rmapM astype_int_cell col.

(** [rows[name] = rows[name].astype(int)] *)
Definition coerce_column (rows : loc) (name : string) : M unit :=
  v <- load rows ;;
  col <- lift (getitem v name) ;;
  col' <- lift (astype_int col) ;;
  store rows (setitem v name col').

(** [rows["right_zero"] = rows["right_zero"].fillna(-1).astype(int)] *)
Definition coerce_right_zero (rows : loc) : M unit :=
  v <- load rows ;;
  col <- lift (getitem v "right_zero") ;;
  col' <- lift (astype_int (fillna (CInt (-1)) col)) ;;
  store rows (setitem v "right_zero" col').

(** [rows = blink_df[blink_df["seg_id"] == seg_id].copy()] *)
Definition select_rows (blink_df : loc) (seg_id : nat) : M loc :=
  df <- load blink_df ;;
  ids <- lift (getitem df "seg_id") ;;
  let mask := cell_eq_int (Z.of_nat seg_id) <$> ids in
  selected <- alloc (getitem_mask df mask) ;;
  v <- load selected ;;
  alloc v.

(** The body of the [for] loop, lines 80-108; it returns [all_props] as the
    iteration leaves it ([continue] leaves it as it was).  Only the call of
    [dprocess_segment_raw] stands inside the [try]. *)
Definition segment_body (blink_df : loc) (params : Params) (channel : string)
    (run_fit : bool) (sfreq : float) (seg_id : nat) (raw : Raw)
    (all_props : list loc) : M (list loc) :=
  rows <- select_rows blink_df seg_id ;;                              (* 80 *)
  coerce_column rows "start_blink" ;;;                                (* 81 *)
  coerce_column rows "end_blink" ;;;                                  (* 82 *)
  coerce_column rows "outer_start" ;;;                                (* 83 *)
  coerce_column rows "outer_end" ;;;                                  (* 84 *)
  coerce_column rows "left_zero" ;;;                                  (* 85 *)
  v <- load rows ;;
  (if has_column "right_zero" v then coerce_right_zero rows           (* 86-87 *)
   else ret tt) ;;;
  v <- load rows ;;
  if df_empty v then ret all_props                                    (* 88-89 *)
  else
    emit (Call_get_data raw channel) ;;;                              (* 91 *)
    data <- lift (get_data raw channel) ;;
    signal <- lift (seq_index data 0) ;;
    v <- load rows ;;
    emit (Call_FitBlinks signal v) ;;;                                (* 93 *)
    fitter <- lift (FitBlinks signal v params) ;;
    store rows (fitter_df fitter) ;;;
    fitted <- try_except                                              (* 94-98 *)
      (emit (Call_dprocess_segment_raw run_fit) ;;;
       fitter' <- lift (dprocess_segment_raw fitter run_fit) ;;
       store rows (fitter_df fitter') ;;;
       ret (Some fitter'))
      (fun exc =>
         logger_warning "Skipping segment %d due to fit error: %s"
                        [ArgInt (Z.of_nat seg_id); ArgExc exc] ;;;
         ret None) ;;
    match fitted with
    | None => ret all_props
    | Some fitter' =>
        emit (Call_BlinkProperties signal (frame_blinks fitter')      (* 100-106 *)
                                   sfreq run_fit) ;;;
        df <- lift (BlinkProperties signal (frame_blinks fitter') sfreq params
                                    run_fit) ;;
        props <- alloc df ;;
        p <- load props ;;
        store props (setitem_scalar p "seg_id" (CInt (Z.of_nat seg_id))) ;;; (* 107 *)
        ret (all_props ++ [props])                                    (* 108 *)
    end.

(** [for seg_id, raw in enumerate(segments)] from position [seg_id] on. *)
Fixpoint for_segments (blink_df : loc) (params : Params) (channel : string)
    (run_fit : bool) (sfreq : float) (seg_id : nat) (segments : list Raw)
    (all_props : list loc) : M (list loc) :=
  match segments with
  | [] => ret all_props
  | raw :: segments' =>
      all_props' <- segment_body blink_df params channel run_fit sfreq seg_id raw
                                 all_props ;;
      for_segments blink_df params channel run_fit sfreq (S seg_id) segments'
                   all_props'
  end.

Fixpoint load_all (ls : list loc) : M (list DataFrame) :=
  match ls with
  | [] => ret []
  | l :: ls' => v <- load l ;; vs <- load_all ls' ;; ret (v :: vs)
  end.

(** Lines 64-115.  [blink_df] is the reference to the caller's table; the
    table that is returned is a new object and is given by its value. *)
Definition compute_segment_blink_properties (segments : list Raw) (blink_df : loc)
    (params : Params) (channel : string) (run_fit : bool) : M DataFrame :=
  logger_info "Computing blink properties for %d segments"            (* 64 *)
              [ArgInt (Z.of_nat (length segments))] ;;;
  (if run_fit                                                         (* 66-70 *)
   then warnings_warn "run_fit=True may drop blinks due to NaNs in fit range"
                      "RuntimeWarning"
   else ret tt) ;;;
  df <- load blink_df ;;
  if df_empty df then                                                 (* 72-74 *)
    logger_info "Blink DataFrame is empty; nothing to compute" [] ;;;
    ret pd_DataFrame
  else
    let sfreq := match segments with                                  (* 76 *)
                 | raw :: _ => info_sfreq raw
                 | [] => 0%float
                 end in
    all_props <- for_segments blink_df params channel run_fit sfreq 0 segments [] ;;
    match all_props with
    | [] => ret pd_DataFrame                                          (* 110-111 *)
    | _ =>
        frames <- load_all all_props ;;
        let result := pd_concat frames in                             (* 113 *)
        logger_info "Computed blink properties for %d blinks"
                    [ArgInt (Z.of_nat (length (df_index result)))] ;;;
        ret result
    end.

(** *** What one iteration computes, as values

    The same steps without the store: what lines 80-87 make of the
    caller's table for one segment, how one iteration ends, and which
    events it leaves.  The facts below show that the loop over the store
    computes exactly this. *)

Definition coerce_value (v : DataFrame) (name : string) : Result DataFrame :=
  rbind (getitem v name) (fun col =>
  rbind (astype_int col) (fun col' => Ok (setitem v name col'))).

Definition coerce_right_zero_value (v : DataFrame) : Result DataFrame :=
  rbind (getitem v "right_zero") (fun col =>
  rbind (astype_int (fillna (CInt (-1)) col)) (fun col' =>
  Ok (setitem v "right_zero" col'))).

Definition selected_rows (df : DataFrame) (seg_id : nat) : Result DataFrame :=
  rbind (getitem df "seg_id") (fun ids =>
  Ok (getitem_mask df (cell_eq_int (Z.of_nat seg_id) <$> ids))).

Definition prepared_rows (df : DataFrame) (seg_id : nat) : Result DataFrame :=
  rbind (selected_rows df seg_id) (fun v0 =>
  rbind (coerce_value v0 "start_blink") (fun v1 =>
  rbind (coerce_value v1 "end_blink") (fun v2 =>
  rbind (coerce_value v2 "outer_start") (fun v3 =>
  rbind (coerce_value v3 "outer_end") (fun v4 =>
  rbind (coerce_value v4 "left_zero") (fun v5 =>
  if has_column "right_zero" v5 then coerce_right_zero_value v5 else Ok v5)))))).

(** The columns that lines 81-85 cast. *)
Definition index_columns : list string :=
  ["start_blink"; "end_blink"; "outer_start"; "outer_end"; "left_zero"].

(** [rows] is [sel] with the index columns cast to int, with [right_zero],
    when [sel] has it, filled with -1 and cast to int, and with nothing
    else changed: the same row labels, the same columns in the same order,
    and every other column as it was. *)
Definition coerced (sel rows : DataFrame) : Prop :=
  df_index rows = df_index sel
  /\ column_names rows = column_names sel
  /\ (forall name, name ∈ index_columns ->
        exists col, getitem sel name = Ok col
                    /\ getitem rows name = astype_int col)
  /\ (has_column "right_zero" sel = true ->
        exists col, getitem sel "right_zero" = Ok col
                    /\ getitem rows "right_zero"
                       = astype_int (fillna (CInt (-1)) col))
  /\ (forall name, name ∉ index_columns ->
        (name = "right_zero" -> has_column "right_zero" sel = false) ->
        getitem rows name = getitem sel name).

Inductive Outcome :=
| Aborted (e : PyExc)
| NoRows
| FitError (e : PyExc)
| Props (props : DataFrame).

Definition skip_warning (seg_id : nat) (exc : PyExc) : Event :=
  Log WARNING "Skipping segment %d due to fit error: %s"
      [ArgInt (Z.of_nat seg_id); ArgExc exc].

Definition segment_run (df : DataFrame) (params : Params) (channel : string)
    (run_fit : bool) (sfreq : float) (seg_id : nat) (raw : Raw)
    : list Event * Outcome :=
  match prepared_rows df seg_id with
  | Raise e => ([], Aborted e)
  | Ok v =>
      if df_empty v then ([], NoRows)
      else
        let ev1 := [Call_get_data raw channel] in
        match rbind (get_data raw channel) (fun data => seq_index data 0) with
        | Raise e => (ev1, Aborted e)
        | Ok signal =>
            let ev2 := ev1 ++ [Call_FitBlinks signal v] in
            match FitBlinks signal v params with
            | Raise e => (ev2, Aborted e)
            | Ok fitter =>
                let ev3 := ev2 ++ [Call_dprocess_segment_raw run_fit] in
                match dprocess_segment_raw fitter run_fit with
                | Raise (Exception cls) =>
                    (ev3 ++ [skip_warning seg_id (Exception cls)],
                     FitError (Exception cls))
                | Raise e => (ev3, Aborted e)
                | Ok fitter' =>
                    let fb := frame_blinks fitter' in
                    let ev4 := ev3 ++ [Call_BlinkProperties signal fb sfreq run_fit] in
                    match BlinkProperties signal fb sfreq params run_fit with
                    | Raise e => (ev4, Aborted e)
                    | Ok p =>
                        (ev4, Props (setitem_scalar p "seg_id"
                                                    (CInt (Z.of_nat seg_id))))
                    end
                end
            end
        end
  end.

(** The table a finished iteration adds to [all_props], if any. *)
Definition outcome_props (o : Outcome) : option DataFrame :=
  match o with
  | Props p => Some p
  | _ => None
  end.

(** How one iteration ends, read off the value it returns. *)
Definition body_result (all_props : list loc) (o : Outcome) (s' : State)
    (r : Result (list loc)) : Prop :=
  match o with
  | Aborted e => r = Raise e
  | NoRows | FitError _ => r = Ok all_props
  | Props p => exists l, r = Ok (all_props ++ [l]) /\ heap s' !! l = Some p
  end.

(** The loop from position [seg_id] on: its events, and the tables it
    appends unless an exception escapes. *)
Fixpoint batch_run (df : DataFrame) (params : Params) (channel : string)
    (run_fit : bool) (sfreq : float) (seg_id : nat) (segments : list Raw)
    : list Event * Result (list DataFrame) :=
  match segments with
  | [] => ([], Ok [])
  | raw :: segments' =>
      let '(ev, o) := segment_run df params channel run_fit sfreq seg_id raw in
      match o with
      | Aborted e => (ev, Raise e)
      | _ =>
          let '(ev', r) := batch_run df params channel run_fit sfreq (S seg_id)
                                     segments' in
          (ev ++ ev',
           rbind r (fun ps => Ok (option_list (outcome_props o) ++ ps)))
      end
  end.

(** The table each segment from position [seg_id] on adds to the result,
    [None] for a segment that adds none. *)
Fixpoint props_from (df : DataFrame) (params : Params) (channel : string)
    (run_fit : bool) (sfreq : float) (seg_id : nat) (segments : list Raw)
    : list (option DataFrame) :=
  match segments with
  | [] => []
  | raw :: segments' =>
      outcome_props (segment_run df params channel run_fit sfreq seg_id raw).2
      :: props_from df params channel run_fit sfreq (S seg_id) segments'
  end.

Definition first_sfreq (segments : list Raw) : float :=
  match segments with
  | raw :: _ => info_sfreq raw
  | [] => 0%float
  end.

(** [pd.DataFrame()] when nothing was appended, the concatenation
    otherwise. *)
Definition result_table (frames : list DataFrame) : DataFrame :=
  match frames with
  | [] => pd_DataFrame
  | _ => pd_concat frames
  end.

Definition opening_events (segments : list Raw) (run_fit : bool) : list Event :=
  Log INFO "Computing blink properties for %d segments"
      [ArgInt (Z.of_nat (length segments))]
  :: (if run_fit
      then [Warn "run_fit=True may drop blinks due to NaNs in fit range"
                 "RuntimeWarning"]
      else []).

Definition closing_events (frames : list DataFrame) : list Event :=
  match frames with
  | [] => []
  | _ => [Log INFO "Computed blink properties for %d blinks"
              [ArgInt (Z.of_nat (length (df_index (pd_concat frames))))]]
  end.

(** The whole call on a table [df]: the events it adds and what it returns
    or raises. *)
Definition call_run (segments : list Raw) (df : DataFrame) (params : Params)
    (channel : string) (run_fit : bool) : list Event * Result DataFrame :=
  if df_empty df then
    (opening_events segments run_fit
       ++ [Log INFO "Blink DataFrame is empty; nothing to compute" []],
     Ok pd_DataFrame)
  else
    let '(ev, r) := batch_run df params channel run_fit (first_sfreq segments)
                              0 segments in
    match r with
    | Raise e => (opening_events segments run_fit ++ ev, Raise e)
    | Ok frames =>
        (opening_events segments run_fit ++ ev ++ closing_events frames,
         Ok (result_table frames))
    end.

End Orchestrator.

(** ** A small instance of the collaborators

    A fitter that stores what it is given and, when asked to fit, fails on a
    signal that holds a NaN; a property calculator that fails on a signal
    with no finite sample (as a NaN-ignoring arg-max does) and otherwise adds
    [duration_zero = (right_zero - left_zero) / sfreq] to the fitted rows. *)
Module Demo.

Definition any_nan (signal : list float) : bool := existsb is_nan signal.
Definition all_nan (signal : list float) : bool := forallb is_nan signal.

Definition cell_sub (a b : Cell) : Cell :=
  match a, b with
  | CInt x, CInt y => CInt (x - y)
  | _, _ => CFloat nan
  end.

Definition cell_div (sfreq : float) (c : Cell) : Cell :=
  match c with
  | CInt x => CFloat (float_of_Z x / sfreq)
  | _ => CFloat nan
  end.

Definition duration_zero (sfreq : float) (fb : DataFrame) : Result (list Cell) :=
  rbind (getitem fb "right_zero") (fun rz =>
  rbind (getitem fb "left_zero") (fun lz =>
  Ok (cell_div sfreq <$> zip_with cell_sub rz lz))).

Fixpoint digits_value (acc : Z) (s : string) : option Z :=
  match s with
  | EmptyString => Some acc
  | String a s' =>
      let d := Z.of_nat (Ascii.nat_of_ascii a) - 48 in
      if (0 <=? d) && (d <=? 9) then digits_value (10 * acc + d) s' else None
  end.

Definition decimal (s : string) : option Z :=
  match s with
  | EmptyString => None
  | _ => digits_value 0 s
  end.

Definition collab : Collaborators := {|
  Params := unit;
  Fitter := list float * DataFrame;
  int_of_str := decimal;
  FitBlinks := fun signal df _ => Ok (signal, df);
  fitter_df := snd;
  dprocess_segment_raw := fun fitter run_fit =>
    if run_fit && any_nan (fst fitter)
    then Raise (Exception "ValueError")
    else Ok fitter;
  frame_blinks := snd;
  BlinkProperties := fun signal fb sfreq _ _ =>
    if all_nan signal then Raise (Exception "ValueError")
    else rbind (duration_zero sfreq fb) (fun d => Ok (setitem fb "duration_zero" d))
|}.

(** Two segments of three samples at 250 Hz on channel EEG-E8, and a
    candidate table with one blink in each. *)
Definition good : Raw := mkRaw 250 ["EEG-E8"] [[0; 10; 0]%float].
Definition bad : Raw := mkRaw 250 ["EEG-E8"] [[nan; nan; nan]].

Definition candidates : DataFrame :=
  mkDataFrame [0; 1]
    [("seg_id", [CInt 0; CInt 1]);
     ("blink_id", [CInt 0; CInt 0]);
     ("start_blink", [CFloat 100; CFloat 100]);
     ("end_blink", [CFloat 200; CFloat 200]);
     ("outer_start", [CInt 80; CInt 80]);
     ("outer_end", [CInt 220; CInt 220]);
     ("left_zero", [CInt 90; CInt 90]);
     ("right_zero", [CFloat 210; CFloat nan])].

(** The same table with a third candidate whose [seg_id] matches no
    segment of a two-segment batch. *)
Definition stray : DataFrame :=
  mkDataFrame [0; 1; 2]
    [("seg_id", [CInt 0; CInt 1; CInt 5]);
     ("blink_id", [CInt 0; CInt 0; CInt 0]);
     ("start_blink", [CFloat 100; CFloat 100; CFloat nan]);
     ("end_blink", [CFloat 200; CFloat 200; CFloat nan]);
     ("outer_start", [CInt 80; CInt 80; CInt 80]);
     ("outer_end", [CInt 220; CInt 220; CInt 220]);
     ("left_zero", [CInt 90; CInt 90; CInt 90]);
     ("right_zero", [CFloat 210; CFloat nan; CFloat nan])].

(** A segment like [good] with other samples, and one recorded at another
    rate. *)
Definition taller : Raw := mkRaw 250 ["EEG-E8"] [[0; 20; 0]%float].
Definition faster : Raw := mkRaw 500 ["EEG-E8"] [[0; 10; 0]%float].

Definition blink_df : loc := 1%positive.

Definition state0 : State := mkState {[ blink_df := candidates ]} [].
Definition state_stray : State := mkState {[ blink_df := stray ]} [].
Definition state_empty : State := mkState {[ blink_df := pd_DataFrame ]} [].

End Demo.

(** ** Flank-line intersection *)

#[export] Instance Result_ret : MRet Result := @Ok.
#[export] Instance Result_bind : MBind Result := fun A B k r => rbind r k.

Module LineIntersection.

(** [signal[i]] on a NumPy array: a negative index counts from the end. *)
Definition np_index (signal : list float) (i : Z) : Result float :=
  let n := Z.of_nat (length signal) in
  if (0 <=? i) && (i <? n) then seq_index signal (Z.to_nat i)
  else if (- n <=? i) && (i <? 0) then seq_index signal (Z.to_nat (i + n))
  else Raise (Exception "IndexError").

(** [signal[x]] for an integer index array [x]. *)
Definition np_take (signal : list float) (x : list Z) : Result (list float) :=
  rmapM (np_index signal) x.

(** The helpers imported from [matlab_forking] and [zero_crossing]; [FitS]
    is the structure [S] that [polyfitMatlab] hands to [polyvalMatlab]. *)
Class MatlabFork := {
  FitS : Type;
  polyfitMatlab : list Z -> list float -> nat -> Result (list float * FitS * list float);
  polyvalMatlab : list float -> list Z -> FitS -> list float
                  -> Result (list float * list float);
  corrMatlab : list float -> list float -> Result (list (list float) * list (list float));
  get_line_intersection_slope : float -> float -> float -> float -> Result (float * float)
}.

(** De-normalised slope and intercept of a line fitted in the centred and
    scaled basis [(x - center) / scale]. *)
Definition raw_slope (p0 scale : float) : float := (p0 / scale)%float.
Definition raw_intercept (p0 p1 center scale : float) : float :=
  (p1 - raw_slope p0 scale * center)%float.

(** Modelled from the spec: [get_intersection] of [matlab_forking], which is
    not among the sources.  Both lines are taken back to raw index space;
    [x* = (b2 - b1) / (m1 - m2)], [y* = m1 * x* + b1]; each x-intercept
    solves [0 = m * x + b]; when [m1 == m2] all four are NaN. *)
Definition get_intersection (p q u v : list float)
  : Result (float * float * float * float) :=
  p0 ← seq_index p 0; p1 ← seq_index p 1;
  q0 ← seq_index q 0; q1 ← seq_index q 1;
  u0 ← seq_index u 0; u1 ← seq_index u 1;
  v0 ← seq_index v 0; v1 ← seq_index v 1;
  let m1 := raw_slope p0 u1 in
  let b1 := raw_intercept p0 p1 u0 u1 in
  let m2 := raw_slope q0 v1 in
  let b2 := raw_intercept q0 q1 v0 v1 in
  if (m1 =? m2)%float then Ok (nan, nan, nan, nan)
  else
    let x := ((b2 - b1) / (m1 - m2))%float in
    Ok (x, (m1 * x + b1)%float, (- b1 / m1)%float, (- b2 / m2)%float).

Record LineFit := mkLineFit {
  leftSlope : float;
  rightSlope : float;
  averLeftVelocity : float;
  averRightVelocity : float;
  rightR2 : float;
  leftR2 : float;
  xIntersect : float;
  yIntersect : float;
  leftXIntercept : float;
  rightXIntercept : float;
  xLineCross_l : float;
  yLineCross_l : float;
  xLineCross_r : float;
  yLineCross_r : float
}.

Section Solver.

Context {fork : MatlabFork}.

Definition lines_intersection_matlabx (signal : list float) (xRight xLeft : list Z)
  : Result LineFit :=
  yRight ← np_take signal xRight;
  yLeft ← np_take signal xLeft;
  '(pLeft, SLeft, muLeft) ← polyfitMatlab xLeft yLeft 1;
  '(yPred, _) ← polyvalMatlab pLeft xLeft SLeft muLeft;
  '(leftR2, _) ← corrMatlab yLeft yPred;
  '(pRight, SRight, muRight) ← polyfitMatlab xRight yRight 1;
  '(yPredRight, _) ← polyvalMatlab pRight xRight SRight muRight;
  '(rightR2, _) ← corrMatlab yRight yPredRight;
  '(xIntersect, yIntersect, leftXIntercept, rightXIntercept)
    ← get_intersection pLeft pRight muLeft muRight;
  '(leftSlope, rightSlope)
    ← get_line_intersection_slope xIntersect yIntersect leftXIntercept rightXIntercept;
  pLeft0 ← seq_index pLeft 0; muLeft1 ← seq_index muLeft 1;
  let averLeftVelocity := (pLeft0 / muLeft1)%float in
  pRight0 ← seq_index pRight 0; muRight1 ← seq_index muRight 1;
  let averRightVelocity := (pRight0 / muRight1)%float in
  rightR2_row ← seq_index rightR2 0; rightR2_00 ← seq_index rightR2_row 0;
  leftR2_row ← seq_index leftR2 0; leftR2_00 ← seq_index leftR2_row 0;
  Ok (mkLineFit leftSlope rightSlope averLeftVelocity averRightVelocity
                rightR2_00 leftR2_00 xIntersect yIntersect
                leftXIntercept rightXIntercept nan nan nan nan).

End Solver.

(** A small instance of the helpers: the centred and scaled least-squares
    line, its evaluation, the squared Pearson correlation, and the slopes of
    the two sides of the tent. *)
Module Demo.

Definition fsum (l : list float) : float := foldr PrimFloat.add 0%float l.
Definition flen {A} (l : list A) : float := float_of_Z (Z.of_nat (length l)).
Definition mean (l : list float) : float := (fsum l / flen l)%float.
Definition std (l : list float) : float :=
  let m := mean l in
  PrimFloat.sqrt (fsum ((fun x => (x - m) * (x - m))%float <$> l) / (flen l - 1))%float.
Definition normalise (center scale : float) (x : list Z) : list float :=
  (fun i => (float_of_Z i - center) / scale)%float <$> x.

Definition polyfit (x : list Z) (y : list float) (n : nat)
  : Result (list float * unit * list float) :=
  let xf := float_of_Z <$> x in
  let center := mean xf in
  let scale := std xf in
  let xn := normalise center scale x in
  let p0 := (fsum (zip_with PrimFloat.mul xn y)
             / fsum (zip_with PrimFloat.mul xn xn))%float in
  Ok ([p0; mean y], tt, [center; scale]).

Definition polyval (p : list float) (x : list Z) (S : unit) (mu : list float)
  : Result (list float * list float) :=
  p0 ← seq_index p 0; p1 ← seq_index p 1;
  center ← seq_index mu 0; scale ← seq_index mu 1;
  Ok ((fun t => p0 * t + p1)%float <$> normalise center scale x, []).

Definition corr (y yPred : list float)
  : Result (list (list float) * list (list float)) :=
  let my := mean y in
  let mp := mean yPred in
  let dy := (fun t => t - my)%float <$> y in
  let dp := (fun t => t - mp)%float <$> yPred in
  let sxy := fsum (zip_with PrimFloat.mul dy dp) in
  let sxx := fsum (zip_with PrimFloat.mul dy dy) in
  let syy := fsum (zip_with PrimFloat.mul dp dp) in
  Ok ([[(sxy * sxy / (sxx * syy))%float]], [[0%float]]).

Definition tent_slopes (x y lx rx : float) : Result (float * float) :=
  Ok ((y / (x - lx))%float, (y / (x - rx))%float).

Definition fork : MatlabFork := {|
  FitS := unit;
  polyfitMatlab := polyfit;
  polyvalMatlab := polyval;
  corrMatlab := corr;
  get_line_intersection_slope := tent_slopes
|}.

(** A triangular pulse, and a ramp whose two windows are parallel. *)
Definition triangle : list float := [0; 5; 10; 5; 0]%float.
Definition ramp : list float := [0; 5; 10; 15; 20]%float.

End Demo.

End LineIntersection.

(** ** Vocabulary for further facts about the orchestrator *)

(** A value that [astype(int)] cannot cast: a missing value or an infinity. *)
Definition uncastable (c : Cell) : Prop :=
  c = CNone \/ c = CFloat nan \/ c = CFloat infinity \/ c = CFloat neg_infinity.

(** The columns every iteration reads, whether or not a row matches. *)
Definition required_columns : list string :=
  ["seg_id"; "start_blink"; "end_blink"; "outer_start"; "outer_end"; "left_zero"].


Definition is_warn (ev : Event) : bool :=
  match ev with
  | Warn _ _ => true
  | _ => false
  end.

(** Some candidate row of [df] carries the position [j] as its [seg_id]. *)
Definition has_candidate (df : DataFrame) (j : nat) : Prop :=
  exists ids c,
    getitem df "seg_id" = Ok ids /\ c ∈ ids /\ cell_eq_int (Z.of_nat j) c = true.

(** [signal] is the first row of what [get_data] returns for the channel on
    one of the segments. *)
Definition signal_of_batch (segments : list Raw) (channel : string)
    (signal : list float) : Prop :=
  exists j raw,
    segments !! j = Some raw
    /\ rbind (get_data raw channel) (fun data => seq_index data 0) = Ok signal.

(** A [seg_id] that equals no position: a missing value or a string. *)
Definition never_matching (c : Cell) : Prop :=
  c = CNone \/ c = CFloat nan \/ exists str, c = CStr str.

Section CastVocabulary.

Context {collab : Collaborators}.

(** What line 80 and the casts of lines 81-85 make of a table, or the first
    exception among them. *)
Definition cast_index_columns (v : DataFrame) : Result DataFrame :=
  foldl (fun r name => rbind r (fun v => coerce_value v name)) (Ok v) index_columns.

End CastVocabulary.

(** ** Further small cases *)

Module Cases.

(** The candidate table of [Demo] without its [left_zero] column. *)
Definition no_left_zero : DataFrame :=
  mkDataFrame [0; 1]
    [("seg_id", [CInt 0; CInt 1]);
     ("blink_id", [CInt 0; CInt 0]);
     ("start_blink", [CFloat 100; CFloat 100]);
     ("end_blink", [CFloat 200; CFloat 200]);
     ("outer_start", [CInt 80; CInt 80]);
     ("outer_end", [CInt 220; CInt 220]);
     ("right_zero", [CFloat 210; CFloat nan])].

(** The candidate table of [Demo] with the start of the second blink
    missing. *)
Definition nan_start : DataFrame :=
  mkDataFrame [0; 1]
    [("seg_id", [CInt 0; CInt 1]);
     ("blink_id", [CInt 0; CInt 0]);
     ("start_blink", [CFloat 100; CFloat nan]);
     ("end_blink", [CFloat 200; CFloat 200]);
     ("outer_start", [CInt 80; CInt 80]);
     ("outer_end", [CInt 220; CInt 220]);
     ("left_zero", [CInt 90; CInt 90]);
     ("right_zero", [CFloat 210; CFloat nan])].

(** The candidate table of [Demo] with a third row that names no segment. *)
Definition unlabelled : DataFrame :=
  mkDataFrame [0; 1; 2]
    [("seg_id", [CFloat 0; CFloat 1; CFloat nan]);
     ("blink_id", [CInt 0; CInt 0; CInt 0]);
     ("start_blink", [CFloat 100; CFloat 100; CFloat nan]);
     ("end_blink", [CFloat 200; CFloat 200; CFloat nan]);
     ("outer_start", [CInt 80; CInt 80; CInt 80]);
     ("outer_end", [CInt 220; CInt 220; CInt 220]);
     ("left_zero", [CInt 90; CInt 90; CInt 90]);
     ("right_zero", [CFloat 210; CFloat nan; CFloat nan])].

Definition state_of (df : DataFrame) : State := mkState {[ Demo.blink_df := df ]} [].

(** The collaborators of [Demo] with a fit that is interrupted from the
    keyboard. *)
Definition interrupted : Collaborators := {|
  Params := unit;
  Fitter := list float * DataFrame;
  int_of_str := Demo.decimal;
  FitBlinks := fun signal df _ => Ok (signal, df);
  fitter_df := snd;
  dprocess_segment_raw := fun _ _ => Raise (BaseException "KeyboardInterrupt");
  frame_blinks := snd;
  BlinkProperties := fun _ fb _ _ _ => Ok fb
|}.

End Cases.

(** ** Per-segment features of a recording ([segment_features.py]) *)

Module SegmentFeatures.

(** A Python dict with string keys, in insertion order. *)
Abbreviation dict := (list (string * Cell)).

(** [d.update(other)]: the items of [other], in their order, are assigned
    one by one. *)
Definition dict_update (d other : dict) : dict :=
  foldl (fun d kv => assoc_set kv.1 kv.2 d) d other.

(** [pd.DataFrame(records)] for a list of dicts: one row per dict, numbered
    from zero; the columns are the keys in order of first appearance; a key
    that a dict lacks gives NaN in its row. *)
Definition pd_DataFrame_of (records : list dict) : DataFrame :=
  mkDataFrame
    (Z.of_nat <$> seq 0 (length records))
    ((fun name =>
        (name, (fun r => default (CFloat nan) (assoc_lookup name r)) <$> records))
       <$> union_names [] (records ≫= fun r => r.*1)).

Inductive FeatureEvent :=
| Log_loading (raw_path : string)
| Log_computed (n : nat)
| Call_read_raw_fif (raw_path : string)
| Call_slice_raw_into_epochs (raw : Raw) (epoch_len : float)
| Call_segment_get_data (segment : Raw) (picks : string)
| Call_time_features (signal : list float) (sfreq : float)
| Call_frequency_features (blinks : list Cell) (signal : list float) (sfreq : float).

(** Code that records events and may raise. *)
Definition Tr (A : Type) : Type := (list FeatureEvent * Result A)%type.

Definition tr_ret {A} (a : A) : Tr A := ([], Ok a).

Definition tr_bind {A B} (m : Tr A) (k : A -> Tr B) : Tr B :=
  match m with
  | (ev, Ok a) => let '(ev', r) := k a in (ev ++ ev', r)
  | (ev, Raise e) => (ev, Raise e)
  end.

Definition tr_emit (ev : FeatureEvent) : Tr unit := ([ev], Ok tt).

Definition tr_lift {A} (r : Result A) : Tr A := ([], r).

Declare Scope tr_scope.
Delimit Scope tr_scope with tr.
Notation "x <- m ;; k" := (tr_bind m (fun x => k))
  (at level 100, m at next level, right associativity) : tr_scope.
Notation "m ;;; k" := (tr_bind m (fun _ => k))
  (at level 100, right associativity) : tr_scope.

(** The functions that [segment_features.py] imports: reading a recording,
    cutting it into segments (of its four results only the first, the
    segments, is used), and the two feature extractors, which return dicts. *)
Class FeatureLib := {
  read_raw_fif : string -> Result Raw;
  slice_raw_into_epochs : Raw -> float -> Result (list Raw);
  compute_time_domain_features : list float -> float -> Result dict;
  compute_frequency_domain_features : list Cell -> list float -> float -> Result dict
}.

Section ProcessFile.

Context {lib : FeatureLib}.

Local Open Scope tr_scope.

(** The body of the loop, lines 42-48: the record of one segment. *)
Definition segment_record (channel : string) (sfreq : float) (seg_idx : nat)
    (segment : Raw) : Tr dict :=
  tr_emit (Call_segment_get_data segment channel) ;;;                 (* 42 *)
  data <- tr_lift (get_data segment channel) ;;
  signal <- tr_lift (seq_index data 0) ;;
  tr_emit (Call_time_features signal sfreq) ;;;                       (* 43 *)
  time_feats <- tr_lift (compute_time_domain_features signal sfreq) ;;
  tr_emit (Call_frequency_features [] signal sfreq) ;;;               (* 44 *)
  freq_feats <- tr_lift (compute_frequency_domain_features [] signal sfreq) ;;
  let record := [("segment_index", CInt (Z.of_nat seg_idx))] in       (* 45 *)
  let record := dict_update record time_feats in                      (* 46 *)
  let record := dict_update record freq_feats in                      (* 47 *)
  tr_ret record.

(** [for seg_idx, segment in enumerate(segments)] from position [seg_idx]
    on; [records] is the list as built so far. *)
Fixpoint collect_records (channel : string) (sfreq : float) (seg_idx : nat)
    (segments : list Raw) (records : list dict) : Tr (list dict) :=
  match segments with
  | [] => tr_ret records
  | segment :: segments' =>
      record <- segment_record channel sfreq seg_idx segment ;;
      collect_records channel sfreq (S seg_idx) segments' (records ++ [record])  (* 48 *)
  end.

(** Lines 35-52. *)
Definition process_file (raw_path : string) (channel : string) : Tr DataFrame :=
  tr_emit (Log_loading raw_path) ;;;                                  (* 35 *)
  tr_emit (Call_read_raw_fif raw_path) ;;;                            (* 36 *)
  raw <- tr_lift (read_raw_fif raw_path) ;;
  tr_emit (Call_slice_raw_into_epochs raw 30) ;;;                     (* 37 *)
  segments <- tr_lift (slice_raw_into_epochs raw 30) ;;
  let sfreq := info_sfreq raw in                                      (* 38 *)
  records <- collect_records channel sfreq 0 segments [] ;;           (* 40-48 *)
  let df := pd_DataFrame_of records in                                (* 50 *)
  tr_emit (Log_computed (length (df_index df))) ;;;                   (* 51 *)
  tr_ret df.

End ProcessFile.

(** A small instance: a recording of two segments at 250 Hz; the time
    features give the mean and, by name, clash with one frequency feature. *)
Module Demo.

Definition recording : Raw := mkRaw 250 ["EEG-E8"] [[0; 10; 0; 0; 20; 0]%float].
Definition first : Raw := mkRaw 100 ["EEG-E8"] [[0; 10; 0]%float].
Definition second : Raw := mkRaw 100 ["EEG-E8"] [[0; 20; 0]%float].
Definition silent : Raw := mkRaw 100 ["EOG"] [[0; 0; 0]%float].

Definition total (signal : list float) : float := foldr PrimFloat.add 0%float signal.

Definition lib : FeatureLib := {|
  read_raw_fif := fun path =>
    if decide (path = "ear_eog.fif") then Ok recording
    else Raise (Exception "FileNotFoundError");
  slice_raw_into_epochs := fun _ _ => Ok [first; second];
  compute_time_domain_features := fun signal sfreq =>
    Ok [("energy", CFloat (total signal)); ("rate", CFloat sfreq)];
  compute_frequency_domain_features := fun _ signal sfreq =>
    Ok [("rate", CFloat (sfreq / 2)); ("peak", CFloat (total signal / 2))]
|}.

Definition lib_silent : FeatureLib := {|
  read_raw_fif := fun _ => Ok recording;
  slice_raw_into_epochs := fun _ _ => Ok [first; silent; second];
  compute_time_domain_features := fun signal sfreq => Ok [("energy", CFloat (total signal))];
  compute_frequency_domain_features := fun _ signal sfreq => Ok []
|}.

End Demo.

End SegmentFeatures.

(** ** The window drawn around a blink ([tutorial/plot_blinks_report.py]) *)

Module BlinkReport.

(** Python's [int] on a string. *)
Class Builtins := { int_of_string : string -> option Z }.

(** [a[start:stop]] on a sequence: a negative bound counts from the end, and
    both bounds are clipped to the sequence. *)
Definition py_slice {A} (a : list A) (start stop : Z) : list A :=
  let n := Z.of_nat (length a) in
  let clip i := if i <? 0 then Z.max 0 (i + n) else Z.min i n in
  take (Z.to_nat (clip stop - clip start)) (drop (Z.to_nat (clip start)) a).

(** [np.arange(a, b)] for ints. *)
Definition np_arange (a b : Z) : list Z :=
  (fun k => a + Z.of_nat k) <$> seq 0 (Z.to_nat (b - a)).

(** [x.max()] on a float array: an empty array raises, a NaN wins; which
    zero two zeros of opposite sign give is left to NumPy and taken here to
    be the earlier one. *)
Definition fmax (a b : float) : float :=
  if is_nan a then a else if is_nan b then b else if (a <? b)%float then b else a.

Definition np_max (x : list float) : Result float :=
  match x with
  | [] => Raise (Exception "ValueError")
  | y :: x' => Ok (foldl fmax y x')
  end.

(** [row[name]] on the Series that [iterrows] yields. *)
Definition row_getitem (row : list (string * Cell)) (name : string) : Result Cell :=
  match assoc_lookup name row with
  | Some c => Ok c
  | None => Raise (Exception "KeyError")
  end.

Record Window := mkWindow {
  start_idx : Z;
  end_idx : Z;
  left_zero : Z;
  right_zero : option Z;
  win_start : Z;
  win_end : Z;
  times : list float;
  window_data : list float;
  y_top : float
}.

Section Window.

Context {builtins : Builtins}.

(** [int(v)] on a value of a row.  ([iterrows] may have turned an int into
    the float of the same value, which [int] turns back for magnitudes below
    2^53.) *)
Definition py_int (c : Cell) : Result Z :=
  match c with
  | CInt z => Ok z
  | CFloat f =>
      match Prim2SF f with
      | S754_nan => Raise (Exception "ValueError")
      | S754_infinity _ => Raise (Exception "OverflowError")
      | _ => match float_trunc f with
             | Some z => Ok z
             | None => Raise (Exception "ValueError")
             end
      end
  | CStr str =>
      match int_of_string str with
      | Some z => Ok z
      | None => Raise (Exception "ValueError")
      end
  | CNone => Raise (Exception "TypeError")
  end.

(** Lines 42-49 of the loop body of [_add_segment_figures]: the indices of
    one row.  The right zero crossing is tested with [pd.notna] before it is
    converted. *)
Definition row_indices (row : list (string * Cell)) : Result (Z * Z * Z * option Z) :=
  start_idx ← row_getitem row "start_idx" ≫= py_int;                     (* 42 *)
  end_idx ← row_getitem row "end_idx" ≫= py_int;                         (* 43 *)
  left_zero ← row_getitem row "left_zero_idx" ≫= py_int;                 (* 44 *)
  rz ← row_getitem row "right_zero_idx";                                 (* 47 *)
  right_zero ← (if negb (cell_isna rz)
                then z ← row_getitem row "right_zero_idx" ≫= py_int; Ok (Some z) (* 46 *)
                else Ok None);                                           (* 48 *)
  Ok (start_idx, end_idx, left_zero, right_zero).

(** Lines 42-61 of the loop body of [_add_segment_figures], up to the first
    drawing call: the indices of one row, the window around them, its time
    axis, its samples and their maximum.  (Line 59 creates the figure and
    computes nothing.) *)
Definition blink_window (signal : list float) (sfreq : float)
    (row : list (string * Cell)) : Result Window :=
  '(start_idx, end_idx, left_zero, right_zero) ← row_indices row;
  let base_start := if left_zero <? start_idx then left_zero else start_idx in (* 51 *)
  let base_end := match right_zero with                                  (* 52-54 *)
                  | Some z => if z >? end_idx then z else end_idx
                  | None => end_idx
                  end in
  let win_start := Z.max 0 (base_start - 10) in                          (* 56 *)
  let win_end := Z.min (Z.of_nat (length signal) - 1) (base_end + 10) in (* 57 *)
  let times := (fun k => float_of_Z k / sfreq)%float
                 <$> np_arange win_start (win_end + 1) in                (* 58 *)
  let window_data := py_slice signal win_start (win_end + 1) in          (* 60 *)
  y_top ← np_max window_data;                                            (* 61 *)
  Ok (mkWindow start_idx end_idx left_zero right_zero win_start win_end
               times window_data y_top).

End Window.

Module Demo.

Definition builtins : Builtins := {| int_of_string := Demo.decimal |}.

(** A signal of forty samples with a blink from sample 15 to sample 25. *)
Definition signal : list float :=
  replicate 15 0%float ++ [1; 3; 5; 7; 9; 10; 9; 7; 5; 3; 1]%float ++ replicate 14 0%float.

Definition row : list (string * Cell) :=
  [("seg_id", CFloat 0); ("blink_id", CFloat 0); ("start_idx", CFloat 15);
   ("peak_idx", CFloat 20); ("end_idx", CFloat 25);
   ("left_zero_idx", CFloat 12); ("right_zero_idx", CFloat nan)].

(** The same blink placed beyond the end of the signal. *)
Definition late_row : list (string * Cell) :=
  [("seg_id", CFloat 0); ("blink_id", CFloat 0); ("start_idx", CFloat 60);
   ("peak_idx", CFloat 65); ("end_idx", CFloat 70);
   ("left_zero_idx", CFloat 58); ("right_zero_idx", CFloat 72)].

End Demo.

End BlinkReport.

(** * Facts *)

(** ** The store only grows *)

Section StoreFacts.

Context {collab : Collaborators}.

Lemma steps_refl s : steps s [] s.
Proof. split; [done | by rewrite app_nil_r]. Qed.

Lemma steps_trans s1 s2 s3 ev1 ev2 :
  steps s1 ev1 s2 -> steps s2 ev2 s3 -> steps s1 (ev1 ++ ev2) s3.
Proof.
  intros [H1 E1] [H2 E2]. split; [by etrans | by rewrite E2, E1, app_assoc].
Qed.

Lemma steps_lookup s ev s' l v :
  steps s ev s' -> heap s !! l = Some v -> heap s' !! l = Some v.
Proof. intros [Hsub _] Hl. by eapply lookup_weaken. Qed.

Lemma extends_fresh (h h' : gmap loc DataFrame) v :
  h ⊆ h' -> h ⊆ <[fresh (dom h') := v]> h'.
Proof.
  intros Hsub. etrans; [exact Hsub |].
  apply insert_subseteq, not_elem_of_dom, is_fresh.
Qed.

Lemma coerce_column_run rows name v s :
  heap s !! rows = Some v ->
  coerce_column rows name s =
    match coerce_value v name with
    | Ok v' => (mkState (<[rows := v']> (heap s)) (events s), Ok tt)
    | Raise e => (s, Raise e)
    end.
Proof.
  intros Hv. unfold coerce_column, coerce_value, bind, load, lift, store, rbind.
  rewrite Hv. destruct (getitem v name); [| done]. by destruct (astype_int a).
Qed.

Lemma coerce_right_zero_run rows v s :
  heap s !! rows = Some v ->
  coerce_right_zero rows s =
    match coerce_right_zero_value v with
    | Ok v' => (mkState (<[rows := v']> (heap s)) (events s), Ok tt)
    | Raise e => (s, Raise e)
    end.
Proof.
  intros Hv.
  unfold coerce_right_zero, coerce_right_zero_value, bind, load, lift, store, rbind.
  rewrite Hv. destruct (getitem v "right_zero"); [| done].
  by destruct (astype_int _).
Qed.

Lemma select_rows_run blink_df df seg_id s :
  heap s !! blink_df = Some df ->
  select_rows blink_df seg_id s =
    match selected_rows df seg_id with
    | Ok v =>
        let h1 := <[fresh (dom (heap s)) := v]> (heap s) in
        (mkState (<[fresh (dom h1) := v]> h1) (events s), Ok (fresh (dom h1)))
    | Raise e => (s, Raise e)
    end.
Proof.
  intros Hdf. unfold select_rows, selected_rows, bind, load, lift, alloc, rbind.
  rewrite Hdf. destruct (getitem df "seg_id"); [| done].
  cbn [heap events]. by rewrite lookup_insert_eq.
Qed.

Ltac abort_branch :=
  intros [= <- <-]; eexists _, _; split; [reflexivity |];
  split; [split; cbn [heap events];
          [rewrite ?insert_insert_eq; repeat apply extends_fresh; reflexivity
          | rewrite <- ?app_assoc, ?app_nil_r; reflexivity]
         | try exact eq_refl].

Ltac coerce_step :=
  unfold bind at 1;
  erewrite coerce_column_run by (cbn [heap]; apply lookup_insert_eq);
  match goal with
  | |- context [coerce_value ?v ?n] => destruct (coerce_value v n)
  end; cbn [rbind heap events]; rewrite ?insert_insert_eq; [| abort_branch].

Ltac load_step :=
  unfold bind at 1; unfold load at 1; cbn [heap events];
  rewrite lookup_insert_eq; cbv beta iota.

Ltac emit_step :=
  unfold bind at 1; unfold emit at 1; cbn [heap events]; cbv beta iota.

Ltac store_step :=
  unfold bind at 1; unfold store at 1; cbn [heap events];
  rewrite ?insert_insert_eq; cbv beta iota.

Ltac lift_step r :=
  unfold bind at 1; unfold lift at 1; destruct r; cbn [rbind];
  cbv beta iota; [| abort_branch].

Ltac body_tail :=
  load_step;
  match goal with
  | |- context [df_empty ?v] => destruct (df_empty v)
  end; [unfold ret; abort_branch |];
  emit_step;
  match goal with
  | |- context [get_data ?r ?c] => lift_step (get_data r c)
  end;
  match goal with
  | |- context [seq_index ?d 0%nat] => lift_step (seq_index d 0%nat)
  end;
  load_step; emit_step;
  match goal with
  | |- context [FitBlinks ?sig ?v ?p] => lift_step (FitBlinks sig v p)
  end;
  store_step;
  unfold bind at 1; unfold try_except at 1;
  emit_step;
  unfold bind at 1; unfold lift at 1;
  match goal with
  | |- context [dprocess_segment_raw ?f ?b] =>
      destruct (dprocess_segment_raw f b) as [?|[?|?]]
  end; cbv beta iota;
  [ store_step; unfold bind at 1; unfold ret at 1; cbv beta iota;
    emit_step;
    match goal with
    | |- context [BlinkProperties ?sig ?fb ?sf ?p ?b] =>
        lift_step (BlinkProperties sig fb sf p b)
    end;
    unfold bind at 1; unfold alloc at 1; cbn [heap events]; cbv beta iota zeta;
    load_step; store_step; unfold ret;
    abort_branch;
    eexists; split; [reflexivity | cbn [heap]; apply lookup_insert_eq]
  | unfold logger_warning; emit_step; unfold bind at 1; unfold ret at 1;
    cbv beta iota; unfold ret; abort_branch
  | abort_branch ].

Lemma segment_body_run blink_df df params channel run_fit sfreq seg_id raw all_props s ev o :
  heap s !! blink_df = Some df ->
  segment_run df params channel run_fit sfreq seg_id raw = (ev, o) ->
  exists s' r,
    segment_body blink_df params channel run_fit sfreq seg_id raw all_props s = (s', r)
    /\ steps s ev s' /\ body_result all_props o s' r.
Proof.
  intros Hdf. unfold segment_body, segment_run, prepared_rows.
  unfold bind at 1. rewrite (select_rows_run _ _ _ _ Hdf).
  destruct (selected_rows df seg_id) as [v0|e]; cbn [rbind]; [| abort_branch].
  cbv zeta. cbv beta iota.
  set (l1 := fresh (dom (heap s))).
  set (rows := fresh (dom (<[l1:=v0]> (heap s)))).
  do 5 coerce_step.
  load_step.
  match goal with
  | |- context [has_column "right_zero" ?v] => destruct (has_column "right_zero" v)
  end.
  - unfold bind at 1.
    erewrite coerce_right_zero_run by (cbn [heap]; apply lookup_insert_eq).
    match goal with
    | |- context [coerce_right_zero_value ?v] => destruct (coerce_right_zero_value v)
    end; cbn [rbind heap events]; rewrite ?insert_insert_eq; [| abort_branch].
    body_tail.
  - unfold bind at 1. unfold ret at 1. cbv beta iota.
    body_tail.
Qed.

Lemma holds_steps s ev s' ls ps : steps s ev s' -> holds s ls ps -> holds s' ls ps.
Proof.
  intros Hst Hh. eapply Forall2_impl; [exact Hh |].
  intros l p. by apply steps_lookup with ev.
Qed.

Lemma load_all_run ls : forall ps s, holds s ls ps -> load_all ls s = (s, Ok ps).
Proof.
  induction ls as [|l ls IH]; intros ps s Hh; inversion Hh as [|? p ? ps' Hl Hrest]; subst.
  - reflexivity.
  - cbn [load_all]. unfold bind at 1. unfold load at 1. rewrite Hl.
    unfold bind at 1. by rewrite (IH _ _ Hrest).
Qed.

Lemma for_segments_run blink_df df params channel run_fit sfreq segments :
  forall seg_id all_props ps s ev r,
    heap s !! blink_df = Some df ->
    holds s all_props ps ->
    batch_run df params channel run_fit sfreq seg_id segments = (ev, r) ->
    exists s' r',
      for_segments blink_df params channel run_fit sfreq seg_id segments all_props s
        = (s', r')
      /\ steps s ev s'
      /\ match r with
         | Raise e => r' = Raise e
         | Ok ps' => exists ls, r' = Ok ls /\ holds s' ls (ps ++ ps')
         end.
Proof.
  induction segments as [|raw segments IH]; intros seg_id all_props ps s ev r Hdf Hh.
  - intros [= <- <-]. exists s, (Ok all_props). split; [done |].
    split; [apply steps_refl |]. exists all_props. by rewrite app_nil_r.
  - cbn [batch_run for_segments].
    destruct (segment_run df params channel run_fit sfreq seg_id raw) as [ev1 o] eqn:Hseg.
    destruct (segment_body_run blink_df df params channel run_fit sfreq seg_id raw
                all_props s ev1 o Hdf Hseg) as (s1 & r1 & Hbody & Hst1 & Hres).
    unfold bind at 1. rewrite Hbody.
    assert (Hdf1 : heap s1 !! blink_df = Some df) by by eapply steps_lookup.
    assert (Hh1 : holds s1 all_props ps) by by eapply holds_steps.
    destruct o as [e| |e|p]; cbn [body_result] in Hres.
    + intros [= <- <-]. subst r1. by exists s1, (Raise e).
    + subst r1.
      destruct (batch_run df params channel run_fit sfreq (S seg_id) segments)
        as [ev2 r2] eqn:Hrest.
      intros [= <- <-].
      destruct (IH _ _ _ _ _ _ Hdf1 Hh1 Hrest) as (s2 & r2' & Hrun & Hst2 & Hres2).
      exists s2, r2'. split; [done |]. split; [by eapply steps_trans |].
      by destruct r2.
    + subst r1.
      destruct (batch_run df params channel run_fit sfreq (S seg_id) segments)
        as [ev2 r2] eqn:Hrest.
      intros [= <- <-].
      destruct (IH _ _ _ _ _ _ Hdf1 Hh1 Hrest) as (s2 & r2' & Hrun & Hst2 & Hres2).
      exists s2, r2'. split; [done |]. split; [by eapply steps_trans |].
      by destruct r2.
    + destruct Hres as (l & -> & Hl).
      destruct (batch_run df params channel run_fit sfreq (S seg_id) segments)
        as [ev2 r2] eqn:Hrest.
      intros [= <- <-].
      assert (Hh2 : holds s1 (all_props ++ [l]) (ps ++ [p])).
      { apply Forall2_app; [done |]. by constructor. }
      destruct (IH _ _ _ _ _ _ Hdf1 Hh2 Hrest) as (s2 & r2' & Hrun & Hst2 & Hres2).
      exists s2, r2'. split; [done |]. split; [by eapply steps_trans |].
      destruct r2 as [ps'|e]; cbn [rbind outcome_props option_list]; [| done].
      by rewrite <- app_assoc in Hres2.
Qed.

(** The call over the store computes [call_run] of the table that
    [blink_df] refers to, and only adds objects to the store. *)
Lemma compute_run segments blink_df df params channel run_fit s :
  heap s !! blink_df = Some df ->
  exists s',
    compute_segment_blink_properties segments blink_df params channel run_fit s
      = (s', (call_run segments df params channel run_fit).2)
    /\ steps s (call_run segments df params channel run_fit).1 s'.
Proof.
  intros Hdf. unfold compute_segment_blink_properties, call_run, logger_info,
    warnings_warn, opening_events.
  (* the two opening statements *)
  unfold bind at 1. unfold emit at 1. cbv beta iota.
  unfold bind at 1.
  set (s0 := mkState (heap s) (events s ++ [_])).
  assert (Hopen : exists s1,
    (if run_fit
     then emit (Warn "run_fit=True may drop blinks due to NaNs in fit range"
                     "RuntimeWarning")
     else ret ()) s0 = (s1, Ok ())
    /\ heap s1 = heap s
    /\ events s1 = events s
         ++ Log INFO "Computing blink properties for %d segments"
                [ArgInt (Z.of_nat (length segments))]
            :: (if run_fit
                then [Warn "run_fit=True may drop blinks due to NaNs in fit range"
                           "RuntimeWarning"]
                else [])).
  { destruct run_fit; eexists; (split; [reflexivity |]); cbn [heap events s0];
      (split; [done |]); by rewrite <- ?app_assoc. }
  destruct Hopen as (s1 & -> & Hh1 & He1).
  unfold bind at 1. unfold load at 1. rewrite Hh1, Hdf.
  destruct (df_empty df).
  - unfold bind, emit, ret. eexists. split; [reflexivity |].
    split; cbn [heap events fst]; [by rewrite Hh1 |].
    by rewrite He1, <- app_assoc.
  - destruct (batch_run df params channel run_fit (first_sfreq segments) 0 segments)
      as [ev r] eqn:Hbatch.
    assert (Hdf1 : heap s1 !! blink_df = Some df) by by rewrite Hh1.
    destruct (for_segments_run blink_df df params channel run_fit _ segments
                0%nat [] [] s1 ev r Hdf1 (Forall2_nil_2 _ _ _) Hbatch)
      as (s2 & r2 & Hrun & [Hsub Hev] & Hres).
    unfold bind at 1. fold (first_sfreq segments). rewrite Hrun.
    destruct r as [frames|e]; cbn [fst snd].
    + destruct Hres as (ls & -> & Hls). cbn [app] in Hls.
      destruct frames as [|f frames].
      * inversion Hls; subst. unfold ret. eexists. split; [reflexivity |].
        split; [by rewrite <- Hh1 |].
        cbn [closing_events]. by rewrite Hev, He1, app_nil_r, <- app_assoc.
      * destruct ls as [|l ls]; [inversion Hls |].
        unfold bind at 1. rewrite (load_all_run _ _ _ Hls).
        unfold bind, emit, ret. eexists. split; [reflexivity |].
        split; cbn [heap events]; [by rewrite <- Hh1 |].
        cbn [closing_events]. by rewrite Hev, He1, <- !app_assoc.
    + subst r2. eexists. split; [reflexivity |].
      split; [by rewrite <- Hh1 |]. by rewrite Hev, He1, <- app_assoc.
Qed.

End StoreFacts.

(** ** The caller's table *)

Section CallFacts.

Context {collab : Collaborators}.

(** C4: a call leaves the table that [blink_df] refers to exactly as it
    was, however the call ends, and likewise any other object the store
    held before the call; all that the call writes goes to the copies it
    made. *)
Theorem blink_df_never_mutated segments blink_df df params channel run_fit s :
  heap s !! blink_df = Some df ->
  heap (compute_segment_blink_properties segments blink_df params channel run_fit s).1
    !! blink_df = Some df
  /\ forall l v,
      heap s !! l = Some v ->
      heap (compute_segment_blink_properties segments blink_df params channel
              run_fit s).1 !! l = Some v.
Proof.
  intros Hdf.
  destruct (compute_run segments blink_df df params channel run_fit s Hdf)
    as (s' & -> & Hst).
  split; [| intros l v]; by apply (steps_lookup _ _ _ _ _ Hst).
Qed.

(** C3: on an empty candidate table the call returns [pd.DataFrame()] at
    once; it adds its opening log lines and the line that says the table is
    empty, leaves the store as it was, and calls nothing on any segment nor
    any collaborator. *)
Theorem empty_table_returns_immediately segments blink_df df params channel run_fit s :
  heap s !! blink_df = Some df ->
  df_empty df = true ->
  exists new,
    compute_segment_blink_properties segments blink_df params channel run_fit s
      = (mkState (heap s) (events s ++ new), Ok pd_DataFrame)
    /\ new = opening_events segments run_fit
              ++ [Log INFO "Blink DataFrame is empty; nothing to compute" []]
    /\ Forall (fun ev => is_call ev = false) new.
Proof.
  intros Hdf Hempty.
  exists (opening_events segments run_fit
          ++ [Log INFO "Blink DataFrame is empty; nothing to compute" []]).
  split; [| split; [reflexivity |]].
  - unfold compute_segment_blink_properties, logger_info, warnings_warn,
      opening_events, bind, emit, load, ret.
    destruct run_fit; cbn [heap events]; rewrite Hdf, Hempty;
      cbn [heap events]; by rewrite <- ?app_assoc.
  - unfold opening_events. destruct run_fit; by repeat constructor.
Qed.

Lemma cells_equal_refl col : cells_equal col col = true.
Proof.
  induction col as [|c col IH]; [done |]. cbn [cells_equal]. rewrite IH, andb_true_r.
  destruct c as [z|f|str|]; cbn [cell_equals].
  - apply Z.eqb_refl.
  - unfold is_nan. by destruct (f =? f)%float.
  - by apply bool_decide_eq_true.
  - done.
Qed.

Lemma frame_equals_refl df : frame_equals df df = true.
Proof.
  unfold frame_equals. rewrite bool_decide_eq_true_2 by done. cbn [andb].
  induction (df_columns df) as [|[n c] cols IH]; [done |].
  cbn [columns_equal]. by rewrite bool_decide_eq_true_2, cells_equal_refl, IH.
Qed.

Lemma result_equals_refl r : result_equals r r = true.
Proof.
  destruct r; cbn [result_equals]; [apply frame_equals_refl |].
  by apply bool_decide_eq_true.
Qed.

(** C7: two calls with the same segments, parameters, channel and
    [run_fit], each started with [blink_df] referring to the same table,
    end alike, whatever else the store and the event record hold: both
    raise the same exception or both return tables that are equal, NaN
    being equal to NaN. *)
Theorem calls_are_deterministic segments blink_df df params channel run_fit s1 s2 :
  heap s1 !! blink_df = Some df ->
  heap s2 !! blink_df = Some df ->
  (compute_segment_blink_properties segments blink_df params channel run_fit s1).2
    = (compute_segment_blink_properties segments blink_df params channel run_fit s2).2
  /\ result_equals
       (compute_segment_blink_properties segments blink_df params channel run_fit s1).2
       (compute_segment_blink_properties segments blink_df params channel run_fit s2).2
     = true.
Proof.
  intros H1 H2.
  destruct (compute_run segments blink_df df params channel run_fit s1 H1)
    as (s1' & -> & _).
  destruct (compute_run segments blink_df df params channel run_fit s2 H2)
    as (s2' & -> & _).
  split; [done | apply result_equals_refl].
Qed.

End CallFacts.

(** ** What the loop hands to the collaborators *)

Section LoopFacts.

Context {collab : Collaborators}.

Lemma batch_run_events (Q : Event -> Prop) df params channel run_fit sfreq segments :
  forall seg_id n,
    (seg_id + length segments = n)%nat ->
    (forall i raw, (i < n)%nat ->
       Forall Q (segment_run df params channel run_fit sfreq i raw).1) ->
    Forall Q (batch_run df params channel run_fit sfreq seg_id segments).1.
Proof.
  induction segments as [|raw segments IH]; intros seg_id n Hn HQ; [by constructor |].
  cbn [batch_run length] in *.
  pose proof (HQ seg_id raw ltac:(lia)) as Hseg.
  destruct (segment_run df params channel run_fit sfreq seg_id raw) as [ev o].
  specialize (IH (S seg_id) n ltac:(lia) HQ).
  destruct (batch_run df params channel run_fit sfreq (S seg_id) segments) as [ev' r].
  cbn [fst] in *. destruct o; cbn [fst]; try done; by apply Forall_app.
Qed.

(** A property of events that holds of every log line and warning, and of
    the events of each iteration, holds of all the events of a call. *)
Lemma call_run_events (Q : Event -> Prop) segments df params channel run_fit :
  (forall ev, is_call ev = false -> Q ev) ->
  (forall i raw, (i < length segments)%nat ->
     Forall Q (segment_run df params channel run_fit (first_sfreq segments) i raw).1) ->
  Forall Q (call_run segments df params channel run_fit).1.
Proof.
  intros Hlog Hseg.
  assert (Hopen : Forall Q (opening_events segments run_fit)).
  { unfold opening_events. destruct run_fit; repeat constructor; by apply Hlog. }
  unfold call_run. destruct (df_empty df); cbn [fst].
  - apply Forall_app. split; [done |]. repeat constructor. by apply Hlog.
  - pose proof (batch_run_events Q df params channel run_fit (first_sfreq segments)
                  segments 0%nat (length segments) eq_refl Hseg) as Hb.
    destruct (batch_run df params channel run_fit (first_sfreq segments) 0 segments)
      as [ev [frames|e]]; cbn [fst] in *.
    + rewrite !Forall_app. split_and!; [done | done |].
      destruct frames; repeat constructor. by apply Hlog.
    + by apply Forall_app.
Qed.

Lemma new_events segments blink_df df params channel run_fit s :
  heap s !! blink_df = Some df ->
  events (compute_segment_blink_properties segments blink_df params channel run_fit s).1
    = events s ++ (call_run segments df params channel run_fit).1.
Proof.
  intros Hdf.
  destruct (compute_run segments blink_df df params channel run_fit s Hdf)
    as (s' & Hrun & _ & Hev).
  by rewrite Hrun.
Qed.

Lemma returned segments blink_df df params channel run_fit s :
  heap s !! blink_df = Some df ->
  (compute_segment_blink_properties segments blink_df params channel run_fit s).2
    = (call_run segments df params channel run_fit).2.
Proof.
  intros Hdf.
  by destruct (compute_run segments blink_df df params channel run_fit s Hdf)
    as (s' & -> & _).
Qed.

Lemma segment_run_uses_sfreq df params channel run_fit sfreq seg_id raw :
  Forall (uses_sfreq sfreq) (segment_run df params channel run_fit sfreq seg_id raw).1.
Proof.
  unfold segment_run.
  repeat case_match; cbn [fst]; rewrite ?Forall_app; repeat split;
    repeat constructor.
Qed.

Lemma segment_run_with_sfreq df params channel run_fit sfreq seg_id raw f :
  (segment_run df params channel run_fit sfreq seg_id (with_sfreq f raw)).2
  = (segment_run df params channel run_fit sfreq seg_id raw).2.
Proof.
  unfold segment_run.
  replace (get_data (with_sfreq f raw) channel) with (get_data raw channel) by done.
  by repeat case_match.
Qed.

Lemma batch_run_with_sfreq df params channel run_fit sfreq (rate : Raw -> float) segments :
  forall seg_id,
    (batch_run df params channel run_fit sfreq seg_id
               ((fun r => with_sfreq (rate r) r) <$> segments)).2
    = (batch_run df params channel run_fit sfreq seg_id segments).2.
Proof.
  induction segments as [|raw segments IH]; intros seg_id; [done |].
  rewrite fmap_cons. cbn [batch_run].
  pose proof (segment_run_with_sfreq df params channel run_fit sfreq seg_id raw
                (rate raw)) as Hseg.
  specialize (IH (S seg_id)).
  destruct (segment_run df params channel run_fit sfreq seg_id (with_sfreq _ raw))
    as [ev1 o1].
  destruct (segment_run df params channel run_fit sfreq seg_id raw) as [ev2 o2].
  cbn [snd] in Hseg. subst o2.
  destruct (batch_run df params channel run_fit sfreq (S seg_id) (_ <$> segments))
    as [ev1' r1].
  destruct (batch_run df params channel run_fit sfreq (S seg_id) segments) as [ev2' r2].
  cbn [snd] in IH. subst r2. by destruct o1.
Qed.

(** C9: with at least one segment, every call of the property calculator
    that the orchestrator makes is given the sampling rate of the first
    segment, and what the call returns does not depend on the sampling
    rates that the later segments carry. *)
Theorem sfreq_taken_from_first_segment raw0 rest blink_df df params channel run_fit s :
  heap s !! blink_df = Some df ->
  (exists new,
     events (compute_segment_blink_properties (raw0 :: rest) blink_df params channel
               run_fit s).1 = events s ++ new
     /\ Forall (uses_sfreq (info_sfreq raw0)) new)
  /\ forall rate : Raw -> float,
      (compute_segment_blink_properties
         (raw0 :: ((fun r => with_sfreq (rate r) r) <$> rest))
         blink_df params channel run_fit s).2
      = (compute_segment_blink_properties (raw0 :: rest) blink_df params channel
           run_fit s).2.
Proof.
  intros Hdf. split.
  - eexists. split; [by apply new_events |].
    apply call_run_events.
    + by intros [].
    + intros i raw _. apply segment_run_uses_sfreq.
  - intros rate. rewrite !(returned _ _ df) by done.
    unfold call_run. destruct (df_empty df); [done |]. cbn [first_sfreq batch_run].
    pose proof (batch_run_with_sfreq df params channel run_fit (info_sfreq raw0) rate
                  rest 1%nat) as Hrest.
    destruct (segment_run df params channel run_fit (info_sfreq raw0) 0 raw0)
      as [ev0 o0].
    destruct (batch_run df params channel run_fit (info_sfreq raw0) 1 (_ <$> rest))
      as [ev1 r1].
    destruct (batch_run df params channel run_fit (info_sfreq raw0) 1 rest) as [ev2 r2].
    cbn [snd] in Hrest. subst r2.
    destruct o0; try done; by destruct r1.
Qed.

Lemma assoc_lookup_set_eq {A} name (c : A) cols :
  assoc_lookup name (assoc_set name c cols) = Some c.
Proof.
  induction cols as [|[n c0] cols IH]; cbn [assoc_set assoc_lookup].
  - by rewrite decide_True.
  - destruct (decide (n = name)) as [->|Hne]; cbn [assoc_lookup].
    + by rewrite decide_True.
    + by rewrite decide_False.
Qed.

Lemma assoc_lookup_set_ne {A} name other (c : A) cols :
  name <> other ->
  assoc_lookup other (assoc_set name c cols) = assoc_lookup other cols.
Proof.
  intros Hne. induction cols as [|[n c0] cols IH]; cbn [assoc_set assoc_lookup].
  - by rewrite decide_False.
  - destruct (decide (n = name)) as [->|Hn]; cbn [assoc_lookup].
    + by rewrite !decide_False.
    + by rewrite IH.
Qed.

Lemma assoc_set_names {A} name (c c0 : A) cols :
  assoc_lookup name cols = Some c0 -> (assoc_set name c cols).*1 = cols.*1.
Proof.
  induction cols as [|[n c1] cols IH]; cbn [assoc_set assoc_lookup]; [done |].
  destruct (decide (n = name)) as [->|Hn]; [done |].
  intros H. cbn [fmap list_fmap fst]. f_equal. by apply IH.
Qed.

Lemma getitem_Ok v name col :
  getitem v name = Ok col <-> assoc_lookup name (df_columns v) = Some col.
Proof.
  unfold getitem. destruct (assoc_lookup name (df_columns v)); split; congruence.
Qed.

Lemma getitem_setitem_eq v name col : getitem (setitem v name col) name = Ok col.
Proof. unfold getitem, setitem. cbn [df_columns]. by rewrite assoc_lookup_set_eq. Qed.

Lemma getitem_setitem_ne v name other col :
  name <> other -> getitem (setitem v name col) other = getitem v other.
Proof.
  intros Hne. unfold getitem, setitem. cbn [df_columns].
  by rewrite assoc_lookup_set_ne.
Qed.

Lemma column_names_setitem v name col col0 :
  getitem v name = Ok col0 -> column_names (setitem v name col) = column_names v.
Proof.
  rewrite getitem_Ok. unfold column_names, setitem. cbn [df_columns].
  apply assoc_set_names.
Qed.

Lemma coerce_value_Ok v name v' :
  coerce_value v name = Ok v' ->
  exists col col',
    getitem v name = Ok col /\ astype_int col = Ok col' /\ v' = setitem v name col'.
Proof.
  unfold coerce_value, rbind.
  destruct (getitem v name) as [col|]; [| done].
  destruct (astype_int col) as [col'|] eqn:Ha; [| done].
  intros [= <-]. by exists col, col'.
Qed.

Lemma coerce_right_zero_value_Ok v v' :
  coerce_right_zero_value v = Ok v' ->
  exists col col',
    getitem v "right_zero" = Ok col
    /\ astype_int (fillna (CInt (-1)) col) = Ok col'
    /\ v' = setitem v "right_zero" col'.
Proof.
  unfold coerce_right_zero_value, rbind.
  destruct (getitem v "right_zero") as [col|]; [| done].
  destruct (astype_int _) as [col'|] eqn:Ha; [| done].
  intros [= <-]. by exists col, col'.
Qed.

Lemma has_column_names v v' name :
  column_names v' = column_names v -> has_column name v' = has_column name v.
Proof. unfold has_column. by intros ->. Qed.

Ltac decide_names := apply (bool_decide_unpack _); vm_compute; exact I.

Lemma prepared_rows_coerced df seg_id rows :
  prepared_rows df seg_id = Ok rows ->
  exists sel, selected_rows df seg_id = Ok sel /\ coerced sel rows.
Proof.
  unfold prepared_rows.
  destruct (selected_rows df seg_id) as [v0|]; [| done]. cbn [rbind].
  destruct (coerce_value v0 "start_blink") as [v1|] eqn:H1; [| done]. cbn [rbind].
  destruct (coerce_value v1 "end_blink") as [v2|] eqn:H2; [| done]. cbn [rbind].
  destruct (coerce_value v2 "outer_start") as [v3|] eqn:H3; [| done]. cbn [rbind].
  destruct (coerce_value v3 "outer_end") as [v4|] eqn:H4; [| done]. cbn [rbind].
  destruct (coerce_value v4 "left_zero") as [v5|] eqn:H5; [| done]. cbn [rbind].
  apply coerce_value_Ok in H1 as (c1 & c1' & G1 & A1 & ->).
  apply coerce_value_Ok in H2 as (c2 & c2' & G2 & A2 & ->).
  apply coerce_value_Ok in H3 as (c3 & c3' & G3 & A3 & ->).
  apply coerce_value_Ok in H4 as (c4 & c4' & G4 & A4 & ->).
  apply coerce_value_Ok in H5 as (c5 & c5' & G5 & A5 & ->).
  pose proof (column_names_setitem _ _ c1' _ G1) as N1.
  pose proof (column_names_setitem _ _ c2' _ G2) as N2.
  pose proof (column_names_setitem _ _ c3' _ G3) as N3.
  pose proof (column_names_setitem _ _ c4' _ G4) as N4.
  pose proof (column_names_setitem _ _ c5' _ G5) as N5.
  repeat rewrite getitem_setitem_ne in G2 by done.
  repeat rewrite getitem_setitem_ne in G3 by done.
  repeat rewrite getitem_setitem_ne in G4 by done.
  repeat rewrite getitem_setitem_ne in G5 by done.
  set (v5 := setitem _ "left_zero" c5') in *.
  assert (N : column_names v5 = column_names v0) by congruence.
  assert (Hidx : forall name, name ∈ index_columns ->
            exists col, getitem v0 name = Ok col /\ getitem v5 name = astype_int col).
  { intros name Hin. unfold index_columns in Hin.
    repeat (apply elem_of_cons in Hin as [->|Hin]); [..| by apply elem_of_nil in Hin];
      eexists; (split; [eassumption |]); unfold v5;
      rewrite ?getitem_setitem_ne by done; rewrite getitem_setitem_eq; congruence. }
  assert (Hother : forall name, name ∉ index_columns -> getitem v5 name = getitem v0 name).
  { intros name Hnot. unfold v5.
    rewrite !getitem_setitem_ne; [done | ..]; intros <-; apply Hnot; decide_names. }
  assert (Hrz0 : "right_zero" ∉ index_columns) by decide_names.
  rewrite (has_column_names v0 v5) by done.
  destruct (has_column "right_zero" v0) eqn:Hrz.
  - intros (c6 & c6' & G6 & A6 & ->)%coerce_right_zero_value_Ok.
    exists v0. split; [done |].
    pose proof (column_names_setitem _ _ c6' _ G6) as N6.
    rewrite Hother in G6 by done.
    split; [done |]. split; [congruence |].
    split; [| split].
    + intros name Hin. destruct (Hidx name Hin) as (col & Hc & Hv).
      exists col. split; [done |]. rewrite getitem_setitem_ne; [done |].
      by intros <-.
    + intros _. exists c6. split; [done |]. by rewrite getitem_setitem_eq.
    + intros name Hnot Hrz'. rewrite getitem_setitem_ne; [by apply Hother |].
      intros <-. specialize (Hrz' eq_refl). congruence.
  - intros [= <-]. exists v0. split; [done |].
    split; [done |]. split; [done |]. split; [done |]. split; [congruence |].
    intros name Hnot _. by apply Hother.
Qed.

Lemma segment_run_dispatch df params channel run_fit sfreq seg_id raw :
  Forall (dispatched (fun rows => prepared_rows df seg_id = Ok rows))
         (segment_run df params channel run_fit sfreq seg_id raw).1.
Proof.
  unfold segment_run.
  destruct (prepared_rows df seg_id) as [v|]; [| by constructor].
  repeat case_match; cbn [fst]; rewrite ?Forall_app; repeat split;
    by repeat constructor.
Qed.

Lemma dispatched_impl (P Q : DataFrame -> Prop) evs :
  (forall rows, P rows -> Q rows) ->
  Forall (dispatched P) evs -> Forall (dispatched Q) evs.
Proof.
  intros HPQ Hevs. eapply Forall_impl; [exact Hevs |].
  intros [] H; cbn [dispatched] in *; auto.
Qed.

(** C8: the rows that a call hands to the fitter are always the rows
    selected for one of the segments with [start_blink], [end_blink],
    [outer_start], [outer_end] and [left_zero] cast to int, with
    [right_zero], when the column is there, filled with -1 and then cast to
    int, and with every other column, the row labels and the order of the
    columns as they were selected. *)
Theorem rows_coerced_before_dispatch segments blink_df df params channel run_fit s :
  heap s !! blink_df = Some df ->
  exists new,
    events (compute_segment_blink_properties segments blink_df params channel
              run_fit s).1 = events s ++ new
    /\ Forall (dispatched (fun rows =>
                 exists seg_id sel,
                   (seg_id < length segments)%nat
                   /\ selected_rows df seg_id = Ok sel
                   /\ coerced sel rows)) new.
Proof.
  intros Hdf. eexists. split; [by apply new_events |].
  apply call_run_events.
  - by intros [].
  - intros i raw Hi.
    eapply dispatched_impl; [| apply segment_run_dispatch].
    intros rows (sel & Hsel & Hco)%prepared_rows_coerced. by exists i, sel.
Qed.

(** *** Rows are matched to segments by position *)

Lemma assoc_lookup_fmap {A B} (g : A -> B) name (cols : list (string * A)) :
  assoc_lookup name (prod_map id g <$> cols) = g <$> assoc_lookup name cols.
Proof.
  induction cols as [|[n c] cols IH]; [done |].
  cbn [fmap list_fmap assoc_lookup prod_map fst snd id] in *.
  by destruct (decide (n = name)).
Qed.

Lemma getitem_getitem_mask df mask name :
  getitem (getitem_mask df mask) name
  = rbind (getitem df name) (fun col => Ok (mask_filter mask col)).
Proof.
  unfold getitem, getitem_mask. cbn [df_columns]. rewrite assoc_lookup_fmap.
  by destruct (assoc_lookup name (df_columns df)).
Qed.

Lemma mask_filter_self {A} (f : A -> bool) (l : list A) :
  Forall (fun a => f a = true) (mask_filter (f <$> l) l).
Proof.
  induction l as [|a l IH]; [by constructor |].
  cbn [fmap list_fmap mask_filter]. destruct (f a) eqn:Hf; [by constructor | done].
Qed.

Lemma mask_filter_drop {A B} (f : A -> bool) (keep : list bool) :
  forall (ids : list A) (l : list B),
    length keep = length ids ->
    (forall j c, keep !! j = Some false -> ids !! j = Some c -> f c = false) ->
    mask_filter (f <$> mask_filter keep ids) (mask_filter keep l)
    = mask_filter (f <$> ids) l.
Proof.
  induction keep as [|k keep IH]; intros [|c ids] [|b l] Hlen Hdrop;
    try done; cbn [length] in Hlen.
  - cbn [mask_filter fmap list_fmap]. by destruct k, (mask_filter keep ids).
  - assert (Hrec : mask_filter (f <$> mask_filter keep ids) (mask_filter keep l)
                   = mask_filter (f <$> ids) l).
    { apply IH; [lia |]. intros j c' Hk Hc. by apply (Hdrop (S j) c'). }
    cbn [mask_filter fmap list_fmap]. destruct k.
    + cbn [mask_filter fmap list_fmap]. destruct (f c); by rewrite <- Hrec.
    + by rewrite (Hdrop 0%nat c eq_refl eq_refl).
Qed.

Lemma selected_rows_drop df keep ids seg_id :
  getitem df "seg_id" = Ok ids ->
  length keep = length ids ->
  (forall j c, keep !! j = Some false -> ids !! j = Some c ->
     cell_eq_int (Z.of_nat seg_id) c = false) ->
  selected_rows (getitem_mask df keep) seg_id = selected_rows df seg_id.
Proof.
  intros Hids Hlen Hdrop. unfold selected_rows.
  rewrite getitem_getitem_mask, Hids. cbn [rbind]. f_equal.
  unfold getitem_mask. cbn [df_index df_columns]. f_equal.
  - by apply mask_filter_drop.
  - rewrite <- list_fmap_compose. apply list_fmap_ext. intros _ [n col] _.
    cbn [compose prod_map fst snd id]. f_equal. by apply mask_filter_drop.
Qed.

Lemma segment_run_ext df df' params channel run_fit sfreq seg_id raw :
  selected_rows df' seg_id = selected_rows df seg_id ->
  segment_run df' params channel run_fit sfreq seg_id raw
  = segment_run df params channel run_fit sfreq seg_id raw.
Proof. intros H. unfold segment_run, prepared_rows. by rewrite H. Qed.

Lemma batch_run_ext df df' params channel run_fit sfreq segments :
  forall seg_id n,
    (seg_id + length segments = n)%nat ->
    (forall i, (i < n)%nat -> selected_rows df' i = selected_rows df i) ->
    batch_run df' params channel run_fit sfreq seg_id segments
    = batch_run df params channel run_fit sfreq seg_id segments.
Proof.
  induction segments as [|raw segments IH]; intros seg_id n Hn Hsel; [done |].
  cbn [batch_run length] in *.
  rewrite (segment_run_ext df df') by (apply Hsel; lia).
  by rewrite (IH (S seg_id) n) by (done || lia).
Qed.

Lemma mask_filter_length {A} (mask : list bool) (l : list A) :
  (length (mask_filter mask l) <= length l)%nat.
Proof.
  revert l. induction mask as [|b mask IH]; intros [|a l]; cbn [mask_filter length];
    try lia.
  specialize (IH l). destruct b; cbn [length]; lia.
Qed.

Lemma df_empty_getitem_mask df mask :
  df_empty (getitem_mask df mask) = false -> df_empty df = false.
Proof.
  unfold df_empty, getitem_mask. cbn [df_index df_columns].
  rewrite length_fmap, !orb_false_iff, !Nat.eqb_neq.
  pose proof (mask_filter_length mask (df_index df)). lia.
Qed.

Lemma mask_filter_none {A B} (f : A -> bool) (ids : list A) (l : list B) :
  Forall (fun c => f c = false) ids -> mask_filter (f <$> ids) l = [].
Proof.
  intros Hall. revert l. induction Hall as [|c ids Hc _ IH]; intros [|b l]; try done.
  cbn [fmap list_fmap mask_filter]. rewrite Hc. apply IH.
Qed.

Lemma assoc_set_same {A} name (c : A) cols :
  assoc_lookup name cols = Some c -> assoc_set name c cols = cols.
Proof.
  induction cols as [|[n c0] cols IH]; cbn [assoc_lookup assoc_set]; [done |].
  destruct (decide (n = name)) as [->|Hn]; [by intros [= ->] |].
  intros H. by rewrite IH.
Qed.

Lemma coerce_value_no_rows v name :
  getitem v name = Ok [] -> coerce_value v name = Ok v.
Proof.
  intros Hg. unfold coerce_value. rewrite Hg. cbn [rbind astype_int rmapM].
  apply getitem_Ok in Hg. unfold setitem. rewrite (assoc_set_same _ _ _ Hg).
  by destruct v.
Qed.

(** When no row matches the segment, and the index columns are there, the
    iteration has nothing to cast and stops at [rows.empty]. *)
Lemma prepared_rows_no_match df ids seg_id :
  getitem df "seg_id" = Ok ids ->
  Forall (fun c => cell_eq_int (Z.of_nat seg_id) c = false) ids ->
  (forall name, name ∈ index_columns -> has_column name df = true) ->
  exists v, prepared_rows df seg_id = Ok v /\ df_empty v = true.
Proof.
  intros Hids Hall Hcols.
  set (v := getitem_mask df (cell_eq_int (Z.of_nat seg_id) <$> ids)).
  assert (Hget : forall name, has_column name df = true -> getitem v name = Ok []).
  { intros name Hhas. unfold v. rewrite getitem_getitem_mask.
    destruct (getitem df name) as [col|] eqn:Hcol.
    - cbn [rbind]. by rewrite mask_filter_none.
    - destruct (has_column name df) eqn:Hh; [| done].
      unfold getitem in Hcol.
      destruct (assoc_lookup name (df_columns df)) eqn:Hl; [done |].
      exfalso. apply bool_decide_eq_true in Hh. unfold column_names in Hh.
      clear -Hh Hl. induction (df_columns df) as [|[n c] cols IH].
      + by apply elem_of_nil in Hh.
      + cbn [assoc_lookup] in Hl. destruct (decide (n = name)); [done |].
        cbn [fmap list_fmap fst] in Hh. apply elem_of_cons in Hh as [->|Hh]; [done |].
        by apply IH. }
  exists v. split.
  - unfold prepared_rows, selected_rows. rewrite Hids. cbn [rbind]. fold v.
    do 5 (rewrite coerce_value_no_rows by (apply Hget, Hcols; decide_names);
          cbn [rbind]).
    destruct (has_column "right_zero" v) eqn:Hrz; [| done].
    unfold coerce_right_zero_value.
    assert (Hrz' : getitem v "right_zero" = Ok []).
    { apply Hget. unfold has_column, column_names, v, getitem_mask in *.
      cbn [df_columns] in Hrz. rewrite <- list_fmap_compose in Hrz.
      erewrite list_fmap_ext in Hrz; [exact Hrz |]. by intros _ [] _. }
    rewrite Hrz'. cbn [rbind fillna fmap list_fmap astype_int rmapM].
    apply getitem_Ok in Hrz'. unfold setitem. rewrite (assoc_set_same _ _ _ Hrz').
    by destruct v.
  - unfold df_empty, v, getitem_mask. cbn [df_index]. by rewrite mask_filter_none.
Qed.

Lemma batch_run_no_match df ids params channel run_fit sfreq segments :
  getitem df "seg_id" = Ok ids ->
  (forall name, name ∈ index_columns -> has_column name df = true) ->
  forall seg_id n,
    (seg_id + length segments = n)%nat ->
    (forall i, (i < n)%nat ->
       Forall (fun c => cell_eq_int (Z.of_nat i) c = false) ids) ->
    batch_run df params channel run_fit sfreq seg_id segments = ([], Ok []).
Proof.
  intros Hids Hcols.
  induction segments as [|raw segments IH]; intros seg_id n Hn Hall; [done |].
  cbn [batch_run length] in *.
  destruct (prepared_rows_no_match df ids seg_id Hids (Hall seg_id ltac:(lia)) Hcols)
    as (v & Hv & Hempty).
  unfold segment_run. rewrite Hv, Hempty.
  by rewrite (IH (S seg_id) n) by (done || lia).
Qed.

(** C10: the rows that a call hands to the fitter for a segment all carry
    that segment's zero-based position as their [seg_id]; and taking out of
    the candidate table rows whose [seg_id] is an integer below zero or at
    least the number of segments changes neither what the call returns or
    raises nor the events it records, as long as some row is left; and a
    table in which every row is such a row, and which has the index columns,
    yields the empty table without any call on a segment or into a
    collaborator. *)
Theorem rows_matched_by_position segments blink_df df params channel run_fit s :
  heap s !! blink_df = Some df ->
  (exists new,
     events (compute_segment_blink_properties segments blink_df params channel
               run_fit s).1 = events s ++ new
     /\ Forall (dispatched (fun rows =>
                  exists seg_id ids,
                    (seg_id < length segments)%nat
                    /\ getitem rows "seg_id" = Ok ids
                    /\ Forall (fun c => cell_eq_int (Z.of_nat seg_id) c = true) ids))
               new)
  /\ (forall keep ids s',
      getitem df "seg_id" = Ok ids ->
      length keep = length ids ->
      (forall j c, keep !! j = Some false -> ids !! j = Some c ->
         exists z, c = CInt z /\ (z < 0 \/ Z.of_nat (length segments) <= z)) ->
      df_empty (getitem_mask df keep) = false ->
      heap s' !! blink_df = Some (getitem_mask df keep) ->
      (compute_segment_blink_properties segments blink_df params channel run_fit s').2
      = (compute_segment_blink_properties segments blink_df params channel run_fit s).2
      /\ exists new,
          events (compute_segment_blink_properties segments blink_df params channel
                    run_fit s').1 = events s' ++ new
          /\ events (compute_segment_blink_properties segments blink_df params channel
                       run_fit s).1 = events s ++ new)
  /\ forall ids,
      getitem df "seg_id" = Ok ids ->
      Forall (fun c => exists z, c = CInt z
                                 /\ (z < 0 \/ Z.of_nat (length segments) <= z)) ids ->
      (forall name, name ∈ index_columns -> has_column name df = true) ->
      (compute_segment_blink_properties segments blink_df params channel run_fit s).2
      = Ok pd_DataFrame
      /\ exists new,
          events (compute_segment_blink_properties segments blink_df params channel
                    run_fit s).1 = events s ++ new
          /\ Forall (fun ev => is_call ev = false) new.
Proof.
  intros Hdf. split; [| split].
  - eexists. split; [by apply new_events |].
    apply call_run_events.
    + by intros [].
    + intros i raw Hi.
      eapply dispatched_impl; [| apply segment_run_dispatch].
      intros rows (sel & Hsel & Hco)%prepared_rows_coerced.
      destruct Hco as (_ & _ & _ & _ & Hother).
      unfold selected_rows in Hsel.
      destruct (getitem df "seg_id") as [ids|] eqn:Hids; [| done].
      cbn [rbind] in Hsel. injection Hsel as <-.
      exists i, (mask_filter (cell_eq_int (Z.of_nat i) <$> ids) ids).
      split; [done |]. split; [| apply mask_filter_self].
      rewrite Hother; [| decide_names | done].
      by rewrite getitem_getitem_mask, Hids.
  - intros keep ids s' Hids Hlen Hdrop Hne Hdf'.
    assert (Hcall : call_run segments (getitem_mask df keep) params channel run_fit
                    = call_run segments df params channel run_fit).
    { unfold call_run. rewrite Hne, (df_empty_getitem_mask _ _ Hne).
      rewrite (batch_run_ext df (getitem_mask df keep) _ _ _ _ segments 0%nat
                 (length segments)); [done | done |].
      intros i Hi. apply (selected_rows_drop df keep ids); [done | done |].
      intros j c Hk Hc. destruct (Hdrop j c Hk Hc) as (z & -> & Hz).
      cbn [cell_eq_int]. apply Z.eqb_neq. lia. }
    split.
    + by rewrite (returned _ _ _ _ _ _ _ Hdf'), (returned _ _ _ _ _ _ _ Hdf), Hcall.
    + exists (call_run segments df params channel run_fit).1. split.
      * by rewrite (new_events _ _ _ _ _ _ _ Hdf'), Hcall.
      * by apply new_events.
  - intros ids Hids Hall Hcols.
    assert (Hcall : (call_run segments df params channel run_fit).2 = Ok pd_DataFrame
                    /\ Forall (fun ev => is_call ev = false)
                              (call_run segments df params channel run_fit).1).
    { assert (Hopen : Forall (fun ev => is_call ev = false)
                             (opening_events segments run_fit)).
      { unfold opening_events. destruct run_fit; by repeat constructor. }
      unfold call_run. destruct (df_empty df); cbn [fst snd].
      - split; [done |]. apply Forall_app. split; [done | by repeat constructor].
      - rewrite (batch_run_no_match df ids _ _ _ _ segments Hids Hcols 0%nat
                   (length segments)); [| done |].
        + cbn [result_table closing_events fst snd]. split; [done |].
          by rewrite !app_nil_r.
        + intros i Hi. eapply Forall_impl; [exact Hall |].
          intros c (z & -> & Hz). cbn [cell_eq_int]. apply Z.eqb_neq. lia. }
    destruct Hcall as [Hret Hev]. split.
    + by rewrite (returned _ _ _ _ _ _ _ Hdf).
    + eexists. split; [by apply new_events | done].
Qed.

End LoopFacts.

(** ** One segment does not affect the others *)

Section IsolationFacts.

Context {collab : Collaborators}.

Lemma prepared_rows_not_empty df seg_id rows :
  prepared_rows df seg_id = Ok rows -> df_empty rows = false -> df_empty df = false.
Proof.
  intros (sel & Hsel & Hidx & Hnames & _)%prepared_rows_coerced.
  unfold selected_rows in Hsel.
  destruct (getitem df "seg_id") as [ids|]; [| done].
  cbn [rbind] in Hsel. injection Hsel as <-.
  unfold df_empty, column_names in *. rewrite <- (length_fmap fst), Hnames, length_fmap.
  rewrite Hidx. apply df_empty_getitem_mask.
Qed.

Lemma segment_run_empty df params channel run_fit sfreq seg_id raw :
  df_empty df = true ->
  outcome_props (segment_run df params channel run_fit sfreq seg_id raw).2 = None.
Proof.
  intros Hempty. unfold segment_run.
  destruct (prepared_rows df seg_id) as [v|] eqn:Hv; [| done].
  destruct (df_empty v) eqn:Hve; [done |].
  by rewrite (prepared_rows_not_empty _ _ _ Hv Hve) in Hempty.
Qed.

Lemma props_from_empty df params channel run_fit sfreq segments :
  df_empty df = true ->
  forall seg_id,
    omap id (props_from df params channel run_fit sfreq seg_id segments) = [].
Proof.
  intros Hempty. induction segments as [|raw segments IH]; intros seg_id; [done |].
  cbn [props_from omap list_omap]. rewrite segment_run_empty by done.
  cbn [id]. apply IH.
Qed.

Lemma props_from_lookup df params channel run_fit sfreq segments :
  forall seg_id j,
    props_from df params channel run_fit sfreq seg_id segments !! j
    = (fun raw => outcome_props
                    (segment_run df params channel run_fit sfreq (seg_id + j) raw).2)
        <$> segments !! j.
Proof.
  induction segments as [|raw segments IH]; intros seg_id [|j]; cbn [props_from];
    try done.
  - by rewrite Nat.add_0_r.
  - rewrite !lookup_cons, IH. by replace (S seg_id + j)%nat with (seg_id + S j)%nat by lia.
Qed.

(** A loop that ends normally has appended exactly the tables of its
    segments, in order. *)
Lemma batch_run_Ok df params channel run_fit sfreq segments :
  forall seg_id frames,
    (batch_run df params channel run_fit sfreq seg_id segments).2 = Ok frames ->
    frames = omap id (props_from df params channel run_fit sfreq seg_id segments).
Proof.
  induction segments as [|raw segments IH]; intros seg_id frames.
  - by intros [= <-].
  - cbn [batch_run props_from omap list_omap].
    destruct (segment_run df params channel run_fit sfreq seg_id raw) as [ev o].
    specialize (IH (S seg_id)).
    destruct (batch_run df params channel run_fit sfreq (S seg_id) segments)
      as [ev' [frames'|e]];
      destruct o; cbn [snd rbind outcome_props option_list id]; try done;
      intros [= <-]; by rewrite (IH frames' eq_refl).
Qed.

(** When no iteration lets an exception out, the loop ends normally. *)
Lemma batch_run_no_abort df params channel run_fit sfreq segments :
  forall seg_id,
    (forall j raw e, segments !! j = Some raw ->
       (segment_run df params channel run_fit sfreq (seg_id + j) raw).2 <> Aborted e) ->
    exists frames,
      (batch_run df params channel run_fit sfreq seg_id segments).2 = Ok frames.
Proof.
  induction segments as [|raw segments IH]; intros seg_id Hno; [by eexists |].
  cbn [batch_run].
  pose proof (fun e => Hno 0%nat raw e eq_refl) as H0. rewrite Nat.add_0_r in H0.
  destruct (IH (S seg_id)) as (frames & Hf).
  { intros j raw' e Hj. replace (S seg_id + j)%nat with (seg_id + S j)%nat by lia.
    by apply Hno. }
  destruct (segment_run df params channel run_fit sfreq seg_id raw) as [ev o].
  destruct (batch_run df params channel run_fit sfreq (S seg_id) segments) as [ev' r].
  cbn [snd] in *. subst r.
  destruct o; cbn [snd rbind]; try by eexists. by destruct (H0 e).
Qed.

Lemma segment_run_warning df params channel run_fit sfreq seg_id raw e :
  (segment_run df params channel run_fit sfreq seg_id raw).2 = FitError e ->
  skip_warning seg_id e ∈ (segment_run df params channel run_fit sfreq seg_id raw).1.
Proof.
  unfold segment_run. repeat case_match; cbn [fst snd]; try done.
  intros [= <-]. rewrite !elem_of_app. right. by apply elem_of_cons; left.
Qed.

Lemma batch_run_warning df params channel run_fit sfreq segments :
  forall seg_id k raw e,
    (forall j raw' e', segments !! j = Some raw' ->
       (segment_run df params channel run_fit sfreq (seg_id + j) raw').2 <> Aborted e') ->
    segments !! k = Some raw ->
    (segment_run df params channel run_fit sfreq (seg_id + k) raw).2 = FitError e ->
    skip_warning (seg_id + k) e
      ∈ (batch_run df params channel run_fit sfreq seg_id segments).1.
Proof.
  induction segments as [|raw0 segments IH]; intros seg_id k raw e Hno Hk Hfit;
    [done |].
  cbn [batch_run].
  pose proof (fun e => Hno 0%nat raw0 e eq_refl) as H0. rewrite Nat.add_0_r in H0.
  destruct k as [|k].
  - injection Hk as ->. rewrite Nat.add_0_r in *.
    pose proof (segment_run_warning _ _ _ _ _ _ _ _ Hfit) as Hw.
    destruct (segment_run df params channel run_fit sfreq seg_id raw) as [ev o].
    cbn [fst snd] in *. subst o.
    destruct (batch_run df params channel run_fit sfreq (S seg_id) segments) as [ev' r].
    cbn [fst]. apply elem_of_app. by left.
  - change (segments !! k = Some raw) in Hk.
    replace (seg_id + S k)%nat with (S seg_id + k)%nat in * by lia.
    assert (Hin := IH (S seg_id) k raw e).
    destruct (segment_run df params channel run_fit sfreq seg_id raw0) as [ev o].
    destruct (batch_run df params channel run_fit sfreq (S seg_id) segments) as [ev' r].
    cbn [fst snd] in *.
    assert (Hrest : skip_warning (S seg_id + k) e ∈ ev').
    { apply Hin; [| done | done]. intros j raw' e' Hj.
      replace (S seg_id + j)%nat with (seg_id + S j)%nat by lia. by apply Hno. }
    destruct o; cbn [fst]; try (apply elem_of_app; by right). by destruct (H0 e0).
Qed.

Lemma call_run_Ok segments df params channel run_fit t :
  (call_run segments df params channel run_fit).2 = Ok t ->
  t = result_table
        (omap id (props_from df params channel run_fit (first_sfreq segments) 0
                             segments)).
Proof.
  unfold call_run. destruct (df_empty df) eqn:Hempty; cbn [snd].
  - intros [= <-]. by rewrite props_from_empty.
  - pose proof (batch_run_Ok df params channel run_fit (first_sfreq segments)
                  segments 0%nat) as Hb.
    destruct (batch_run df params channel run_fit (first_sfreq segments) 0 segments)
      as [ev [frames|e]]; cbn [snd] in *; [| done].
    intros [= <-]. by rewrite (Hb frames eq_refl).
Qed.

(** C1, as the code has it: when the fit of one segment raises an
    [Exception] inside the guarded call, and no exception leaves the guarded
    call in any segment, the call returns the concatenation of the tables of
    the segments, to which that segment adds none and every other segment
    adds its own, and the warning that names the segment and the exception
    is logged. *)
Theorem fit_error_drops_only_that_segment
    segments blink_df df params channel run_fit s k raw rows signal fitter cls :
  heap s !! blink_df = Some df ->
  segments !! k = Some raw ->
  prepared_rows df k = Ok rows ->
  df_empty rows = false ->
  rbind (get_data raw channel) (fun data => seq_index data 0) = Ok signal ->
  FitBlinks signal rows params = Ok fitter ->
  dprocess_segment_raw fitter run_fit = Raise (Exception cls) ->
  (forall j raw_j e, segments !! j = Some raw_j ->
     (segment_run df params channel run_fit (first_sfreq segments) j raw_j).2
     <> Aborted e) ->
  let tables :=
    props_from df params channel run_fit (first_sfreq segments) 0 segments in
  (compute_segment_blink_properties segments blink_df params channel run_fit s).2
    = Ok (result_table (omap id tables))
  /\ tables !! k = Some None
  /\ (forall j raw_j, segments !! j = Some raw_j ->
        tables !! j
        = Some (outcome_props
                  (segment_run df params channel run_fit (first_sfreq segments) j
                               raw_j).2))
  /\ skip_warning k (Exception cls)
       ∈ events (compute_segment_blink_properties segments blink_df params channel
                   run_fit s).1.
Proof.
  intros Hdf Hk Hrows Hne Hsig Hfit Hraise Hno tables.
  assert (Hout : (segment_run df params channel run_fit (first_sfreq segments) k raw).2
                 = FitError (Exception cls)).
  { unfold segment_run. by rewrite Hrows, Hne, Hsig, Hfit, Hraise. }
  assert (Hlook : forall j raw_j, segments !! j = Some raw_j ->
            tables !! j
            = Some (outcome_props
                      (segment_run df params channel run_fit (first_sfreq segments) j
                                   raw_j).2)).
  { intros j raw_j Hj. unfold tables. by rewrite props_from_lookup, Hj. }
  destruct (batch_run_no_abort df params channel run_fit (first_sfreq segments)
              segments 0%nat Hno) as (frames & Hframes).
  assert (Hcall : (call_run segments df params channel run_fit).2
                  = Ok (result_table frames)
                  /\ skip_warning k (Exception cls)
                       ∈ (call_run segments df params channel run_fit).1).
  { pose proof (batch_run_warning df params channel run_fit (first_sfreq segments)
                  segments 0%nat k raw (Exception cls) Hno Hk Hout) as Hw.
    unfold call_run. rewrite (prepared_rows_not_empty _ _ _ Hrows Hne).
    destruct (batch_run df params channel run_fit (first_sfreq segments) 0 segments)
      as [ev r]. cbn [fst snd] in *. subst r. cbn [fst snd]. split; [done |].
    rewrite !elem_of_app. right. by left. }
  destruct Hcall as [Hret Hw]. split_and!.
  - rewrite (returned _ _ _ _ _ _ _ Hdf). rewrite Hret. f_equal.
    by apply call_run_Ok.
  - by rewrite (Hlook k raw Hk), Hout.
  - done.
  - rewrite (new_events _ _ _ _ _ _ _ Hdf). apply elem_of_app. by right.
Qed.

Lemma first_sfreq_insert segments k raw raw' :
  segments !! k = Some raw ->
  info_sfreq raw' = info_sfreq raw ->
  first_sfreq (<[k := raw']> segments) = first_sfreq segments.
Proof.
  destruct segments as [|raw0 segments]; [done |].
  destruct k as [|k]; [| done]. intros [= ->] Hsf. exact Hsf.
Qed.

(** C2, as the code has it: take two calls on the same candidate table
    whose segments differ only at position [k], where the second has a
    segment with the same sampling rate (so, in particular, one that differs
    only in its samples).  If both calls return, each returns the
    concatenation of the tables of its segments, and every segment other
    than [k] adds the same table in both. *)
Theorem other_segments_add_the_same_tables
    segments k raw raw' blink_df df params channel run_fit s s' t t' :
  heap s !! blink_df = Some df ->
  heap s' !! blink_df = Some df ->
  segments !! k = Some raw ->
  info_sfreq raw' = info_sfreq raw ->
  (compute_segment_blink_properties segments blink_df params channel run_fit s).2
    = Ok t ->
  (compute_segment_blink_properties (<[k := raw']> segments) blink_df params channel
     run_fit s').2 = Ok t' ->
  let tables :=
    props_from df params channel run_fit (first_sfreq segments) 0 segments in
  let tables' :=
    props_from df params channel run_fit (first_sfreq (<[k := raw']> segments)) 0
               (<[k := raw']> segments) in
  t = result_table (omap id tables)
  /\ t' = result_table (omap id tables')
  /\ forall j, j <> k -> tables' !! j = tables !! j.
Proof.
  intros Hdf Hdf' Hk Hsf Ht Ht' tables tables'.
  rewrite (returned _ _ _ _ _ _ _ Hdf) in Ht.
  rewrite (returned _ _ _ _ _ _ _ Hdf') in Ht'.
  split_and!; [by apply call_run_Ok | by apply call_run_Ok |].
  intros j Hj. unfold tables, tables'.
  rewrite !props_from_lookup, (first_sfreq_insert _ _ _ _ Hk Hsf).
  by rewrite list_lookup_insert_ne.
Qed.

End IsolationFacts.

(** ** Flank lines *)

Section LineFacts.

Import LineIntersection.

Context {fork : MatlabFork}.

Lemma rbind_Ok {A B} (r : Result A) (k : A -> Result B) b :
  rbind r k = Ok b -> exists a, r = Ok a /\ k a = Ok b.
Proof. destruct r as [a|]; [| done]. intros H. by exists a. Qed.

Lemma seq_index_Ok {A} (a : list A) i x : seq_index a i = Ok x <-> a !! i = Some x.
Proof. unfold seq_index. destruct (a !! i); split; congruence. Qed.

Ltac invert_bind H :=
  unfold mbind, Result_bind in H;
  repeat match type of H with
         | rbind _ _ = Ok _ =>
             let x := fresh "x" in
             let E := fresh "E" in
             apply rbind_Ok in H as (x & E & H); cbv beta in H
         | (let '(_, _) := ?p in _) = Ok _ => destruct p; cbv beta iota in H
         | match ?p with (_, _) => _ end = Ok _ => destruct p; cbv beta iota in H
         end.

(** C6: whenever [lines_intersection_matlabx] returns, the two flank fits
    succeeded and the average velocities it returns are the first
    coefficient of each fit divided by the second entry of that fit's [mu],
    the scale of the centring. *)
Theorem average_velocity_is_slope_over_scale signal xRight xLeft r :
  lines_intersection_matlabx signal xRight xLeft = Ok r ->
  exists yLeft yRight pLeft SLeft muLeft pRight SRight muRight
         pLeft0 muLeft1 pRight0 muRight1,
    np_take signal xLeft = Ok yLeft
    /\ np_take signal xRight = Ok yRight
    /\ polyfitMatlab xLeft yLeft 1 = Ok (pLeft, SLeft, muLeft)
    /\ polyfitMatlab xRight yRight 1 = Ok (pRight, SRight, muRight)
    /\ pLeft !! 0%nat = Some pLeft0 /\ muLeft !! 1%nat = Some muLeft1
    /\ pRight !! 0%nat = Some pRight0 /\ muRight !! 1%nat = Some muRight1
    /\ averLeftVelocity r = (pLeft0 / muLeft1)%float
    /\ averRightVelocity r = (pRight0 / muRight1)%float.
Proof.
  intros H. unfold lines_intersection_matlabx in H. invert_bind H.
  injection H as <-.
  repeat match goal with
         | E : seq_index _ _ = Ok _ |- _ => apply seq_index_Ok in E
         end.
  do 12 eexists. split_and!; try eassumption; reflexivity.
Qed.

(** C5: when the two fitted lines have equal de-normalised slopes, the
    intersection solver returns NaN for the intersection point and for both
    x-intercepts and does not raise, and these four NaN are what
    [lines_intersection_matlabx] reports whenever it returns. *)
Theorem parallel_flanks_give_nan
    signal xRight xLeft yLeft yRight pLeft SLeft muLeft pRight SRight muRight
    p0 p1 q0 q1 c1 s1 c2 s2 :
  np_take signal xLeft = Ok yLeft ->
  np_take signal xRight = Ok yRight ->
  polyfitMatlab xLeft yLeft 1 = Ok (pLeft, SLeft, muLeft) ->
  polyfitMatlab xRight yRight 1 = Ok (pRight, SRight, muRight) ->
  pLeft !! 0%nat = Some p0 -> pLeft !! 1%nat = Some p1 ->
  pRight !! 0%nat = Some q0 -> pRight !! 1%nat = Some q1 ->
  muLeft !! 0%nat = Some c1 -> muLeft !! 1%nat = Some s1 ->
  muRight !! 0%nat = Some c2 -> muRight !! 1%nat = Some s2 ->
  (raw_slope p0 s1 =? raw_slope q0 s2)%float = true ->
  get_intersection pLeft pRight muLeft muRight = Ok (nan, nan, nan, nan)
  /\ forall r,
      lines_intersection_matlabx signal xRight xLeft = Ok r ->
      xIntersect r = nan /\ yIntersect r = nan
      /\ leftXIntercept r = nan /\ rightXIntercept r = nan.
Proof.
  intros HyL HyR HfL HfR Hp0 Hp1 Hq0 Hq1 Hc1 Hs1 Hc2 Hs2 Hpar.
  assert (Hget : get_intersection pLeft pRight muLeft muRight = Ok (nan, nan, nan, nan)).
  { unfold get_intersection, mbind, Result_bind, seq_index.
    rewrite Hp0, Hp1, Hq0, Hq1, Hc1, Hs1, Hc2, Hs2. cbn [rbind]. by rewrite Hpar. }
  split; [done |].
  intros r H. unfold lines_intersection_matlabx in H.
  unfold mbind, Result_bind in H.
  rewrite HyR in H. cbn [rbind] in H. rewrite HyL in H. cbn [rbind] in H.
  rewrite HfL in H. cbn [rbind] in H.
  apply rbind_Ok in H as ([yPred d] & _ & H).
  apply rbind_Ok in H as ([lR2 d'] & _ & H).
  rewrite HfR in H. cbn [rbind] in H.
  apply rbind_Ok in H as ([yPredR dR] & _ & H).
  apply rbind_Ok in H as ([rR2 dR'] & _ & H).
  rewrite Hget in H. cbn [rbind] in H.
  invert_bind H. by injection H as <-.
Qed.

End LineFacts.

(** ** The facts at work on the small instance *)

Lemma blink_df_never_mutated_witness :
  heap Demo.state0 !! Demo.blink_df = Some Demo.candidates
  /\ heap (compute_segment_blink_properties (collab := Demo.collab)
             [Demo.bad; Demo.good] Demo.blink_df tt "EEG-E8" true Demo.state0).1
       !! Demo.blink_df = Some Demo.candidates.
Proof.
  split; [reflexivity |].
  refine (proj1 (blink_df_never_mutated (collab := Demo.collab) [Demo.bad; Demo.good]
                   Demo.blink_df Demo.candidates tt "EEG-E8" true Demo.state0 _)).
  reflexivity.
Defined.

Lemma empty_table_returns_immediately_witness :
  heap Demo.state_empty !! Demo.blink_df = Some pd_DataFrame
  /\ df_empty pd_DataFrame = true
  /\ exists new,
      compute_segment_blink_properties (collab := Demo.collab)
        [Demo.bad; Demo.good] Demo.blink_df tt "EEG-E8" false Demo.state_empty
      = (mkState (heap Demo.state_empty) (events Demo.state_empty ++ new),
         Ok pd_DataFrame)
      /\ new = opening_events [Demo.bad; Demo.good] false
                ++ [Log INFO "Blink DataFrame is empty; nothing to compute" []]
      /\ Forall (fun ev => is_call ev = false) new.
Proof.
  split; [reflexivity |]. split; [reflexivity |].
  apply (empty_table_returns_immediately (collab := Demo.collab) [Demo.bad; Demo.good]
           Demo.blink_df pd_DataFrame tt "EEG-E8" false Demo.state_empty);
    reflexivity.
Defined.

Lemma calls_are_deterministic_witness :
  let first := compute_segment_blink_properties (collab := Demo.collab)
                 [Demo.good; Demo.good] Demo.blink_df tt "EEG-E8" false Demo.state0 in
  let second := compute_segment_blink_properties (collab := Demo.collab)
                  [Demo.good; Demo.good] Demo.blink_df tt "EEG-E8" false first.1 in
  heap Demo.state0 !! Demo.blink_df = Some Demo.candidates
  /\ heap first.1 !! Demo.blink_df = Some Demo.candidates
  /\ first.2 = second.2
  /\ result_equals first.2 second.2 = true.
Proof.
  intros first second.
  split; [reflexivity |]. split; [vm_compute; reflexivity |].
  apply (calls_are_deterministic (collab := Demo.collab) [Demo.good; Demo.good]
           Demo.blink_df Demo.candidates tt "EEG-E8" false Demo.state0 first.1);
    [reflexivity | vm_compute; reflexivity].
Defined.

Lemma sfreq_taken_from_first_segment_witness :
  heap Demo.state0 !! Demo.blink_df = Some Demo.candidates
  /\ (exists new,
        events (compute_segment_blink_properties (collab := Demo.collab)
                  [Demo.good; Demo.faster] Demo.blink_df tt "EEG-E8" false
                  Demo.state0).1 = events Demo.state0 ++ new
        /\ Forall (uses_sfreq 250%float) new).
Proof.
  split; [reflexivity |].
  refine (proj1 (sfreq_taken_from_first_segment (collab := Demo.collab) Demo.good
                   [Demo.faster] Demo.blink_df Demo.candidates tt "EEG-E8" false
                   Demo.state0 _)).
  reflexivity.
Defined.

Lemma rows_coerced_before_dispatch_witness :
  heap Demo.state0 !! Demo.blink_df = Some Demo.candidates
  /\ exists new,
      events (compute_segment_blink_properties (collab := Demo.collab)
                [Demo.good; Demo.good] Demo.blink_df tt "EEG-E8" false
                Demo.state0).1 = events Demo.state0 ++ new
      /\ Forall (dispatched (fun rows =>
                   exists seg_id sel,
                     (seg_id < 2)%nat
                     /\ selected_rows Demo.candidates seg_id = Ok sel
                     /\ coerced (collab := Demo.collab) sel rows)) new.
Proof.
  split; [reflexivity |].
  apply (rows_coerced_before_dispatch (collab := Demo.collab) [Demo.good; Demo.good]
           Demo.blink_df Demo.candidates tt "EEG-E8" false Demo.state0).
  reflexivity.
Defined.

Lemma rows_matched_by_position_witness :
  heap Demo.state_stray !! Demo.blink_df = Some Demo.stray
  /\ getitem_mask Demo.stray [true; true; false] = Demo.candidates
  /\ (compute_segment_blink_properties (collab := Demo.collab)
        [Demo.good; Demo.good] Demo.blink_df tt "EEG-E8" false Demo.state0).2
     = (compute_segment_blink_properties (collab := Demo.collab)
          [Demo.good; Demo.good] Demo.blink_df tt "EEG-E8" false Demo.state_stray).2.
Proof.
  split; [reflexivity |]. split; [reflexivity |].
  refine (proj1 (proj1 (proj2 (rows_matched_by_position (collab := Demo.collab)
            [Demo.good; Demo.good] Demo.blink_df Demo.stray tt "EEG-E8" false
            Demo.state_stray eq_refl))
          [true; true; false] [CInt 0; CInt 1; CInt 5] Demo.state0
          eq_refl eq_refl _ eq_refl eq_refl)).
  intros [|[|[|j]]] c Hk Hc; try discriminate.
  injection Hc as <-. exists 5. split; [reflexivity | right; vm_compute; discriminate].
Defined.

Lemma fit_error_drops_only_that_segment_witness :
  let run := compute_segment_blink_properties (collab := Demo.collab)
               [Demo.bad; Demo.good] Demo.blink_df tt "EEG-E8" true Demo.state0 in
  dprocess_segment_raw (Collaborators := Demo.collab)
    ([nan; nan; nan]%float, Demo.candidates) true = Raise (Exception "ValueError")
  /\ (exists t, run.2 = Ok t /\ getitem t "seg_id" = Ok [CInt 1])
  /\ skip_warning 0 (Exception "ValueError") ∈ events run.1.
Proof.
  intros run. split; [reflexivity |].
  destruct (fit_error_drops_only_that_segment (collab := Demo.collab)
              [Demo.bad; Demo.good] Demo.blink_df Demo.candidates tt "EEG-E8" true
              Demo.state0 0%nat Demo.bad
              (mkDataFrame [0]
                 [("seg_id", [CInt 0]); ("blink_id", [CInt 0]);
                  ("start_blink", [CInt 100]); ("end_blink", [CInt 200]);
                  ("outer_start", [CInt 80]); ("outer_end", [CInt 220]);
                  ("left_zero", [CInt 90]); ("right_zero", [CInt 210])])
              [nan; nan; nan]%float
              ([nan; nan; nan]%float,
               mkDataFrame [0]
                 [("seg_id", [CInt 0]); ("blink_id", [CInt 0]);
                  ("start_blink", [CInt 100]); ("end_blink", [CInt 200]);
                  ("outer_start", [CInt 80]); ("outer_end", [CInt 220]);
                  ("left_zero", [CInt 90]); ("right_zero", [CInt 210])])
              "ValueError")
    as (Hret & _ & _ & Hwarn).
  - reflexivity.
  - reflexivity.
  - vm_compute; reflexivity.
  - reflexivity.
  - reflexivity.
  - reflexivity.
  - reflexivity.
  - intros [|[|j]] raw_j e Hj; try discriminate; injection Hj as <-;
      vm_compute; discriminate.
  - split; [| exact Hwarn].
    eexists. split; [exact Hret |]. vm_compute. reflexivity.
Defined.

Lemma other_segments_add_the_same_tables_witness :
  let segments := [Demo.good; Demo.good] in
  let run := compute_segment_blink_properties (collab := Demo.collab)
               segments Demo.blink_df tt "EEG-E8" false Demo.state0 in
  let run' := compute_segment_blink_properties (collab := Demo.collab)
                (<[0%nat := Demo.taller]> segments) Demo.blink_df tt "EEG-E8" false
                Demo.state0 in
  (exists t t', run.2 = Ok t /\ run'.2 = Ok t')
  /\ props_from (collab := Demo.collab) Demo.candidates tt "EEG-E8" false
        (first_sfreq (<[0%nat := Demo.taller]> segments)) 0
        (<[0%nat := Demo.taller]> segments) !! 1%nat
     = props_from (collab := Demo.collab) Demo.candidates tt "EEG-E8" false
         (first_sfreq segments) 0 segments !! 1%nat.
Proof.
  intros segments run run'.
  assert (Hrun : exists t, run.2 = Ok t) by (eexists; vm_compute; reflexivity).
  assert (Hrun' : exists t', run'.2 = Ok t') by (eexists; vm_compute; reflexivity).
  destruct Hrun as (t & Ht). destruct Hrun' as (t' & Ht').
  split; [exists t, t'; split; [exact Ht | exact Ht'] |].
  refine (proj2 (proj2 (other_segments_add_the_same_tables (collab := Demo.collab)
            segments 0%nat Demo.good Demo.taller Demo.blink_df Demo.candidates tt
            "EEG-E8" false Demo.state0 Demo.state0 t t'
            eq_refl eq_refl eq_refl eq_refl Ht Ht')) 1%nat _).
  discriminate.
Defined.

Lemma average_velocity_is_slope_over_scale_witness :
  exists r,
    LineIntersection.lines_intersection_matlabx (fork := LineIntersection.Demo.fork)
      LineIntersection.Demo.triangle [2; 3; 4] [0; 1; 2] = Ok r
    /\ LineIntersection.averLeftVelocity r = 5%float
    /\ LineIntersection.averRightVelocity r = (-5)%float.
Proof.
  eexists. split; [vm_compute; reflexivity |].
  destruct (average_velocity_is_slope_over_scale (fork := LineIntersection.Demo.fork)
              LineIntersection.Demo.triangle [2; 3; 4] [0; 1; 2] _ eq_refl)
    as (yL & yR & pL & SL & muL & pR & SR & muR & pL0 & muL1 & pR0 & muR1
        & _ & _ & _ & _ & _ & _ & _ & _ & HL & HR).
  split; reflexivity.
Defined.

Lemma parallel_flanks_give_nan_witness :
  (LineIntersection.raw_slope 5 1 =? LineIntersection.raw_slope 5 1)%float = true
  /\ LineIntersection.get_intersection [5; 5]%float [5; 15]%float [1; 1]%float
       [3; 1]%float = Ok (nan, nan, nan, nan)
  /\ forall r,
      LineIntersection.lines_intersection_matlabx (fork := LineIntersection.Demo.fork)
        LineIntersection.Demo.ramp [2; 3; 4] [0; 1; 2] = Ok r ->
      LineIntersection.xIntersect r = nan /\ LineIntersection.yIntersect r = nan
      /\ LineIntersection.leftXIntercept r = nan
      /\ LineIntersection.rightXIntercept r = nan.
Proof.
  split; [reflexivity |].
  apply (parallel_flanks_give_nan (fork := LineIntersection.Demo.fork)
           LineIntersection.Demo.ramp [2; 3; 4] [0; 1; 2]
           [0; 5; 10]%float [10; 15; 20]%float
           [5; 5]%float tt [1; 1]%float [5; 15]%float tt [3; 1]%float
           5%float 5%float 5%float 15%float 1%float 1%float 3%float 1%float);
    vm_compute; reflexivity.
Defined.

(** ** Where the batch is not protected *)

(** C1, as stated, fails: here the fit of segment 0 succeeds and its property
    computation raises; segment 1 on its own adds a table; the call raises
    and returns nothing. *)
Lemma property_error_aborts_the_batch :
  let segments := [Demo.bad; Demo.good] in
  (exists rows signal fitter fitter',
      prepared_rows (collab := Demo.collab) Demo.candidates 0 = Ok rows
      /\ rbind (get_data Demo.bad "EEG-E8") (fun data => seq_index data 0) = Ok signal
      /\ FitBlinks (Collaborators := Demo.collab) signal rows tt = Ok fitter
      /\ dprocess_segment_raw (Collaborators := Demo.collab) fitter false = Ok fitter'
      /\ BlinkProperties (Collaborators := Demo.collab) signal
           (frame_blinks (Collaborators := Demo.collab) fitter') 250 tt false
         = Raise (Exception "ValueError"))
  /\ (exists props,
        (segment_run (collab := Demo.collab) Demo.candidates tt "EEG-E8" false
           (first_sfreq segments) 1 Demo.good).2 = Props props)
  /\ (compute_segment_blink_properties (collab := Demo.collab) segments
        Demo.blink_df tt "EEG-E8" false Demo.state0).2
     = Raise (Exception "ValueError").
Proof.
  intros segments. split; [| split].
  - do 4 eexists. split_and!; vm_compute; reflexivity.
  - eexists. vm_compute. reflexivity.
  - vm_compute. reflexivity.
Defined.

(** C2, as stated, fails: the two batches differ only in the samples of
    segment 0; the first call returns a table that holds the row of segment
    1, the second raises and returns no row at all. *)
Lemma corrupt_segment_takes_the_other_rows :
  info_sfreq Demo.bad = info_sfreq Demo.good
  /\ ch_names Demo.bad = ch_names Demo.good
  /\ (exists t,
        (compute_segment_blink_properties (collab := Demo.collab)
           [Demo.good; Demo.good] Demo.blink_df tt "EEG-E8" false Demo.state0).2 = Ok t
        /\ getitem t "seg_id" = Ok [CInt 0; CInt 1])
  /\ (compute_segment_blink_properties (collab := Demo.collab)
        [Demo.bad; Demo.good] Demo.blink_df tt "EEG-E8" false Demo.state0).2
     = Raise (Exception "ValueError").
Proof.
  split; [reflexivity |]. split; [reflexivity |]. split.
  - eexists. split; vm_compute; reflexivity.
  - vm_compute. reflexivity.
Defined.

(** ** How the batch ends when an iteration raises *)

Section AbortFacts.

Context {collab : Collaborators}.

Lemma batch_run_events_at (Q : Event -> Prop) df params channel run_fit sfreq segments :
  forall seg_id,
    (forall j raw, segments !! j = Some raw ->
       Forall Q (segment_run df params channel run_fit sfreq (seg_id + j) raw).1) ->
    Forall Q (batch_run df params channel run_fit sfreq seg_id segments).1.
Proof.
  induction segments as [|raw segments IH]; intros seg_id HQ; [by constructor |].
  cbn [batch_run].
  pose proof (HQ 0%nat raw eq_refl) as Hseg. rewrite Nat.add_0_r in Hseg.
  assert (Hrest : Forall Q (batch_run df params channel run_fit sfreq (S seg_id)
                              segments).1).
  { apply IH. intros j raw' Hj.
    replace (S seg_id + j)%nat with (seg_id + S j)%nat by lia. by apply HQ. }
  destruct (segment_run df params channel run_fit sfreq seg_id raw) as [ev o].
  destruct (batch_run df params channel run_fit sfreq (S seg_id) segments) as [ev' r].
  cbn [fst] in *. destruct o; cbn [fst]; try done; by apply Forall_app.
Qed.

(** A property of events that holds of the log lines and the warning of the
    call itself, and of the events of the iteration on each segment at its
    position, holds of all the events of a call. *)
Lemma call_run_events_at (Q : Event -> Prop) segments df params channel run_fit :
  Forall Q (opening_events segments run_fit) ->
  Q (Log INFO "Blink DataFrame is empty; nothing to compute" []) ->
  (forall frames, Forall Q (closing_events frames)) ->
  (forall j raw, segments !! j = Some raw ->
     Forall Q (segment_run df params channel run_fit (first_sfreq segments) j raw).1) ->
  Forall Q (call_run segments df params channel run_fit).1.
Proof.
  intros Hopen Hempty Hclose Hseg.
  unfold call_run. destruct (df_empty df); cbn [fst].
  - apply Forall_app. split; [done |]. by repeat constructor.
  - pose proof (batch_run_events_at Q df params channel run_fit (first_sfreq segments)
                  segments 0%nat Hseg) as Hb.
    destruct (batch_run df params channel run_fit (first_sfreq segments) 0 segments)
      as [ev [frames|e]]; cbn [fst] in *.
    + rewrite !Forall_app. split_and!; done.
    + by apply Forall_app.
Qed.

Lemma batch_run_first_abort df params channel run_fit sfreq segments :
  forall seg_id k raw e,
    segments !! k = Some raw ->
    (forall j raw_j e', (j < k)%nat -> segments !! j = Some raw_j ->
       (segment_run df params channel run_fit sfreq (seg_id + j) raw_j).2 <> Aborted e') ->
    (segment_run df params channel run_fit sfreq (seg_id + k) raw).2 = Aborted e ->
    (batch_run df params channel run_fit sfreq seg_id segments).2 = Raise e.
Proof.
  induction segments as [|raw0 segments IH]; intros seg_id k raw e Hk Hbefore Hab; [done |].
  cbn [batch_run]. destruct k as [|k].
  - injection Hk as ->. rewrite Nat.add_0_r in Hab.
    destruct (segment_run df params channel run_fit sfreq seg_id raw) as [ev o].
    cbn [snd] in Hab. by subst o.
  - change (segments !! k = Some raw) in Hk.
    pose proof (fun e' => Hbefore 0%nat raw0 e' ltac:(lia) eq_refl) as H0.
    rewrite Nat.add_0_r in H0.
    assert (Hrest : (batch_run df params channel run_fit sfreq (S seg_id) segments).2
                    = Raise e).
    { apply (IH (S seg_id) k raw e Hk).
      - intros j raw_j e' Hj Hl.
        replace (S seg_id + j)%nat with (seg_id + S j)%nat by lia.
        apply Hbefore; [lia | done].
      - by replace (S seg_id + k)%nat with (seg_id + S k)%nat by lia. }
    destruct (segment_run df params channel run_fit sfreq seg_id raw0) as [ev o].
    destruct (batch_run df params channel run_fit sfreq (S seg_id) segments) as [ev' r].
    cbn [snd] in *. subst r. destruct o; try done. by destruct (H0 e0).
Qed.

Lemma call_run_first_abort segments df params channel run_fit k raw e :
  df_empty df = false ->
  segments !! k = Some raw ->
  (forall j raw_j e', (j < k)%nat -> segments !! j = Some raw_j ->
     (segment_run df params channel run_fit (first_sfreq segments) j raw_j).2
     <> Aborted e') ->
  (segment_run df params channel run_fit (first_sfreq segments) k raw).2 = Aborted e ->
  (call_run segments df params channel run_fit).2 = Raise e.
Proof.
  intros Hne Hk Hbefore Hab. unfold call_run. rewrite Hne.
  pose proof (batch_run_first_abort df params channel run_fit (first_sfreq segments)
                segments 0%nat k raw e Hk Hbefore Hab) as Hb.
  destruct (batch_run df params channel run_fit (first_sfreq segments) 0 segments)
    as [ev r]. cbn [snd] in *. by subst r.
Qed.

Lemma getitem_missing v name :
  has_column name v = false -> getitem v name = Raise (Exception "KeyError").
Proof.
  unfold has_column, getitem, column_names. intros H%bool_decide_eq_false.
  destruct (assoc_lookup name (df_columns v)) as [c|] eqn:Hl; [| done].
  exfalso. apply H. clear H.
  induction (df_columns v) as [|[n c1] cols IH]; [done |].
  cbn [assoc_lookup] in Hl. cbn [fmap list_fmap fst].
  destruct (decide (n = name)) as [->|Hn]; [left | right; by apply IH].
Qed.

Lemma column_names_getitem_mask df mask :
  column_names (getitem_mask df mask) = column_names df.
Proof.
  unfold column_names, getitem_mask. cbn [df_columns].
  rewrite <- list_fmap_compose. apply list_fmap_ext. by intros _ [] _.
Qed.

Lemma astype_int_raises col e :
  astype_int col = Raise e -> exists cls, e = Exception cls.
Proof.
  unfold astype_int. induction col as [|c col IH]; [done |].
  cbn [rmapM]. destruct (astype_int_cell c) as [c'|e'] eqn:Hc; cbn [rbind].
  - destruct (rmapM astype_int_cell col) as [cs|e'']; cbn [rbind]; [done |].
    intros [= <-]. by apply IH.
  - intros [= <-]. unfold astype_int_cell in Hc. repeat case_match; try done;
      injection Hc as <-; by eexists.
Qed.

Lemma astype_int_uncastable col c :
  c ∈ col -> uncastable c -> exists cls, astype_int col = Raise (Exception cls).
Proof.
  intros Hin Hbad.
  destruct (astype_int col) as [col'|e] eqn:Hcast.
  - exfalso. unfold astype_int in Hcast. revert col' Hcast.
    induction Hin as [c col|c c0 col Hin IH]; intros col'; cbn [rmapM].
    + by destruct Hbad as [-> | [-> | [-> | ->]]].
    + destruct (astype_int_cell c0); cbn [rbind]; [| done].
      destruct (rmapM astype_int_cell col) eqn:Hrest; cbn [rbind]; [| done].
      intros _. by eapply IH.
  - destruct (astype_int_raises _ _ Hcast) as (cls & ->). by exists cls.
Qed.

Lemma prepared_rows_unfold df seg_id :
  prepared_rows df seg_id
  = rbind (selected_rows df seg_id) (fun v0 =>
    rbind (cast_index_columns v0) (fun v5 =>
    if has_column "right_zero" v5 then coerce_right_zero_value v5 else Ok v5)).
Proof.
  unfold prepared_rows, cast_index_columns, index_columns.
  destruct (selected_rows df seg_id) as [v0|]; [| done]. cbn [rbind foldl].
  destruct (coerce_value v0 "start_blink") as [v1|]; [| done]. cbn [rbind].
  destruct (coerce_value v1 "end_blink") as [v2|]; [| done]. cbn [rbind].
  destruct (coerce_value v2 "outer_start") as [v3|]; [| done]. cbn [rbind].
  by destruct (coerce_value v3 "outer_end") as [v4|].
Qed.

Lemma foldl_raise names e :
  foldl (fun r name => rbind r (fun v => coerce_value v name)) (Raise e) names = Raise e.
Proof. by induction names. Qed.

Lemma coerce_value_raises v name e :
  coerce_value v name = Raise e -> exists cls, e = Exception cls.
Proof.
  unfold coerce_value.
  destruct (getitem v name) as [col|e'] eqn:Hg; cbn [rbind].
  - destruct (astype_int col) as [col'|e'] eqn:Hc; cbn [rbind]; [done |].
    intros [= <-]. by eapply astype_int_raises.
  - unfold getitem in Hg. destruct (assoc_lookup name (df_columns v)); [done |].
    injection Hg as <-. intros [= <-]. by eexists.
Qed.

(** If casting the column [name] of [v] would raise, casting a list of columns
    that holds [name] raises: the casts before it leave that column alone. *)
Lemma cast_columns_raises names name :
  name ∈ names ->
  forall v,
    (forall v', getitem v' name = getitem v name ->
       exists cls, coerce_value v' name = Raise (Exception cls)) ->
    exists cls,
      foldl (fun r n => rbind r (fun v => coerce_value v n)) (Ok v) names
      = Raise (Exception cls).
Proof.
  induction names as [|n names IH]; intros Hin v Hraise; [by apply elem_of_nil in Hin |].
  cbn [foldl rbind].
  destruct (decide (n = name)) as [->|Hne].
  - destruct (Hraise v eq_refl) as (cls & ->). exists cls. apply foldl_raise.
  - apply elem_of_cons in Hin as [->|Hin]; [done |].
    destruct (coerce_value v n) as [v1|e] eqn:Hc.
    + apply coerce_value_Ok in Hc as (col & col' & _ & _ & ->).
      apply IH; [done |]. intros v' Hv'. apply Hraise.
      by rewrite Hv', getitem_setitem_ne.
    + destruct (coerce_value_raises _ _ _ Hc) as (cls & ->).
      exists cls. apply foldl_raise.
Qed.

Lemma prepared_rows_raises df seg_id name :
  name ∈ index_columns ->
  (forall sel, selected_rows df seg_id = Ok sel ->
     forall v', getitem v' name = getitem sel name ->
       exists cls, coerce_value v' name = Raise (Exception cls)) ->
  exists cls, prepared_rows df seg_id = Raise (Exception cls).
Proof.
  intros Hin Hraise. rewrite prepared_rows_unfold.
  destruct (selected_rows df seg_id) as [sel|e] eqn:Hsel; cbn [rbind].
  - destruct (cast_columns_raises index_columns name Hin sel (Hraise sel eq_refl))
      as (cls & Hc).
    unfold cast_index_columns. rewrite Hc. by exists cls.
  - unfold selected_rows in Hsel.
    destruct (getitem df "seg_id") as [ids|e'] eqn:Hg; [done |].
    cbn [rbind] in Hsel. injection Hsel as <-.
    unfold getitem in Hg. destruct (assoc_lookup "seg_id" (df_columns df)); [done |].
    injection Hg as <-. by eexists.
Qed.

Lemma segment_run_prepare_raises df params channel run_fit sfreq seg_id raw e :
  prepared_rows df seg_id = Raise e ->
  segment_run df params channel run_fit sfreq seg_id raw = ([], Aborted e).
Proof. intros H. unfold segment_run. by rewrite H. Qed.

(** X1: on a table that is not empty and lacks one of [seg_id],
    [start_blink], [end_blink], [outer_start], [outer_end], [left_zero], a
    call with at least one segment raises in its first iteration, before any
    segment is read or any collaborator called, whether or not a row matches;
    without [seg_id] the exception is the KeyError of line 80. *)
Theorem missing_column_raises raw rest blink_df df params channel run_fit s name :
  heap s !! blink_df = Some df ->
  df_empty df = false ->
  name ∈ required_columns ->
  has_column name df = false ->
  exists cls,
    (compute_segment_blink_properties (raw :: rest) blink_df params channel run_fit s).2
      = Raise (Exception cls)
    /\ (name = "seg_id" -> cls = "KeyError")
    /\ events (compute_segment_blink_properties (raw :: rest) blink_df params channel
                 run_fit s).1
       = events s ++ opening_events (raw :: rest) run_fit.
Proof.
  intros Hdf Hne Hin Hmiss.
  assert (Hprep : exists cls, prepared_rows df 0 = Raise (Exception cls)
                              /\ (name = "seg_id" -> cls = "KeyError")).
  { apply elem_of_cons in Hin as [->|Hin].
    - exists "KeyError". split; [| done].
      unfold prepared_rows, selected_rows. by rewrite (getitem_missing _ _ Hmiss).
    - destruct (prepared_rows_raises df 0 name Hin) as (cls & Hc).
      + intros sel Hsel v' Hv'. exists "KeyError".
        unfold coerce_value. rewrite Hv'.
        unfold selected_rows in Hsel.
        destruct (getitem df "seg_id") as [ids|]; [| done]. injection Hsel as <-.
        rewrite getitem_missing; [done |].
        by rewrite (has_column_names df) by apply column_names_getitem_mask.
      + exists cls. split; [done |]. intros ->. exfalso. revert Hin.
        change ("seg_id" ∉ index_columns).
        apply (bool_decide_unpack _). vm_compute. exact I. }
  destruct Hprep as (cls & Hprep & Hkey). exists cls.
  assert (Hcall : call_run (raw :: rest) df params channel run_fit
                  = (opening_events (raw :: rest) run_fit ++ [], Raise (Exception cls))).
  { unfold call_run. rewrite Hne. cbn [batch_run].
    by rewrite (segment_run_prepare_raises _ _ _ _ _ _ _ _ Hprep). }
  split_and!; [| done |].
  - by rewrite (returned _ _ _ _ _ _ _ Hdf), Hcall.
  - by rewrite (new_events _ _ _ _ _ _ _ Hdf), Hcall, app_nil_r.
Qed.

(** X2: a missing value (None or NaN) or an infinity in one of the five index
    columns of the rows selected for a segment ends the whole call with an
    exception as soon as the loop reaches that segment: the cast stands
    outside the guarded call, so nothing is returned for any segment. *)
Theorem uncastable_index_aborts_the_batch
    segments blink_df df params channel run_fit s k raw sel name col c :
  heap s !! blink_df = Some df ->
  df_empty df = false ->
  segments !! k = Some raw ->
  (forall j raw_j e, (j < k)%nat -> segments !! j = Some raw_j ->
     (segment_run df params channel run_fit (first_sfreq segments) j raw_j).2
     <> Aborted e) ->
  selected_rows df k = Ok sel ->
  name ∈ index_columns ->
  getitem sel name = Ok col ->
  c ∈ col ->
  uncastable c ->
  exists cls,
    (compute_segment_blink_properties segments blink_df params channel run_fit s).2
    = Raise (Exception cls).
Proof.
  intros Hdf Hne Hk Hbefore Hsel Hin Hcol Hc Hbad.
  destruct (prepared_rows_raises df k name Hin) as (cls & Hprep).
  { intros sel' Hsel' v' Hv'. rewrite Hsel in Hsel'. injection Hsel' as <-.
    unfold coerce_value. rewrite Hv', Hcol. cbn [rbind].
    destruct (astype_int_uncastable col c Hc Hbad) as (cls & ->). by exists cls. }
  exists cls. rewrite (returned _ _ _ _ _ _ _ Hdf).
  apply (call_run_first_abort segments df params channel run_fit k raw); try done.
  by rewrite (segment_run_prepare_raises _ _ _ _ _ _ _ _ Hprep).
Qed.

(** X3: the guard around the fit catches [Exception] only.  When the fit of a
    segment raises something else (a KeyboardInterrupt, say) and the loop has
    reached that segment, the call ends with that very exception, and no
    warning about a skipped segment ever names such an exception. *)
Theorem guard_lets_base_exceptions_through
    segments blink_df df params channel run_fit s k raw rows signal fitter cls :
  heap s !! blink_df = Some df ->
  segments !! k = Some raw ->
  (forall j raw_j e, (j < k)%nat -> segments !! j = Some raw_j ->
     (segment_run df params channel run_fit (first_sfreq segments) j raw_j).2
     <> Aborted e) ->
  prepared_rows df k = Ok rows ->
  df_empty rows = false ->
  rbind (get_data raw channel) (fun data => seq_index data 0) = Ok signal ->
  FitBlinks signal rows params = Ok fitter ->
  dprocess_segment_raw fitter run_fit = Raise (BaseException cls) ->
  (compute_segment_blink_properties segments blink_df params channel run_fit s).2
    = Raise (BaseException cls)
  /\ forall seg_id e,
      skip_warning seg_id e
        ∈ events (compute_segment_blink_properties segments blink_df params channel
                    run_fit s).1 ->
      skip_warning seg_id e ∈ events s \/ exists cls', e = Exception cls'.
Proof.
  intros Hdf Hk Hbefore Hrows Hne Hsig Hfit Hraise. split.
  - rewrite (returned _ _ _ _ _ _ _ Hdf).
    apply (call_run_first_abort segments df params channel run_fit k raw); try done.
    + by apply (prepared_rows_not_empty _ _ _ Hrows).
    + unfold segment_run. by rewrite Hrows, Hne, Hsig, Hfit, Hraise.
  - intros seg_id e. rewrite (new_events _ _ _ _ _ _ _ Hdf), elem_of_app.
    intros [Hold|Hnew]; [by left | right].
    assert (HQ : Forall (fun ev => forall i e', ev = skip_warning i e' ->
                           exists cls', e' = Exception cls')
                        (call_run segments df params channel run_fit).1).
    { apply call_run_events_at.
      - unfold opening_events. by destruct run_fit; repeat constructor.
      - done.
      - intros [|f frames]; by repeat constructor.
      - intros i raw' _. unfold segment_run.
        repeat case_match; cbn [fst]; rewrite ?Forall_app; repeat split;
          repeat constructor; intros i' e'; unfold skip_warning; try done.
        intros [= _ <-]. by eexists. }
    rewrite Forall_forall in HQ. by apply (HQ _ Hnew seg_id e).
Qed.

End AbortFacts.

(** ** What is read, what is passed on, and what comes back *)

Section ShapeFacts.

Context {collab : Collaborators}.

Lemma mask_filter_some {A B} (f : A -> bool) (ids : list A) (l : list B) :
  mask_filter (f <$> ids) l <> [] -> exists c, c ∈ ids /\ f c = true.
Proof.
  revert l. induction ids as [|c ids IH]; intros [|b l]; cbn [fmap list_fmap mask_filter];
    try done.
  destruct (f c) eqn:Hf.
  - intros _. exists c. split; [left | done].
  - intros (c' & Hin & Hc')%IH. exists c'. split; [by right | done].
Qed.

Lemma prepared_rows_has_candidate df seg_id rows :
  prepared_rows df seg_id = Ok rows -> df_empty rows = false -> has_candidate df seg_id.
Proof.
  intros (sel & Hsel & Hidx & _)%prepared_rows_coerced Hne.
  unfold selected_rows in Hsel.
  destruct (getitem df "seg_id") as [ids|] eqn:Hids; [| done].
  cbn [rbind] in Hsel. injection Hsel as <-.
  destruct (mask_filter_some (cell_eq_int (Z.of_nat seg_id)) ids (df_index df))
    as (c & Hin & Hc).
  { unfold df_empty in Hne. rewrite Hidx in Hne. cbn [getitem_mask df_index] in Hne.
    intros Hnil. by rewrite Hnil in Hne. }
  by exists ids, c.
Qed.



(** X5: the fitter and the property calculator are always given the signal
    that [get_data] returned for the channel on one of the segments, as it
    was returned, and [run_fit] as the caller passed it, as [run_fit] of the
    fit and as [fitted] of the property calculator. *)
Theorem collaborators_get_the_segment_signal
    segments blink_df df params channel run_fit s :
  heap s !! blink_df = Some df ->
  exists new,
    events (compute_segment_blink_properties segments blink_df params channel
              run_fit s).1 = events s ++ new
    /\ Forall (fun ev =>
                 match ev with
                 | Call_FitBlinks signal _ => signal_of_batch segments channel signal
                 | Call_dprocess_segment_raw flag => flag = run_fit
                 | Call_BlinkProperties signal _ _ fitted =>
                     signal_of_batch segments channel signal /\ fitted = run_fit
                 | _ => True
                 end) new.
Proof.
  intros Hdf. eexists. split; [by apply new_events |].
  apply call_run_events_at.
  - unfold opening_events. by destruct run_fit; repeat constructor.
  - done.
  - intros [|f frames]; by repeat constructor.
  - intros j raw Hj. unfold segment_run.
    destruct (prepared_rows df j) as [v|]; [| by constructor].
    destruct (df_empty v); [by constructor |].
    destruct (rbind (get_data raw channel) _) as [signal|] eqn:Hsig;
      [| by repeat constructor].
    assert (Hfrom : signal_of_batch segments channel signal) by by exists j, raw.
    repeat case_match; cbn [fst]; rewrite ?Forall_app; repeat split;
      by repeat constructor.
Qed.

Lemma filter_none (p : Event -> bool) evs :
  Forall (fun ev => p ev = false) evs -> List.filter p evs = [].
Proof.
  induction 1 as [|ev evs Hev _ IH]; [done |]. cbn [List.filter]. by rewrite Hev.
Qed.

(** X6: the RuntimeWarning about dropped blinks is issued exactly once in a
    call with [run_fit] set, also when the candidate table is empty, and
    never in a call without it. *)
Theorem warning_exactly_when_run_fit segments blink_df df params channel run_fit s :
  heap s !! blink_df = Some df ->
  exists new,
    events (compute_segment_blink_properties segments blink_df params channel
              run_fit s).1 = events s ++ new
    /\ List.filter is_warn new
       = if run_fit
         then [Warn "run_fit=True may drop blinks due to NaNs in fit range"
                    "RuntimeWarning"]
         else [].
Proof.
  intros Hdf. eexists. split; [by apply new_events |].
  assert (Hno : forall seg_id segs,
            Forall (fun ev => is_warn ev = false)
                   (batch_run df params channel run_fit (first_sfreq segments) seg_id
                              segs).1).
  { intros seg_id segs. apply batch_run_events_at. intros j raw _.
    unfold segment_run.
    repeat case_match; cbn [fst]; rewrite ?Forall_app; repeat split;
      by repeat constructor. }
  unfold call_run. destruct (df_empty df); cbn [fst].
  - rewrite List.filter_app. unfold opening_events. by destruct run_fit.
  - specialize (Hno 0%nat segments).
    destruct (batch_run df params channel run_fit (first_sfreq segments) 0 segments)
      as [ev [frames|e]]; cbn [fst] in *;
      rewrite ?List.filter_app, (filter_none _ _ Hno);
      unfold opening_events; destruct run_fit; try destruct frames; done.
Qed.

End ShapeFacts.

(** ** The [seg_id] column of the result *)

Section ResultFacts.

Context {collab : Collaborators}.

Lemma union_names_elem names : forall seen n,
  n ∈ union_names seen names <-> n ∈ names /\ n ∉ seen.
Proof.
  induction names as [|m names IH]; intros seen n; cbn [union_names].
  - split; [by intros H%elem_of_nil | by intros [H%elem_of_nil _]].
  - destruct (decide (m ∈ seen)) as [Hm|Hm].
    + rewrite IH, elem_of_cons. split.
      * intros [Hn Hs]. split; [by right | done].
      * intros [[->|Hn] Hs]; [done | by split].
    + rewrite (elem_of_cons (union_names _ _)), IH, (elem_of_cons names). split.
      * intros [->|[Hn Hs]]; [by split; [left |] |].
        split; [by right |]. intros Hin. apply Hs. by right.
      * intros [[->|Hn] Hs]; [by left |].
        destruct (decide (n = m)) as [->|Hne]; [by left | right].
        split; [done |]. by intros [->|Hin]%elem_of_cons.
Qed.

Lemma assoc_lookup_keyed {A} (f : string -> A) names name :
  name ∈ names -> assoc_lookup name ((fun n => (n, f n)) <$> names) = Some (f name).
Proof.
  induction names as [|m names IH]; [by intros H%elem_of_nil |].
  cbn [fmap list_fmap assoc_lookup]. destruct (decide (m = name)) as [->|Hne]; [done |].
  intros [->|Hin]%elem_of_cons; [done | by apply IH].
Qed.

Lemma getitem_pd_concat frames name :
  name ∈ frames ≫= column_names ->
  getitem (pd_concat frames) name = Ok (concat_column name frames).
Proof.
  intros Hin. unfold getitem, pd_concat. cbn [df_columns].
  rewrite (assoc_lookup_keyed (fun n => concat_column n frames)); [done |].
  apply union_names_elem. split; [done | by intros H%elem_of_nil].
Qed.

Lemma column_names_setitem_scalar p name c :
  name ∈ column_names (setitem_scalar p name c).
Proof.
  unfold column_names, setitem_scalar, setitem. cbn [df_columns].
  induction (df_columns p) as [|[n col] cols IH]; cbn [assoc_set fmap list_fmap fst].
  - left.
  - destruct (decide (n = name)) as [->|Hne]; cbn [fmap list_fmap fst]; [left | by right].
Qed.

Lemma segment_run_Props df params channel run_fit sfreq seg_id raw props :
  (segment_run df params channel run_fit sfreq seg_id raw).2 = Props props ->
  has_candidate df seg_id
  /\ exists p, props = setitem_scalar p "seg_id" (CInt (Z.of_nat seg_id)).
Proof.
  unfold segment_run.
  destruct (prepared_rows df seg_id) as [v|] eqn:Hv; [| done].
  destruct (df_empty v) eqn:Hne; [done |].
  pose proof (prepared_rows_has_candidate _ _ _ Hv Hne) as Hcand.
  repeat case_match; cbn [snd]; try done. intros [= <-]. split; [done | by eexists].
Qed.

(** The tables a loop appends, as the positions of their segments paired with
    what the property calculator returned for them. *)
Lemma props_from_shape df params channel run_fit sfreq segments :
  forall seg_id,
    exists l : list (nat * DataFrame),
      omap id (props_from df params channel run_fit sfreq seg_id segments)
      = (fun jp => setitem_scalar jp.2 "seg_id" (CInt (Z.of_nat jp.1))) <$> l
      /\ StronglySorted le l.*1
      /\ Forall (fun j => (seg_id <= j < seg_id + length segments)%nat
                          /\ has_candidate df j) l.*1.
Proof.
  induction segments as [|raw segments IH]; intros seg_id.
  - exists []. split; [done |]. split; by constructor.
  - destruct (IH (S seg_id)) as (l & Hl & Hsorted & Hall).
    cbn [props_from omap list_omap length].
    destruct (segment_run df params channel run_fit sfreq seg_id raw).2 as [| | |props]
      eqn:Hout; cbn [outcome_props id].
    1-3: exists l; split; [done |]; split; [done |];
         eapply Forall_impl; [exact Hall |]; intros j [Hj Hc]; split; [lia | done].
    apply segment_run_Props in Hout as (Hcand & p & ->).
    exists ((seg_id, p) :: l). cbn [fmap list_fmap fst snd]. split; [by rewrite Hl |].
    split.
    + constructor; [done |]. eapply Forall_impl; [exact Hall |]. intros j [Hj _]. lia.
    + constructor; [split; [lia | done] |].
      eapply Forall_impl; [exact Hall |]. intros j [Hj Hc]. split; [lia | done].
Qed.

Lemma concat_seg_id (l : list (nat * DataFrame)) :
  concat_column "seg_id"
    ((fun jp => setitem_scalar jp.2 "seg_id" (CInt (Z.of_nat jp.1))) <$> l)
  = (fun j => CInt (Z.of_nat j))
      <$> (l ≫= fun jp => replicate (length (df_index jp.2)) jp.1).
Proof.
  unfold concat_column. induction l as [|[j p] l IH]; [done |].
  rewrite fmap_cons, !bind_cons, fmap_app, IH. f_equal.
  cbn [fst snd]. unfold setitem_scalar, setitem. cbn [df_columns df_index].
  by rewrite assoc_lookup_set_eq, fmap_replicate.
Qed.

Lemma replicate_sorted n (j : nat) : StronglySorted le (replicate n j).
Proof.
  induction n as [|n IH]; [by constructor |].
  cbn [replicate]. constructor; [done |]. apply Forall_forall. by intros ? [-> _]%elem_of_replicate.
Qed.

Lemma blocks_sorted (l : list (nat * DataFrame)) :
  StronglySorted le l.*1 ->
  StronglySorted le (l ≫= fun jp => replicate (length (df_index jp.2)) jp.1).
Proof.
  induction l as [|[j p] l IH]; [by constructor |].
  cbn [fmap list_fmap fst]. intros [Hrest Hle]%StronglySorted_cons.
  rewrite bind_cons. cbn [fst snd].
  apply StronglySorted_app_2; [| apply replicate_sorted | by apply IH].
  intros a b Ha Hb. apply elem_of_replicate in Ha as [-> _].
  apply list_elem_of_bind in Hb as ([j' p'] & Hb & Hin).
  apply elem_of_replicate in Hb as [-> _]. cbn [fst].
  rewrite Forall_forall in Hrest. apply Hrest.
  apply list_elem_of_fmap. by exists (j', p').
Qed.

(** X7: a table that a call returns either is [pd.DataFrame()], with no
    column at all, or has a [seg_id] column that lists positions of segments
    in ascending order, each the position of a segment of the batch for which
    the candidate table has a row. *)
Theorem result_lists_segments_in_order segments blink_df df params channel run_fit s t :
  heap s !! blink_df = Some df ->
  (compute_segment_blink_properties segments blink_df params channel run_fit s).2
    = Ok t ->
  t = pd_DataFrame
  \/ exists positions,
      getitem t "seg_id" = Ok ((fun j => CInt (Z.of_nat j)) <$> positions)
      /\ StronglySorted le positions
      /\ Forall (fun j => (j < length segments)%nat /\ has_candidate df j) positions.
Proof.
  intros Hdf Ht. rewrite (returned _ _ _ _ _ _ _ Hdf) in Ht.
  apply call_run_Ok in Ht.
  destruct (props_from_shape df params channel run_fit (first_sfreq segments) segments
              0%nat) as (l & Hl & Hsorted & Hall).
  rewrite Hl in Ht. destruct l as [|[j p] l]; [by left | right].
  set (blocks := (j, p) :: l) in *.
  exists (blocks ≫= fun jp => replicate (length (df_index jp.2)) jp.1).
  split_and!.
  - subst t. cbn [result_table fmap list_fmap].
    change (getitem (pd_concat
                       ((fun jp => setitem_scalar jp.2 "seg_id" (CInt (Z.of_nat jp.1)))
                          <$> blocks)) "seg_id" = Ok
              ((fun j => CInt (Z.of_nat j))
                 <$> (blocks ≫= fun jp => replicate (length (df_index jp.2)) jp.1))).
    rewrite getitem_pd_concat; [by rewrite concat_seg_id |].
    unfold blocks. rewrite fmap_cons, bind_cons. apply elem_of_app. left.
    apply column_names_setitem_scalar.
  - by apply blocks_sorted.
  - rewrite Forall_forall. intros a Ha.
    apply list_elem_of_bind in Ha as ([j' p'] & Ha & Hin).
    apply elem_of_replicate in Ha as [-> _]. cbn [fst].
    rewrite Forall_forall in Hall.
    destruct (Hall j') as [Hj Hc]; [apply list_elem_of_fmap; by exists (j', p') |].
    split; [lia | done].
Qed.

Lemma nan_equals_nothing (y : float) : (nan =? y)%float = false.
Proof. by rewrite FloatAxioms.eqb_spec. Qed.

Lemma never_matching_no_position c i : never_matching c -> cell_eq_int i c = false.
Proof.
  intros [-> | [-> | [str ->]]]; cbn [cell_eq_int]; [done | | done].
  apply nan_equals_nothing.
Qed.

(** X8: candidate rows whose [seg_id] is missing (None or NaN) or is a string
    match no segment: taking them out of the table changes neither what the
    call returns or raises nor the events it records, as long as some row is
    left. *)
Theorem rows_without_position_are_ignored
    segments blink_df df params channel run_fit s s' keep ids :
  heap s !! blink_df = Some df ->
  heap s' !! blink_df = Some (getitem_mask df keep) ->
  getitem df "seg_id" = Ok ids ->
  length keep = length ids ->
  (forall j c, keep !! j = Some false -> ids !! j = Some c -> never_matching c) ->
  df_empty (getitem_mask df keep) = false ->
  (compute_segment_blink_properties segments blink_df params channel run_fit s').2
  = (compute_segment_blink_properties segments blink_df params channel run_fit s).2
  /\ exists new,
      events (compute_segment_blink_properties segments blink_df params channel
                run_fit s').1 = events s' ++ new
      /\ events (compute_segment_blink_properties segments blink_df params channel
                   run_fit s).1 = events s ++ new.
Proof.
  intros Hdf Hdf' Hids Hlen Hdrop Hne.
  assert (Hcall : call_run segments (getitem_mask df keep) params channel run_fit
                  = call_run segments df params channel run_fit).
  { unfold call_run. rewrite Hne, (df_empty_getitem_mask _ _ Hne).
    rewrite (batch_run_ext df (getitem_mask df keep) _ _ _ _ segments 0%nat
               (length segments)); [done | done |].
    intros i Hi. apply (selected_rows_drop df keep ids); [done | done |].
    intros j c Hk Hc. apply never_matching_no_position. by apply (Hdrop j c). }
  split.
  - by rewrite (returned _ _ _ _ _ _ _ Hdf'), (returned _ _ _ _ _ _ _ Hdf), Hcall.
  - exists (call_run segments df params channel run_fit).1. split.
    + by rewrite (new_events _ _ _ _ _ _ _ Hdf'), Hcall.
    + by apply new_events.
Qed.

End ResultFacts.

(** ** Indexing the signal with the flank windows *)

Section IndexFacts.

Import LineIntersection.

Context {fork : MatlabFork}.

Lemma np_index_raises signal i e :
  np_index signal i = Raise e -> e = Exception "IndexError".
Proof.
  unfold np_index, seq_index. repeat case_match; congruence.
Qed.

Lemma np_index_out_of_range signal i :
  i < - Z.of_nat (length signal) \/ Z.of_nat (length signal) <= i ->
  np_index signal i = Raise (Exception "IndexError").
Proof.
  intros Hout. unfold np_index.
  destruct ((0 <=? i) && (i <? Z.of_nat (length signal))) eqn:H1; [lia |].
  destruct ((- Z.of_nat (length signal) <=? i) && (i <? 0)) eqn:H2; [lia | done].
Qed.

Lemma np_take_out_of_range signal x i :
  i ∈ x ->
  i < - Z.of_nat (length signal) \/ Z.of_nat (length signal) <= i ->
  np_take signal x = Raise (Exception "IndexError").
Proof.
  intros Hin Hout. unfold np_take.
  induction Hin as [i x|i i0 x Hin IH]; cbn [rmapM].
  - by rewrite np_index_out_of_range.
  - destruct (np_index signal i0) as [y|e] eqn:Hi; cbn [rbind].
    + by rewrite IH.
    + by rewrite (np_index_raises _ _ _ Hi).
Qed.

Lemma np_take_raises signal x e :
  np_take signal x = Raise e -> e = Exception "IndexError".
Proof.
  unfold np_take. induction x as [|i x IH]; [done |]. cbn [rmapM].
  destruct (np_index signal i) as [y|e'] eqn:Hi; cbn [rbind].
  - destruct (rmapM (np_index signal) x); cbn [rbind]; [done |].
    intros [= <-]. by apply IH.
  - intros [= <-]. by eapply np_index_raises.
Qed.

(** X9: an index of either flank window that lies outside the signal, below
    minus its length or at or above its length, makes
    [lines_intersection_matlabx] raise IndexError, whatever the fitting
    helpers would do. *)
Theorem window_index_out_of_range_raises signal xRight xLeft i :
  i ∈ xRight \/ i ∈ xLeft ->
  i < - Z.of_nat (length signal) \/ Z.of_nat (length signal) <= i ->
  lines_intersection_matlabx signal xRight xLeft = Raise (Exception "IndexError").
Proof.
  intros Hin Hout. unfold lines_intersection_matlabx, mbind, Result_bind.
  destruct Hin as [Hin|Hin].
  - by rewrite (np_take_out_of_range _ _ _ Hin Hout).
  - destruct (np_take signal xRight) as [yRight|e] eqn:HR; cbn [rbind].
    + by rewrite (np_take_out_of_range _ _ _ Hin Hout).
    + by rewrite (np_take_raises _ _ _ HR).
Qed.

End IndexFacts.

(** ** The further facts at work on small cases *)

Lemma missing_column_raises_witness :
  heap (Cases.state_of Cases.no_left_zero) !! Demo.blink_df = Some Cases.no_left_zero
  /\ df_empty Cases.no_left_zero = false
  /\ has_column "left_zero" Cases.no_left_zero = false
  /\ exists cls,
      (compute_segment_blink_properties (collab := Demo.collab) [Demo.good; Demo.good]
         Demo.blink_df tt "EEG-E8" false (Cases.state_of Cases.no_left_zero)).2
      = Raise (Exception cls).
Proof.
  split; [reflexivity |]. split; [reflexivity |]. split; [reflexivity |].
  destruct (missing_column_raises (collab := Demo.collab) Demo.good [Demo.good]
              Demo.blink_df Cases.no_left_zero tt "EEG-E8" false
              (Cases.state_of Cases.no_left_zero) "left_zero"
              eq_refl eq_refl) as (cls & Hraise & _).
  - apply (bool_decide_unpack _). vm_compute. exact I.
  - reflexivity.
  - exists cls. exact Hraise.
Defined.

Lemma uncastable_index_aborts_the_batch_witness :
  selected_rows Cases.nan_start 1
  = Ok (mkDataFrame [1]
          [("seg_id", [CInt 1]); ("blink_id", [CInt 0]);
           ("start_blink", [CFloat nan]); ("end_blink", [CFloat 200]);
           ("outer_start", [CInt 80]); ("outer_end", [CInt 220]);
           ("left_zero", [CInt 90]); ("right_zero", [CFloat nan])])
  /\ uncastable (CFloat nan)
  /\ exists cls,
      (compute_segment_blink_properties (collab := Demo.collab) [Demo.good; Demo.good]
         Demo.blink_df tt "EEG-E8" false (Cases.state_of Cases.nan_start)).2
      = Raise (Exception cls).
Proof.
  split; [reflexivity |]. split; [right; left; reflexivity |].
  apply (uncastable_index_aborts_the_batch (collab := Demo.collab)
           [Demo.good; Demo.good] Demo.blink_df Cases.nan_start tt "EEG-E8" false
           (Cases.state_of Cases.nan_start) 1%nat Demo.good
           (mkDataFrame [1]
              [("seg_id", [CInt 1]); ("blink_id", [CInt 0]);
               ("start_blink", [CFloat nan]); ("end_blink", [CFloat 200]);
               ("outer_start", [CInt 80]); ("outer_end", [CInt 220]);
               ("left_zero", [CInt 90]); ("right_zero", [CFloat nan])])
           "start_blink" [CFloat nan] (CFloat nan)).
  - reflexivity.
  - reflexivity.
  - reflexivity.
  - intros [|j] raw_j e Hj Hl; [| lia]. injection Hl as <-. vm_compute. discriminate.
  - reflexivity.
  - apply (bool_decide_unpack _). vm_compute. exact I.
  - reflexivity.
  - left.
  - right. left. reflexivity.
Defined.

Lemma guard_lets_base_exceptions_through_witness :
  dprocess_segment_raw (Collaborators := Cases.interrupted)
    ([0; 10; 0]%float, Demo.candidates) false
  = Raise (BaseException "KeyboardInterrupt")
  /\ (compute_segment_blink_properties (collab := Cases.interrupted) [Demo.good]
        Demo.blink_df tt "EEG-E8" false Demo.state0).2
     = Raise (BaseException "KeyboardInterrupt").
Proof.
  split; [reflexivity |].
  refine (proj1 (guard_lets_base_exceptions_through (collab := Cases.interrupted)
            [Demo.good] Demo.blink_df Demo.candidates tt "EEG-E8" false Demo.state0
            0%nat Demo.good
            (mkDataFrame [0]
               [("seg_id", [CInt 0]); ("blink_id", [CInt 0]);
                ("start_blink", [CInt 100]); ("end_blink", [CInt 200]);
                ("outer_start", [CInt 80]); ("outer_end", [CInt 220]);
                ("left_zero", [CInt 90]); ("right_zero", [CInt 210])])
            [0; 10; 0]%float
            ([0; 10; 0]%float,
             mkDataFrame [0]
               [("seg_id", [CInt 0]); ("blink_id", [CInt 0]);
                ("start_blink", [CInt 100]); ("end_blink", [CInt 200]);
                ("outer_start", [CInt 80]); ("outer_end", [CInt 220]);
                ("left_zero", [CInt 90]); ("right_zero", [CInt 210])])
            "KeyboardInterrupt" eq_refl eq_refl _ _ eq_refl eq_refl eq_refl eq_refl)).
  - intros j raw_j e Hj. lia.
  - vm_compute. reflexivity.
Defined.


Lemma collaborators_get_the_segment_signal_witness :
  heap Demo.state0 !! Demo.blink_df = Some Demo.candidates
  /\ exists new,
      events (compute_segment_blink_properties (collab := Demo.collab)
                [Demo.good; Demo.taller] Demo.blink_df tt "EEG-E8" true
                Demo.state0).1 = events Demo.state0 ++ new
      /\ Forall (fun ev =>
                   match ev with
                   | Call_FitBlinks signal _ =>
                       signal_of_batch [Demo.good; Demo.taller] "EEG-E8" signal
                   | Call_dprocess_segment_raw flag => flag = true
                   | Call_BlinkProperties signal _ _ fitted =>
                       signal_of_batch [Demo.good; Demo.taller] "EEG-E8" signal
                       /\ fitted = true
                   | _ => True
                   end) new.
Proof.
  split; [reflexivity |].
  exact (collaborators_get_the_segment_signal (collab := Demo.collab)
           [Demo.good; Demo.taller] Demo.blink_df Demo.candidates tt "EEG-E8" true
           Demo.state0 eq_refl).
Defined.

Lemma warning_exactly_when_run_fit_witness :
  heap Demo.state_empty !! Demo.blink_df = Some pd_DataFrame
  /\ exists new,
      events (compute_segment_blink_properties (collab := Demo.collab)
                [Demo.good] Demo.blink_df tt "EEG-E8" true Demo.state_empty).1
      = events Demo.state_empty ++ new
      /\ List.filter is_warn new
         = [Warn "run_fit=True may drop blinks due to NaNs in fit range"
                 "RuntimeWarning"].
Proof.
  split; [reflexivity |].
  exact (warning_exactly_when_run_fit (collab := Demo.collab) [Demo.good]
           Demo.blink_df pd_DataFrame tt "EEG-E8" true Demo.state_empty eq_refl).
Defined.

Lemma result_lists_segments_in_order_witness :
  exists t,
    (compute_segment_blink_properties (collab := Demo.collab) [Demo.good; Demo.good]
       Demo.blink_df tt "EEG-E8" false Demo.state0).2 = Ok t
    /\ (t = pd_DataFrame
        \/ exists positions,
            getitem t "seg_id" = Ok ((fun j => CInt (Z.of_nat j)) <$> positions)
            /\ StronglySorted le positions
            /\ Forall (fun j => (j < 2)%nat /\ has_candidate Demo.candidates j)
                      positions).
Proof.
  assert (Hrun : exists t,
            (compute_segment_blink_properties (collab := Demo.collab)
               [Demo.good; Demo.good] Demo.blink_df tt "EEG-E8" false Demo.state0).2
            = Ok t) by (eexists; vm_compute; reflexivity).
  destruct Hrun as (t & Ht). exists t. split; [exact Ht |].
  exact (result_lists_segments_in_order (collab := Demo.collab) [Demo.good; Demo.good]
           Demo.blink_df Demo.candidates tt "EEG-E8" false Demo.state0 t eq_refl Ht).
Defined.

Lemma rows_without_position_are_ignored_witness :
  getitem Cases.unlabelled "seg_id" = Ok [CFloat 0; CFloat 1; CFloat nan]
  /\ never_matching (CFloat nan)
  /\ (compute_segment_blink_properties (collab := Demo.collab) [Demo.good; Demo.good]
        Demo.blink_df tt "EEG-E8" false
        (Cases.state_of (getitem_mask Cases.unlabelled [true; true; false]))).2
     = (compute_segment_blink_properties (collab := Demo.collab) [Demo.good; Demo.good]
          Demo.blink_df tt "EEG-E8" false (Cases.state_of Cases.unlabelled)).2.
Proof.
  split; [reflexivity |]. split; [right; left; reflexivity |].
  refine (proj1 (rows_without_position_are_ignored (collab := Demo.collab)
            [Demo.good; Demo.good] Demo.blink_df Cases.unlabelled tt "EEG-E8" false
            (Cases.state_of Cases.unlabelled)
            (Cases.state_of (getitem_mask Cases.unlabelled [true; true; false]))
            [true; true; false] [CFloat 0; CFloat 1; CFloat nan]
            eq_refl eq_refl eq_refl eq_refl _ eq_refl)).
  intros [|[|[|j]]] c Hk Hc; try discriminate.
  injection Hc as <-. right. left. reflexivity.
Defined.

Lemma window_index_out_of_range_raises_witness :
  5 ∈ [2; 3; 5]
  /\ Z.of_nat (length LineIntersection.Demo.triangle) <= 5
  /\ LineIntersection.lines_intersection_matlabx (fork := LineIntersection.Demo.fork)
       LineIntersection.Demo.triangle [2; 3; 5] [0; 1; 2]
     = Raise (Exception "IndexError").
Proof.
  assert (Hin : 5 ∈ [2; 3; 5]) by (do 2 right; left).
  assert (Hlen : Z.of_nat (length LineIntersection.Demo.triangle) <= 5)
    by (vm_compute; discriminate).
  split; [exact Hin |]. split; [exact Hlen |].
  exact (window_index_out_of_range_raises (fork := LineIntersection.Demo.fork)
           LineIntersection.Demo.triangle [2; 3; 5] [0; 1; 2] 5
           (or_introl Hin) (or_intror Hlen)).
Defined.

(** ** The feature table of a recording *)

Section FeatureFacts.

Import SegmentFeatures.

Context {lib : FeatureLib}.

Lemma tr_bind_Ok {A B} (m : Tr A) (k : A -> Tr B) ev b :
  tr_bind m k = (ev, Ok b) ->
  exists ev1 a ev2, m = (ev1, Ok a) /\ k a = (ev2, Ok b) /\ ev = ev1 ++ ev2.
Proof.
  unfold tr_bind. destruct m as [ev1 [a|e]]; [| done].
  destruct (k a) as [ev2 r] eqn:Hk. intros [= <- ->]. by exists ev1, a, ev2.
Qed.

Lemma tr_lift_Ok {A} (r : Result A) ev a : tr_lift r = (ev, Ok a) -> r = Ok a /\ ev = [].
Proof. unfold tr_lift. by intros [= <- ->]. Qed.

(** What the record of a segment holds, read off a successful iteration. *)
Lemma segment_record_Ok channel sfreq seg_idx segment ev record :
  segment_record channel sfreq seg_idx segment = (ev, Ok record) ->
  exists signal time_feats freq_feats,
    rbind (get_data segment channel) (fun data => seq_index data 0) = Ok signal
    /\ compute_time_domain_features signal sfreq = Ok time_feats
    /\ compute_frequency_domain_features [] signal sfreq = Ok freq_feats
    /\ record = dict_update
                  (dict_update [("segment_index", CInt (Z.of_nat seg_idx))] time_feats)
                  freq_feats.
Proof.
  unfold segment_record. intros H.
  apply tr_bind_Ok in H as (? & ? & ? & _ & H & _).
  apply tr_bind_Ok in H as (? & data & ? & [Hdata _]%tr_lift_Ok & H & _).
  apply tr_bind_Ok in H as (? & signal & ? & [Hsig _]%tr_lift_Ok & H & _).
  apply tr_bind_Ok in H as (? & ? & ? & _ & H & _).
  apply tr_bind_Ok in H as (? & time_feats & ? & [Htime _]%tr_lift_Ok & H & _).
  apply tr_bind_Ok in H as (? & ? & ? & _ & H & _).
  apply tr_bind_Ok in H as (? & freq_feats & ? & [Hfreq _]%tr_lift_Ok & H & _).
  injection H as _ <-. exists signal, time_feats, freq_feats.
  by rewrite Hdata; cbn [rbind].
Qed.

Lemma collect_records_Ok channel sfreq segments :
  forall seg_idx records ev out,
    collect_records channel sfreq seg_idx segments records = (ev, Ok out) ->
    exists new,
      out = records ++ new
      /\ length new = length segments
      /\ forall j segment,
          segments !! j = Some segment ->
          exists record ev',
            new !! j = Some record
            /\ segment_record channel sfreq (seg_idx + j) segment = (ev', Ok record).
Proof.
  induction segments as [|segment segments IH]; intros seg_idx records ev out H.
  - injection H as _ <-. exists []. by rewrite app_nil_r.
  - cbn [collect_records] in H.
    apply tr_bind_Ok in H as (ev1 & record & ev2 & Hrec & H & _).
    apply IH in H as (new & -> & Hlen & Hall).
    exists (record :: new). split; [by rewrite <- app_assoc |].
    split; [cbn [length]; lia |].
    intros [|j] seg Hj.
    + injection Hj as <-. exists record, ev1. by rewrite Nat.add_0_r.
    + destruct (Hall j seg Hj) as (r & ev' & Hr & Hrun).
      exists r, ev'. split; [done |].
      by replace (seg_idx + S j)%nat with (S seg_idx + j)%nat by lia.
Qed.

Lemma process_file_Ok raw_path channel ev df :
  process_file raw_path channel = (ev, Ok df) ->
  exists raw segments records,
    read_raw_fif raw_path = Ok raw
    /\ slice_raw_into_epochs raw 30 = Ok segments
    /\ df = pd_DataFrame_of records
    /\ length records = length segments
    /\ (forall j segment,
          segments !! j = Some segment ->
          exists record ev',
            records !! j = Some record
            /\ segment_record channel (info_sfreq raw) j segment = (ev', Ok record))
    /\ last ev = Some (Log_computed (length segments)).
Proof.
  unfold process_file. intros H.
  apply tr_bind_Ok in H as (? & ? & ? & _ & H & ->).
  apply tr_bind_Ok in H as (? & ? & ? & _ & H & ->).
  apply tr_bind_Ok in H as (? & raw & ? & [Hraw _]%tr_lift_Ok & H & ->).
  apply tr_bind_Ok in H as (? & ? & ? & _ & H & ->).
  apply tr_bind_Ok in H as (? & segments & ? & [Hseg _]%tr_lift_Ok & H & ->).
  apply tr_bind_Ok in H as (? & records & ? & Hrecs & H & ->).
  apply tr_bind_Ok in H as (? & ? & ? & [= <- _] & H & ->).
  injection H as <- <-.
  apply collect_records_Ok in Hrecs as (new & -> & Hlen & Hall).
  exists raw, segments, new. cbn [app] in *.
  split_and!; try done.
  rewrite !app_assoc, last_snoc. cbn [pd_DataFrame_of df_index].
  by rewrite length_fmap, length_seq, Hlen.
Qed.

Lemma assoc_lookup_keyed_Some {A} (f : string -> A) names name c :
  assoc_lookup name ((fun n => (n, f n)) <$> names) = Some c -> c = f name.
Proof.
  induction names as [|m names IH]; [done |].
  cbn [fmap list_fmap assoc_lookup]. destruct (decide (m = name)) as [->|Hne]; [| done].
  by intros [= <-].
Qed.

Lemma getitem_pd_DataFrame_of records name col :
  getitem (pd_DataFrame_of records) name = Ok col ->
  col = (fun r => default (CFloat nan) (assoc_lookup name r)) <$> records.
Proof.
  unfold getitem, pd_DataFrame_of. cbn [df_columns].
  destruct (assoc_lookup name _) as [c|] eqn:Hl; [| done]. intros [= <-].
  by apply (assoc_lookup_keyed_Some
              (fun n => (fun r => default (CFloat nan) (assoc_lookup n r)) <$> records))
    in Hl.
Qed.

(** X10: a table that [process_file] returns has exactly one row for each
    segment the recording was cut into, numbered from zero, every column has
    one value for each row, and the count that is logged last is that number
    of segments; a recording cut into no segment gives [pd.DataFrame()]. *)
Theorem one_row_per_segment raw_path channel ev df :
  process_file raw_path channel = (ev, Ok df) ->
  exists raw segments,
    read_raw_fif raw_path = Ok raw
    /\ slice_raw_into_epochs raw 30 = Ok segments
    /\ df_index df = Z.of_nat <$> seq 0 (length segments)
    /\ Forall (fun column => length column.2 = length segments) (df_columns df)
    /\ last ev = Some (Log_computed (length segments))
    /\ (segments = [] -> df = pd_DataFrame).
Proof.
  intros (raw & segments & records & Hraw & Hseg & -> & Hlen & _ & Hlast)%process_file_Ok.
  exists raw, segments. split_and!; try done.
  - cbn [pd_DataFrame_of df_index]. by rewrite Hlen.
  - cbn [pd_DataFrame_of df_columns]. apply Forall_fmap, Forall_forall.
    intros name _. cbn [compose snd]. by rewrite length_fmap.
  - intros ->. by destruct records.
Qed.

Lemma assoc_lookup_assoc_set {A} k k0 (v : A) d :
  assoc_lookup k (assoc_set k0 v d)
  = if decide (k0 = k) then Some v else assoc_lookup k d.
Proof.
  destruct (decide (k0 = k)) as [->|Hne].
  - apply assoc_lookup_set_eq.
  - by apply assoc_lookup_set_ne.
Qed.

(** Reading a dict after [update]: the other dict's value if it has the key,
    the old value otherwise. *)
Lemma dict_update_lookup other : forall d k,
  NoDup other.*1 ->
  assoc_lookup k (dict_update d other)
  = match assoc_lookup k other with
    | Some v => Some v
    | None => assoc_lookup k d
    end.
Proof.
  unfold dict_update. induction other as [|[k0 v0] other IH]; intros d k Hnd; [done |].
  cbn [fmap list_fmap fst] in Hnd. apply NoDup_cons in Hnd as [Hnotin Hnd].
  cbn [foldl fst snd assoc_lookup]. rewrite IH by done.
  rewrite assoc_lookup_assoc_set.
  destruct (decide (k0 = k)) as [->|Hne]; [| done].
  destruct (assoc_lookup k other) as [v|] eqn:Hl; [| done].
  exfalso. apply Hnotin. clear -Hl.
  induction other as [|[k1 v1] other IH]; [done |].
  cbn [assoc_lookup fmap list_fmap fst] in *.
  destruct (decide (k1 = k)) as [->|Hne]; [left | right; by apply IH].
Qed.

(** X11: in a table that [process_file] returns, the value of a column in
    the row of a segment is the frequency feature of that name, else the
    time feature of that name, else the position of the segment if the
    column is [segment_index], else NaN; both feature sets are computed from
    the channel signal of the segment at the sampling rate of the whole
    recording, not of the segment. *)
Theorem features_by_precedence raw_path channel ev df :
  (forall signal sfreq d,
     compute_time_domain_features signal sfreq = Ok d -> NoDup d.*1) ->
  (forall blinks signal sfreq d,
     compute_frequency_domain_features blinks signal sfreq = Ok d -> NoDup d.*1) ->
  process_file raw_path channel = (ev, Ok df) ->
  exists raw segments,
    read_raw_fif raw_path = Ok raw
    /\ slice_raw_into_epochs raw 30 = Ok segments
    /\ forall j segment,
        segments !! j = Some segment ->
        exists signal time_feats freq_feats,
          rbind (get_data segment channel) (fun data => seq_index data 0) = Ok signal
          /\ compute_time_domain_features signal (info_sfreq raw) = Ok time_feats
          /\ compute_frequency_domain_features [] signal (info_sfreq raw)
             = Ok freq_feats
          /\ forall name col,
              getitem df name = Ok col ->
              col !! j
              = Some (match assoc_lookup name freq_feats with
                      | Some v => v
                      | None =>
                          match assoc_lookup name time_feats with
                          | Some v => v
                          | None =>
                              if decide (name = "segment_index")
                              then CInt (Z.of_nat j)
                              else CFloat nan
                          end
                      end).
Proof.
  intros Htime Hfreq
    (raw & segments & records & Hraw & Hseg & -> & Hlen & Hall & _)%process_file_Ok.
  exists raw, segments. split_and!; try done.
  intros j segment Hj. destruct (Hall j segment Hj) as (record & ev' & Hrec & Hrun).
  apply segment_record_Ok in Hrun as (signal & tf & ff & Hsig & Ht & Hf & ->).
  exists signal, tf, ff. split_and!; try done.
  intros name col ->%getitem_pd_DataFrame_of.
  rewrite list_lookup_fmap, Hrec. cbn [fmap option_fmap option_map]. f_equal.
  rewrite !dict_update_lookup by eauto.
  destruct (assoc_lookup name ff); [done |].
  destruct (assoc_lookup name tf); [done |].
  cbn [assoc_lookup]. by destruct (decide ("segment_index" = name)) as [<-|];
    destruct (decide (_ = "segment_index")).
Qed.

(** X12: if any segment of the recording lacks the channel, [process_file]
    raises and returns no table at all, also not the rows of the segments
    before it. *)
Theorem segment_without_channel_raises raw_path channel raw segments segment :
  read_raw_fif raw_path = Ok raw ->
  slice_raw_into_epochs raw 30 = Ok segments ->
  segment ∈ segments ->
  channel ∉ ch_names segment ->
  exists e, (process_file raw_path channel).2 = Raise e.
Proof.
  intros Hraw Hseg Hin Hmiss.
  destruct (process_file raw_path channel) as [ev [df|e]] eqn:Hrun; [| by exists e].
  exfalso.
  apply process_file_Ok in Hrun
    as (raw' & segments' & records & Hraw' & Hseg' & _ & _ & Hall & _).
  rewrite Hraw in Hraw'. injection Hraw' as <-.
  rewrite Hseg in Hseg'. injection Hseg' as <-.
  apply list_elem_of_lookup in Hin as (j & Hj).
  destruct (Hall j segment Hj) as (record & ev' & _ & Hrec).
  apply segment_record_Ok in Hrec as (signal & _ & _ & Hsig & _).
  unfold get_data in Hsig.
  assert (Hnone : index_of channel (ch_names segment) = None).
  { clear -Hmiss. induction (ch_names segment) as [|n names IH]; [done |].
    cbn [index_of]. apply not_elem_of_cons in Hmiss as [Hne Hmiss].
    rewrite decide_False by done. by rewrite IH. }
  by rewrite Hnone in Hsig.
Qed.

End FeatureFacts.

(** ** What stands outside the guarded call *)

Section UnguardedFacts.

Context {collab : Collaborators}.

(** X13: only the fit is guarded.  When the loop reaches a segment that has
    candidate rows, an exception raised by reading its channel, by
    constructing the fitter or, after a successful fit, by the property
    calculator ends the whole call with that very exception. *)
Theorem errors_outside_the_guard_end_the_call
    segments blink_df df params channel run_fit s k raw rows e :
  heap s !! blink_df = Some df ->
  segments !! k = Some raw ->
  (forall j raw_j e', (j < k)%nat -> segments !! j = Some raw_j ->
     (segment_run df params channel run_fit (first_sfreq segments) j raw_j).2
     <> Aborted e') ->
  prepared_rows df k = Ok rows ->
  df_empty rows = false ->
  rbind (get_data raw channel) (fun data => seq_index data 0) = Raise e
  \/ (exists signal,
        rbind (get_data raw channel) (fun data => seq_index data 0) = Ok signal
        /\ (FitBlinks signal rows params = Raise e
            \/ exists fitter fitter',
                FitBlinks signal rows params = Ok fitter
                /\ dprocess_segment_raw fitter run_fit = Ok fitter'
                /\ BlinkProperties signal (frame_blinks fitter')
                     (first_sfreq segments) params run_fit = Raise e)) ->
  (compute_segment_blink_properties segments blink_df params channel run_fit s).2
  = Raise e.
Proof.
  intros Hdf Hk Hbefore Hrows Hne Hcase.
  rewrite (returned _ _ _ _ _ _ _ Hdf).
  apply (call_run_first_abort segments df params channel run_fit k raw); try done.
  - by apply (prepared_rows_not_empty _ _ _ Hrows).
  - unfold segment_run. rewrite Hrows, Hne.
    destruct Hcase as [-> | (signal & -> & [-> | (fitter & fitter' & -> & -> & ->)])];
      done.
Qed.

End UnguardedFacts.

(** ** The samples the flank fits are run on *)

Section SampleFacts.

Import LineIntersection.

Context {fork : MatlabFork}.

Lemma fits_of_a_returned_result signal xRight xLeft r :
  lines_intersection_matlabx signal xRight xLeft = Ok r ->
  exists yLeft yRight fitLeft fitRight,
    np_take signal xLeft = Ok yLeft
    /\ np_take signal xRight = Ok yRight
    /\ polyfitMatlab xLeft yLeft 1 = Ok fitLeft
    /\ polyfitMatlab xRight yRight 1 = Ok fitRight.
Proof.
  unfold lines_intersection_matlabx, mbind, Result_bind. intros H.
  apply rbind_Ok in H as (yRight & HR & H).
  apply rbind_Ok in H as (yLeft & HL & H).
  apply rbind_Ok in H as (fitLeft & HfL & H). destruct fitLeft as [[pL SL] muL].
  apply rbind_Ok in H as ([yPred d] & _ & H).
  apply rbind_Ok in H as ([lR2 d'] & _ & H).
  apply rbind_Ok in H as (fitRight & HfR & H).
  by exists yLeft, yRight, (pL, SL, muL), fitRight.
Qed.

Lemma np_index_Ok signal i y :
  np_index signal i = Ok y ->
  - Z.of_nat (length signal) <= i < Z.of_nat (length signal)
  /\ signal !! Z.to_nat (i mod Z.of_nat (length signal)) = Some y.
Proof.
  unfold np_index.
  destruct ((0 <=? i) && (i <? Z.of_nat (length signal))) eqn:H1.
  - intros Hy%seq_index_Ok. split; [lia |]. rewrite Z.mod_small by lia. done.
  - destruct ((- Z.of_nat (length signal) <=? i) && (i <? 0)) eqn:H2; [| done].
    intros Hy%seq_index_Ok. split; [lia |].
    replace (i mod Z.of_nat (length signal)) with (i + Z.of_nat (length signal)); [done |].
    apply Z.mod_unique with (-1); lia.
Qed.

Lemma np_take_Ok signal x : forall y,
  np_take signal x = Ok y ->
  length y = length x
  /\ forall k i,
      x !! k = Some i ->
      - Z.of_nat (length signal) <= i < Z.of_nat (length signal)
      /\ y !! k = signal !! Z.to_nat (i mod Z.of_nat (length signal)).
Proof.
  unfold np_take. induction x as [|i x IH]; intros y; cbn [rmapM].
  - by intros [= <-].
  - destruct (np_index signal i) as [yi|] eqn:Hi; cbn [rbind]; [| done].
    destruct (rmapM (np_index signal) x) as [ys|] eqn:Hx; cbn [rbind]; [| done].
    intros [= <-]. destruct (IH ys eq_refl) as [Hlen Hall].
    split; [cbn [length]; lia |].
    intros [|k] i' Hk.
    + injection Hk as <-. apply np_index_Ok in Hi as [Hr Hy]. by rewrite Hy.
    + by apply Hall.
Qed.

(** X14: whenever [lines_intersection_matlabx] returns, each flank was
    fitted on one ordinate for each index of its window, every index lay
    from minus the length of the signal up to below its length, and the
    ordinate of an index is the sample at that index counted, when it is
    negative, from the end of the signal. *)
Theorem fits_run_on_the_window_samples signal xRight xLeft r :
  lines_intersection_matlabx signal xRight xLeft = Ok r ->
  exists yLeft yRight fitLeft fitRight,
    polyfitMatlab xLeft yLeft 1 = Ok fitLeft
    /\ polyfitMatlab xRight yRight 1 = Ok fitRight
    /\ length yLeft = length xLeft
    /\ length yRight = length xRight
    /\ (forall k i, xLeft !! k = Some i ->
          - Z.of_nat (length signal) <= i < Z.of_nat (length signal)
          /\ yLeft !! k = signal !! Z.to_nat (i mod Z.of_nat (length signal)))
    /\ (forall k i, xRight !! k = Some i ->
          - Z.of_nat (length signal) <= i < Z.of_nat (length signal)
          /\ yRight !! k = signal !! Z.to_nat (i mod Z.of_nat (length signal))).
Proof.
  intros H.
  destruct (fits_of_a_returned_result signal xRight xLeft r H)
    as (yLeft & yRight & fitLeft & fitRight & HL & HR & HfL & HfR).
  exists yLeft, yRight, fitLeft, fitRight.
  destruct (np_take_Ok _ _ _ HL) as [HlenL HallL].
  destruct (np_take_Ok _ _ _ HR) as [HlenR HallR].
  by split_and!.
Qed.

End SampleFacts.

(** ** These facts at work on small cases *)

Lemma one_row_per_segment_witness :
  exists ev df,
    SegmentFeatures.process_file (lib := SegmentFeatures.Demo.lib) "ear_eog.fif" "EEG-E8"
    = (ev, Ok df)
    /\ df_index df = [0; 1]
    /\ last ev = Some (SegmentFeatures.Log_computed 2).
Proof.
  assert (Hrun : exists ev df,
            SegmentFeatures.process_file (lib := SegmentFeatures.Demo.lib)
              "ear_eog.fif" "EEG-E8" = (ev, Ok df))
    by (do 2 eexists; vm_compute; reflexivity).
  destruct Hrun as (ev & df & Hrun). exists ev, df. split; [exact Hrun |].
  destruct (one_row_per_segment (lib := SegmentFeatures.Demo.lib) "ear_eog.fif" "EEG-E8"
              ev df Hrun) as (raw & segments & Hraw & Hseg & Hidx & _ & Hlast & _).
  injection Hseg as <-. split; [exact Hidx | exact Hlast].
Defined.

Lemma features_by_precedence_witness :
  exists ev df,
    SegmentFeatures.process_file (lib := SegmentFeatures.Demo.lib) "ear_eog.fif" "EEG-E8"
    = (ev, Ok df)
    /\ forall col, getitem df "rate" = Ok col -> col !! 1%nat = Some (CFloat 125).
Proof.
  assert (Hrun : exists ev df,
            SegmentFeatures.process_file (lib := SegmentFeatures.Demo.lib)
              "ear_eog.fif" "EEG-E8" = (ev, Ok df))
    by (do 2 eexists; vm_compute; reflexivity).
  destruct Hrun as (ev & df & Hrun). exists ev, df. split; [exact Hrun |].
  destruct (features_by_precedence (lib := SegmentFeatures.Demo.lib) "ear_eog.fif"
              "EEG-E8" ev df) as (raw & segments & Hraw & Hseg & Hall).
  - intros signal sfreq d [= <-]. apply (bool_decide_unpack _). vm_compute. exact I.
  - intros blinks signal sfreq d [= <-]. apply (bool_decide_unpack _). vm_compute. exact I.
  - exact Hrun.
  - injection Hraw as <-. injection Hseg as <-.
    destruct (Hall 1%nat SegmentFeatures.Demo.second eq_refl)
      as (signal & tf & ff & Hsig & Ht & Hf & Hcol).
    injection Hsig as <-. injection Ht as <-. injection Hf as <-.
    intros col Hc. rewrite (Hcol "rate" col Hc). vm_compute. reflexivity.
Defined.

Lemma segment_without_channel_raises_witness :
  (SegmentFeatures.Demo.silent
     ∈ [SegmentFeatures.Demo.first; SegmentFeatures.Demo.silent;
        SegmentFeatures.Demo.second])
  /\ ("EEG-E8" ∉ ch_names SegmentFeatures.Demo.silent)
  /\ exists e,
      (SegmentFeatures.process_file (lib := SegmentFeatures.Demo.lib_silent)
         "ear_eog.fif" "EEG-E8").2 = Raise e.
Proof.
  assert (Hin : SegmentFeatures.Demo.silent
                  ∈ [SegmentFeatures.Demo.first; SegmentFeatures.Demo.silent;
                     SegmentFeatures.Demo.second]) by (right; left).
  assert (Hmiss : "EEG-E8" ∉ ch_names SegmentFeatures.Demo.silent)
    by (apply (bool_decide_unpack _); vm_compute; exact I).
  split; [exact Hin |]. split; [exact Hmiss |].
  exact (segment_without_channel_raises (lib := SegmentFeatures.Demo.lib_silent)
           "ear_eog.fif" "EEG-E8" SegmentFeatures.Demo.recording
           [SegmentFeatures.Demo.first; SegmentFeatures.Demo.silent;
            SegmentFeatures.Demo.second]
           SegmentFeatures.Demo.silent eq_refl eq_refl Hin Hmiss).
Defined.

Lemma errors_outside_the_guard_end_the_call_witness :
  BlinkProperties (Collaborators := Demo.collab) [nan; nan; nan]%float
    (mkDataFrame [0]
       [("seg_id", [CInt 0]); ("blink_id", [CInt 0]);
        ("start_blink", [CInt 100]); ("end_blink", [CInt 200]);
        ("outer_start", [CInt 80]); ("outer_end", [CInt 220]);
        ("left_zero", [CInt 90]); ("right_zero", [CInt 210])])
    250 tt false = Raise (Exception "ValueError")
  /\ (compute_segment_blink_properties (collab := Demo.collab) [Demo.bad; Demo.good]
        Demo.blink_df tt "EEG-E8" false Demo.state0).2
     = Raise (Exception "ValueError").
Proof.
  split; [reflexivity |].
  refine (errors_outside_the_guard_end_the_call (collab := Demo.collab)
            [Demo.bad; Demo.good] Demo.blink_df Demo.candidates tt "EEG-E8" false
            Demo.state0 0%nat Demo.bad
            (mkDataFrame [0]
               [("seg_id", [CInt 0]); ("blink_id", [CInt 0]);
                ("start_blink", [CInt 100]); ("end_blink", [CInt 200]);
                ("outer_start", [CInt 80]); ("outer_end", [CInt 220]);
                ("left_zero", [CInt 90]); ("right_zero", [CInt 210])])
            (Exception "ValueError") eq_refl eq_refl _ _ eq_refl _).
  - intros j raw_j e' Hj. lia.
  - vm_compute. reflexivity.
  - right. exists [nan; nan; nan]%float. split; [reflexivity |]. right.
    eexists _, _. split; [reflexivity |]. split; reflexivity.
Defined.

Lemma fits_run_on_the_window_samples_witness :
  exists r yLeft,
    LineIntersection.lines_intersection_matlabx (fork := LineIntersection.Demo.fork)
      LineIntersection.Demo.triangle [2; 3; 4] [-5; -4; -3] = Ok r
    /\ length yLeft = 3%nat
    /\ yLeft !! 0%nat = LineIntersection.Demo.triangle !! 0%nat.
Proof.
  assert (Hrun : exists r,
            LineIntersection.lines_intersection_matlabx
              (fork := LineIntersection.Demo.fork)
              LineIntersection.Demo.triangle [2; 3; 4] [-5; -4; -3] = Ok r)
    by (eexists; vm_compute; reflexivity).
  destruct Hrun as (r & Hrun).
  destruct (fits_run_on_the_window_samples (fork := LineIntersection.Demo.fork)
              LineIntersection.Demo.triangle [2; 3; 4] [-5; -4; -3] r Hrun)
    as (yLeft & yRight & fitLeft & fitRight & _ & _ & HlenL & _ & HallL & _).
  exists r, yLeft. split; [exact Hrun |]. split; [exact HlenL |].
  exact (proj2 (HallL 0%nat (-5) eq_refl)).
Defined.

(** ** The window drawn around a blink *)

Section WindowFacts.

Context {builtins : BlinkReport.Builtins}.

Import BlinkReport.

Lemma np_max_Ok (x : list float) (y : float) : np_max x = Ok y -> x <> [].
Proof. destruct x; [discriminate | done]. Qed.

Lemma np_arange_length (a b : Z) : length (np_arange a b) = Z.to_nat (b - a).
Proof. unfold np_arange. by rewrite length_fmap, length_seq. Qed.

Lemma py_slice_window (signal : list float) (ws we : Z) :
  0 <= ws -> 0 <= we + 1 <= Z.of_nat (length signal) ->
  py_slice signal ws (we + 1) <> [] ->
  ws <= we
  /\ py_slice signal ws (we + 1)
     = take (Z.to_nat (we + 1 - ws)) (drop (Z.to_nat ws) signal).
Proof.
  intros Hws Hwe. unfold py_slice.
  destruct (Z.ltb_spec (we + 1) 0) as [|_]; [lia |].
  destruct (Z.ltb_spec ws 0) as [|_]; [lia |].
  intros Hne.
  assert (Hlt : ws <= we).
  { destruct (Z_le_gt_dec ws we) as [|Hgt]; [done |]. exfalso. apply Hne.
    replace (Z.to_nat (Z.min (we + 1) (Z.of_nat (length signal))
                       - Z.min ws (Z.of_nat (length signal)))) with 0%nat by lia.
    done. }
  split; [done |].
  rewrite !Z.min_l by lia. done.
Qed.

Lemma blink_window_Ok (signal : list float) (sfreq : float)
    (row : list (string * Cell)) (w : Window) :
  blink_window signal sfreq row = Ok w ->
  row_indices row = Ok (start_idx w, end_idx w, left_zero w, right_zero w)
  /\ win_start w
     = Z.max 0 ((if left_zero w <? start_idx w then left_zero w else start_idx w) - 10)
  /\ win_end w
     = Z.min (Z.of_nat (length signal) - 1)
         (match right_zero w with
          | Some z => if z >? end_idx w then z else end_idx w
          | None => end_idx w
          end + 10)
  /\ times w = (fun k => float_of_Z k / sfreq)%float
                 <$> np_arange (win_start w) (win_end w + 1)
  /\ window_data w = py_slice signal (win_start w) (win_end w + 1)
  /\ window_data w <> [].
Proof.
  unfold blink_window. intros H.
  destruct (row_indices row) as [[[[s e] l] rz] | ex]; [| discriminate].
  cbn in H.
  match type of H with
  | context [np_max ?x] => destruct (np_max x) as [y | ex] eqn:Hmax; [| discriminate]
  end.
  cbn in H. injection H as <-. cbn.
  repeat split; try done. by eapply np_max_Ok.
Qed.

Lemma window_samples (signal : list float) (sfreq : float)
    (row : list (string * Cell)) (w : Window) :
  blink_window signal sfreq row = Ok w ->
  0 <= win_end w + 1 ->
  (0 <= win_start w <= win_end w /\ win_end w < Z.of_nat (length signal))
  /\ length (window_data w) = Z.to_nat (win_end w - win_start w + 1)
  /\ length (times w) = length (window_data w)
  /\ forall k, win_start w <= k <= win_end w ->
       window_data w !! Z.to_nat (k - win_start w) = signal !! Z.to_nat k.
Proof.
  intros Hw Hend.
  destruct (blink_window_Ok _ _ _ _ Hw) as (_ & Hws & Hwe & Ht & Hd & Hne).
  assert (H0 : 0 <= win_start w) by (rewrite Hws; lia).
  assert (Hn : win_end w + 1 <= Z.of_nat (length signal)) by (rewrite Hwe; lia).
  rewrite Hd in Hne.
  destruct (py_slice_window signal _ _ H0 (conj Hend Hn) Hne) as (Hle & Hslice).
  rewrite Hd, Hslice, Ht, length_fmap, np_arange_length, length_take, length_drop.
  split; [lia |]. split; [lia |]. split; [lia |].
  intros k Hk. rewrite lookup_take_lt by lia. rewrite lookup_drop.
  f_equal. lia.
Qed.

(** X15: a window that is drawn for a blink ending at a non-negative sample
    lies inside the signal: it starts at or after sample 0, ends before the
    last sample or on it, is not empty, holds exactly the samples of the
    signal at its positions, and has one time value per sample. *)
Theorem window_lies_in_the_signal (signal : list float) (sfreq : float)
    (row : list (string * Cell)) (w : Window) :
  blink_window signal sfreq row = Ok w ->
  0 <= end_idx w ->
  (0 <= win_start w <= win_end w /\ win_end w < Z.of_nat (length signal))
  /\ length (window_data w) = Z.to_nat (win_end w - win_start w + 1)
  /\ length (times w) = length (window_data w)
  /\ forall k, win_start w <= k <= win_end w ->
       window_data w !! Z.to_nat (k - win_start w) = signal !! Z.to_nat k.
Proof.
  intros Hw He. apply (window_samples signal sfreq row w Hw).
  destruct (blink_window_Ok _ _ _ _ Hw) as (_ & _ & Hwe & _).
  rewrite Hwe. destruct (right_zero w) as [z |]; [destruct (Z.gtb_spec z (end_idx w)) |]; lia.
Qed.

(** X16: every sample of the signal that lies no more than ten samples
    before the start of the blink (or its left zero crossing) and no more
    than ten samples after its end (or its right zero crossing) is in the
    drawn window, at its offset from the window start. *)
Theorem window_keeps_ten_samples_around_the_blink (signal : list float)
    (sfreq : float) (row : list (string * Cell)) (w : Window) (k : Z) :
  blink_window signal sfreq row = Ok w ->
  0 <= k < Z.of_nat (length signal) ->
  start_idx w - 10 <= k \/ left_zero w - 10 <= k ->
  k <= end_idx w + 10 \/ (exists z, right_zero w = Some z /\ k <= z + 10) ->
  (win_start w <= k <= win_end w)
  /\ exists y, signal !! Z.to_nat k = Some y
               /\ window_data w !! Z.to_nat (k - win_start w) = Some y.
Proof.
  intros Hw Hk Hlo Hhi.
  destruct (blink_window_Ok _ _ _ _ Hw) as (_ & Hws & Hwe & _).
  assert (Hin : win_start w <= k <= win_end w).
  { rewrite Hws, Hwe. split.
    - destruct (Z.ltb_spec (left_zero w) (start_idx w)); lia.
    - destruct Hhi as [He | (z & -> & Hz)].
      + destruct (right_zero w) as [z |]; [destruct (Z.gtb_spec z (end_idx w)) |]; lia.
      + destruct (Z.gtb_spec z (end_idx w)); lia. }
  split; [exact Hin |].
  destruct (window_samples signal sfreq row w Hw ltac:(lia)) as (_ & _ & _ & Hall).
  destruct (lookup_lt_is_Some_2 signal (Z.to_nat k) ltac:(lia)) as (y & Hy).
  exists y. split; [exact Hy |]. by rewrite (Hall k Hin).
Qed.

Lemma py_slice_beyond (signal : list float) (ws we : Z) :
  Z.of_nat (length signal) <= ws -> we < Z.of_nat (length signal) ->
  py_slice signal ws (we + 1) = [].
Proof.
  intros Hws Hwe. unfold py_slice.
  destruct (Z.ltb_spec ws 0) as [|_]; [lia |].
  match goal with
  | |- take ?n _ = _ => replace n with 0%nat; [done |]
  end.
  destruct (Z.ltb_spec (we + 1) 0); lia.
Qed.

(** X17: a row whose indices convert but whose blink starts more than ten
    samples beyond the end of the signal - or any such row on a signal with
    no samples - has an empty window, and the maximum of the empty window
    raises ValueError: no figure is drawn for it. *)
Theorem blink_beyond_the_signal_raises (signal : list float) (sfreq : float)
    (row : list (string * Cell)) (s e l : Z) (rz : option Z) :
  row_indices row = Ok (s, e, l, rz) ->
  signal = [] \/ Z.of_nat (length signal) + 10 <= Z.min l s ->
  blink_window signal sfreq row = Raise (Exception "ValueError").
Proof.
  intros Hrow Hbeyond. unfold blink_window. rewrite Hrow. cbn.
  rewrite py_slice_beyond; [done | |].
  - destruct Hbeyond as [-> | Hb]; [cbn; lia |].
    destruct (Z.ltb_spec l s); lia.
  - lia.
Qed.

(** X18: a row whose indices convert, with a blink that does not end before
    it starts, ends at a non-negative sample and starts less than ten
    samples beyond the end of a signal that has samples, gets its window:
    the computation returns, with the indices of the row. *)
Theorem blink_near_the_signal_has_a_window (signal : list float) (sfreq : float)
    (row : list (string * Cell)) (s e l : Z) (rz : option Z) :
  row_indices row = Ok (s, e, l, rz) ->
  signal <> [] ->
  s <= e -> 0 <= e ->
  Z.min l s < Z.of_nat (length signal) + 10 ->
  exists w, blink_window signal sfreq row = Ok w
            /\ start_idx w = s /\ end_idx w = e
            /\ left_zero w = l /\ right_zero w = rz.
Proof.
  intros Hrow Hne Hse He Hnear. unfold blink_window. rewrite Hrow. cbn.
  match goal with
  | |- context [np_max ?x] => destruct (np_max x) as [y | ex] eqn:Hmax
  end.
  - cbn. eexists. split; [reflexivity |]. done.
  - exfalso. revert Hmax.
    match goal with
    | |- np_max ?x = _ -> _ => assert (Hlen : (0 < length x)%nat)
    end.
    { assert (Hsz : 0 < Z.of_nat (length signal))
        by (destruct signal; [done | cbn; lia]).
      unfold py_slice. set (n := Z.of_nat (length signal)) in *.
      set (ws := Z.max 0 ((if l <? s then l else s) - 10)).
      set (we := Z.min (n - 1)
                   (match rz with Some z => if z >? e then z else e | None => e end + 10)).
      assert (Hws : 0 <= ws < n) by (unfold ws; destruct (Z.ltb_spec l s); lia).
      assert (Hwe : ws <= we < n).
      { unfold ws, we. destruct (Z.ltb_spec l s);
          (destruct rz as [z |]; [destruct (Z.gtb_spec z e) |]); lia. }
      destruct (Z.ltb_spec (we + 1) 0); [lia |].
      destruct (Z.ltb_spec ws 0); [lia |].
      rewrite length_take, length_drop. lia. }
    match goal with
    | |- np_max ?x = _ -> _ => destruct x; [cbn in Hlen; lia | discriminate]
    end.
Qed.

End WindowFacts.

Lemma window_lies_in_the_signal_witness :
  exists w,
    BlinkReport.blink_window (builtins := BlinkReport.Demo.builtins)
      BlinkReport.Demo.signal 250 BlinkReport.Demo.row = Ok w
    /\ 0 <= BlinkReport.win_start w <= BlinkReport.win_end w
    /\ BlinkReport.win_end w < 40.
Proof.
  assert (Hrun : exists w,
            BlinkReport.blink_window (builtins := BlinkReport.Demo.builtins)
              BlinkReport.Demo.signal 250 BlinkReport.Demo.row = Ok w
            /\ 0 <= BlinkReport.end_idx w)
    by (eexists; split; [vm_compute; reflexivity | vm_compute; discriminate]).
  destruct Hrun as (w & Hrun & He).
  exists w. split; [exact Hrun |].
  exact (proj1 (window_lies_in_the_signal (builtins := BlinkReport.Demo.builtins)
                  BlinkReport.Demo.signal 250 BlinkReport.Demo.row w Hrun He)).
Defined.

Lemma window_keeps_ten_samples_around_the_blink_witness :
  exists w,
    BlinkReport.blink_window (builtins := BlinkReport.Demo.builtins)
      BlinkReport.Demo.signal 250 BlinkReport.Demo.row = Ok w
    /\ BlinkReport.win_start w <= 5 <= BlinkReport.win_end w.
Proof.
  assert (Hrun : exists w,
            BlinkReport.blink_window (builtins := BlinkReport.Demo.builtins)
              BlinkReport.Demo.signal 250 BlinkReport.Demo.row = Ok w
            /\ BlinkReport.start_idx w - 10 <= 5
            /\ 5 <= BlinkReport.end_idx w + 10)
    by (eexists; split; [vm_compute; reflexivity |];
        split; vm_compute; discriminate).
  destruct Hrun as (w & Hrun & Hlo & Hhi).
  exists w. split; [exact Hrun |].
  refine (proj1 (window_keeps_ten_samples_around_the_blink
                   (builtins := BlinkReport.Demo.builtins)
                   BlinkReport.Demo.signal 250 BlinkReport.Demo.row w 5
                   Hrun _ (or_introl Hlo) (or_introl Hhi))).
  vm_compute. split; [discriminate | reflexivity].
Defined.

Lemma blink_beyond_the_signal_raises_witness :
  BlinkReport.blink_window (builtins := BlinkReport.Demo.builtins)
    BlinkReport.Demo.signal 250 BlinkReport.Demo.late_row
  = Raise (Exception "ValueError").
Proof.
  refine (blink_beyond_the_signal_raises (builtins := BlinkReport.Demo.builtins)
            BlinkReport.Demo.signal 250 BlinkReport.Demo.late_row
            60 70 58 (Some 72) _ (or_intror _)).
  - vm_compute. reflexivity.
  - vm_compute. discriminate.
Defined.

Lemma blink_near_the_signal_has_a_window_witness :
  exists w,
    BlinkReport.blink_window (builtins := BlinkReport.Demo.builtins)
      BlinkReport.Demo.signal 250 BlinkReport.Demo.row = Ok w
    /\ BlinkReport.start_idx w = 15 /\ BlinkReport.end_idx w = 25
    /\ BlinkReport.left_zero w = 12 /\ BlinkReport.right_zero w = None.
Proof.
  refine (blink_near_the_signal_has_a_window (builtins := BlinkReport.Demo.builtins)
            BlinkReport.Demo.signal 250 BlinkReport.Demo.row 15 25 12 None
            _ _ _ _ _).
  - vm_compute. reflexivity.
  - discriminate.
  - lia.
  - lia.
  - vm_compute. reflexivity.
Defined.
